(** * super-bot: the Telegram listener and the bounded message history

    A shallow embedding of the Telegram listener of package [events] (event
    loop, delivery with the plain-text fallback, message transformation)
    and of the two [LimitedMessageHistory] variants of the OpenAI bot,
    together with the properties the specification states about them.

    Conventions.
    - Go [int], [int64] and [time.Duration] values are [Z].
    - A Go pointer that may be nil is an [option]; a dereference that the
      source guards with a nil test is a [match], an unguarded one yields
      [Panics NilDereference] on [None].
    - A slice whose nil-ness the source inspects is a [Go.slice]
      ([None] is the nil slice); other slices are plain lists.
    - Code that can panic returns an [outcome].
    - Collaborators behind Go interfaces ([tbAPI], [msgLogger],
      [bot.Interface]) are type classes over an abstract collaborator
      state; every call on them is recorded, in order, in a trace. *)

From Stdlib Require Import ZArith Lia Ascii.
From stdpp Require Import base option list gmap strings pretty.

Local Open Scope Z_scope.
Set Warnings "-register-all".

(** ** Go runtime notions *)

Module Go.

Inductive panic : Type :=
| NilDereference
| IndexOutOfRange
| MakeSliceCapOutOfRange
| IntnNonPositive.

Inductive outcome (A : Type) : Type :=
| Returns (a : A)
| Panics (p : panic).
Arguments Returns {A} a.
Arguments Panics {A} p.

Definition bind {A B : Type} (x : outcome A) (f : A -> outcome B) : outcome B :=
  match x with
  | Returns a => f a
  | Panics p => Panics p
  end.

(** [[]T]: [None] is the nil slice, [Some l] a non-nil slice. *)
Definition slice (A : Type) : Type := option (list A).

Definition elems {A : Type} (s : slice A) : list A :=
  match s with
  | Some l => l
  | None => []
  end.

Definition len {A : Type} (s : slice A) : Z := Z.of_nat (length (elems s)).

Definition is_nil {A : Type} (s : slice A) : bool :=
  match s with
  | Some _ => false
  | None => true
  end.

(** [s[i]] on the elements of a slice, with the bounds check. *)
Definition index {A : Type} (l : list A) (i : Z) : outcome A :=
  if i <? 0 then Panics IndexOutOfRange
  else match l !! Z.to_nat i with
       | Some a => Returns a
       | None => Panics IndexOutOfRange
       end.

(** [make([]T, 0, cap)]: panics on a negative capacity. *)
Definition make_empty {A : Type} (cap : Z) : outcome (list A) :=
  if cap <? 0 then Panics MakeSliceCapOutOfRange else Returns [].

(** [int] arithmetic wraps around (64-bit platform). *)
Definition wrap_int (z : Z) : Z := (z + 2 ^ 63) mod 2 ^ 64 - 2 ^ 63.

(** [strconv.Itoa]. *)
Definition Itoa (z : Z) : string := pretty z.

(** [strings.Contains]. *)
Fixpoint Contains (s substr : string) : bool :=
  String.prefix substr s ||
  match s with
  | EmptyString => false
  | String _ rest => Contains rest substr
  end.

(** [rand.Intn(n)] of the default source; [draw] is the raw value the
    source yields for this call. *)
Definition Intn (draw : Z) (n : Z) : outcome Z :=
  if n <=? 0 then Panics IntnNonPositive else Returns (draw mod n).

(** [time.Time]: the zero value, or what [time.Unix(sec, 0)] builds
    (which carries the local location and so is never the zero struct). *)
Inductive Time : Type :=
| TimeZero
| TimeUnix (sec : Z).

Definition Second : Z := 1000000000.

End Go.

Import Go.

Notation "x ←! e1 ; e2" := (Go.bind e1 (fun x => e2))
  (at level 100, e1 at next level, right associativity, only parsing).

(** ** Package [bot]: the domain types *)

Module bot.

(** Modelled from the spec: the declarations of package [app/bot]
    ([User], [SenderChat], [Entity], [Image], [Message], [Response]) are
    not part of the sources at hand; the fields are those the listener
    reads and writes, and those section 3 of the specification lists. *)
Record User : Type := mkUser {
  User_ID : Z;
  User_Username : string;
  User_DisplayName : string
}.

Record SenderChat : Type := mkSenderChat {
  SenderChat_ID : Z;
  SenderChat_UserName : string
}.

Record Entity : Type := mkEntity {
  Entity_Type : string;
  Entity_Offset : Z;
  Entity_Length : Z;
  Entity_URL : string;
  Entity_User : option User
}.

Record Image : Type := mkImage {
  Image_FileID : string;
  Image_Width : Z;
  Image_Height : Z;
  Image_Caption : string;
  Image_Entities : option (list Entity)
}.

Record Reply : Type := mkReply {
  Reply_From : User;
  Reply_Sent : Time;
  Reply_Text : string;
  Reply_SenderChat : SenderChat
}.

Record Message : Type := mkMessage {
  ID : Z;
  From : User;
  SenderChat_ : SenderChat;
  ChatID : string;
  Sent : Time;
  Text : string;
  Entities : option (list Entity);
  Image_ : option Image;
  ReplyTo : Reply
}.

Definition zeroUser : User := mkUser 0 "" "".
Definition zeroSenderChat : SenderChat := mkSenderChat 0 "".
Definition zeroReply : Reply := mkReply zeroUser TimeZero "" zeroSenderChat.

(** [bot.Message{}] *)
Definition zeroMessage : Message :=
  mkMessage 0 zeroUser zeroSenderChat "" TimeZero "" None None zeroReply.

Record Response : Type := mkResponse {
  Response_Text : string;
  Send : bool;
  Pin : bool;
  Preview : bool;
  Response_ReplyTo : Z;
  ParseMode : string;
  BanInterval : Z;
  Response_User : User;
  ChannelID : Z
}.

End bot.

(** ** The global history ([LimitedMessageHistory] without chats) *)

Module LegacyHistory.

Record LimitedMessageHistory : Type := mkHistory {
  limit : Z;
  count : Z;
  messages : list bot.Message
}.

Definition NewLimitedMessageHistory (limit : Z) : outcome LimitedMessageHistory :=
  messages ←! make_empty limit;
  Returns {| limit := limit; count := 0; messages := messages |}.

Definition Add (message : bot.Message) (l : LimitedMessageHistory)
  : LimitedMessageHistory :=
  let count' := wrap_int (count l + 1) in
  let messages' := messages l ++ [message] in
  {| limit := limit l;
     count := count';
     messages := if Z.of_nat (length messages') >? limit l
                 then drop 1 messages'
                 else messages' |}.

Definition GetRandomMessage (draw : Z) (l : LimitedMessageHistory)
  : outcome (option bot.Message) :=
  if Z.of_nat (length (messages l)) =? 0 then Returns None
  else
    randomIndex ←! Intn draw (Z.of_nat (length (messages l)));
    m ←! index (messages l) randomIndex;
    Returns (Some m).

(** The history after a run of [Add] calls, oldest call first. *)
Definition AddAll (msgs : list bot.Message) (l : LimitedMessageHistory)
  : LimitedMessageHistory :=
  foldl (fun h m => Add m h) l msgs.

End LegacyHistory.

(** ** The per-chat history ([openaihistory.go]) *)

Module ChatHistories.

Record ChatHistory : Type := mkChatHistory {
  count : Z;
  messages : list bot.Message
}.

Record LimitedMessageHistory : Type := mkHistory {
  limit : Z;
  chats : gmap string ChatHistory
}.

Definition NewLimitedMessageHistory (limit : Z) : LimitedMessageHistory :=
  {| limit := limit; chats := ∅ |}.

Definition Add (message : bot.Message) (l : LimitedMessageHistory)
  : outcome LimitedMessageHistory :=
  chatHistory ←!
    match chats l !! bot.ChatID message with
    | Some chatHistory => Returns chatHistory
    | None =>
        messages ←! make_empty (limit l);
        Returns {| count := 0; messages := messages |}
    end;
  let count' := wrap_int (count chatHistory + 1) in
  let messages' := messages chatHistory ++ [message] in
  let chatHistory' :=
    {| count := count';
       messages := if Z.of_nat (length messages') >? limit l
                   then drop 1 messages'
                   else messages' |} in
  Returns {| limit := limit l;
             chats := <[bot.ChatID message := chatHistory']> (chats l) |}.

Definition GetRandomMessage (draw : Z) (chatID : string)
    (l : LimitedMessageHistory) : outcome (option bot.Message) :=
  match chats l !! chatID with
  | None => Returns None
  | Some chatHistory =>
      if Z.of_nat (length (messages chatHistory)) =? 0 then Returns None
      else
        randomIndex ←! Intn draw (Z.of_nat (length (messages chatHistory)));
        m ←! index (messages chatHistory) randomIndex;
        Returns (Some m)
  end.

Definition GetMessagesByChatID (chatID : string) (l : LimitedMessageHistory)
  : slice bot.Message :=
  match chats l !! chatID with
  | None => None
  | Some chatHistory => Some (messages chatHistory)
  end.

(** The history after a run of [Add] calls, oldest call first. *)
Fixpoint AddAll (msgs : list bot.Message) (l : LimitedMessageHistory)
  : outcome LimitedMessageHistory :=
  match msgs with
  | [] => Returns l
  | m :: rest => l' ←! Add m l; AddAll rest l'
  end.

(** The messages kept for a chat (none when the chat is unknown). *)
Definition retained (chatID : string) (h : LimitedMessageHistory)
  : list bot.Message :=
  elems (GetMessagesByChatID chatID h).

(** The messages of a chat among those added. *)
Definition inserted (chatID : string) (msgs : list bot.Message)
  : list bot.Message :=
  filter (fun m => bot.ChatID m = chatID) msgs.

End ChatHistories.

(** The last [k] elements of a list, in their order. *)
Definition last_n {A : Type} (k : nat) (l : list A) : list A :=
  drop (length l - k) l.

(** ** Package [tbapi]: the wire types of the transport library

    Only the fields the listener reads are kept. [Chat] is a struct value
    inside [Message] (its absence is the zero [Chat]); [From], [SenderChat]
    and [ReplyToMessage] are pointers. *)

Module tbapi.

Record User : Type := mkUser {
  User_ID : Z;
  UserName : string;
  FirstName : string;
  LastName : string
}.

Record Chat : Type := mkChat {
  Chat_ID : Z;
  Chat_Type : string;
  Chat_UserName : string
}.

Definition zeroChat : Chat := mkChat 0 "" "".

Record MessageEntity : Type := mkMessageEntity {
  Entity_Type : string;
  Offset : Z;
  Length : Z;
  URL : string;
  Entity_User : option User
}.

Record PhotoSize : Type := mkPhotoSize {
  FileID : string;
  Width : Z;
  Height : Z
}.

Inductive Message : Type := mkMessage {
  MessageID : Z;
  MessageThreadID : Z;
  From : option User;
  SenderChat : option Chat;
  Date : Z;
  Chat_ : Chat;
  Text : string;
  Entities : slice MessageEntity;
  Photo : slice PhotoSize;
  Caption : string;
  CaptionEntities : slice MessageEntity;
  ReplyToMessage : option Message
}.

(** [tbapi.Message{}] *)
Definition zeroMessage : Message :=
  mkMessage 0 0 None None 0 zeroChat "" None None "" None None.

(** The method [Time] of a message: [time.Unix(int64(m.Date), 0)]. *)
Definition Time (m : Message) : Go.Time := TimeUnix (Date m).

Record Update : Type := mkUpdate {
  Update_Message : option Message
}.

(** What [NewMessage(chatID, text)] builds, with the two fields
    [sendBotResponse] sets afterwards. *)
Record MessageConfig : Type := mkMessageConfig {
  Config_ChatID : Z;
  Config_Text : string;
  Config_ParseMode : string;
  ReplyParameters_MessageID : Z
}.

Definition NewMessage (chatID : Z) (text : string) : MessageConfig :=
  mkMessageConfig chatID text "" 0.

Definition ModeMarkdown : string := "Markdown".
Definition ModeHTML : string := "HTML".

End tbapi.

(** ** Errors *)

(** An error of a collaborator is known by its [Error()] text only. *)
Definition collaborator_error : Type := string.

Inductive error : Type :=
| CtxErr (text : string)
    (* ctx.Err() *)
| FailedToGetChatID (group : string) (cause : error)
    (* "failed to get chat ID for group %q: %w" *)
| CantGetChat (group : string) (cause : collaborator_error)
    (* "can't get chat for %s: %w" *)
| UpdateChanClosed
    (* "telegram update chan closed" *)
| CantSendMessage (text : string) (cause : collaborator_error).
    (* "can't send message to telegram %q: %w" *)

(** ** The collaborators *)

Class tbAPI (T : Type) : Type := {
  (** [Send(c) (tbapi.Message, error)] for a [MessageConfig] *)
  tb_Send : tbapi.MessageConfig -> T ->
            (tbapi.Message * option collaborator_error) * T;
  (** [GetChat(config)] by [SuperGroupUsername]; the chat's [ID] *)
  tb_GetChat : string -> T -> (Z * option collaborator_error) * T
}.

Class msgLogger (L : Type) : Type := {
  logger_Save : bot.Message -> L -> L
}.

(** [bot.Interface], of which the listener calls [OnMessage]. *)
Class Interface (B : Type) : Type := {
  bots_OnMessage : bot.Message -> B -> bot.Response * B
}.

(** A call on a collaborator. *)
Inductive Call : Type :=
| CallSend (c : tbapi.MessageConfig)
| CallGetChat (superGroupUsername : string)
| CallSave (msg : bot.Message)
| CallOnMessage (msg : bot.Message).

Definition sends (calls : list Call) : list tbapi.MessageConfig :=
  omap (fun c => match c with CallSend cfg => Some cfg | _ => None end) calls.

Definition saves (calls : list Call) : list bot.Message :=
  omap (fun c => match c with CallSave m => Some m | _ => None end) calls.

Definition dispatches (calls : list Call) : list bot.Message :=
  omap (fun c => match c with CallOnMessage m => Some m | _ => None end) calls.

(** ** Package [events]: the message transformer *)

Module events.

Import bot.

Definition set_ChatID (v : string) (m : bot.Message) : bot.Message :=
  mkMessage (ID m) (From m) (SenderChat_ m) v (Sent m) (Text m)
            (Entities m) (Image_ m) (ReplyTo m).

Definition set_From (v : bot.User) (m : bot.Message) : bot.Message :=
  mkMessage (ID m) v (SenderChat_ m) (ChatID m) (Sent m) (Text m)
            (Entities m) (Image_ m) (ReplyTo m).

Definition set_SenderChat (v : bot.SenderChat) (m : bot.Message) : bot.Message :=
  mkMessage (ID m) (From m) v (ChatID m) (Sent m) (Text m)
            (Entities m) (Image_ m) (ReplyTo m).

Definition set_Entities (v : option (list bot.Entity)) (m : bot.Message)
  : bot.Message :=
  mkMessage (ID m) (From m) (SenderChat_ m) (ChatID m) (Sent m) (Text m)
            v (Image_ m) (ReplyTo m).

Definition set_Image (v : option bot.Image) (m : bot.Message) : bot.Message :=
  mkMessage (ID m) (From m) (SenderChat_ m) (ChatID m) (Sent m) (Text m)
            (Entities m) v (ReplyTo m).

Definition set_ReplyTo (v : bot.Reply) (m : bot.Message) : bot.Message :=
  mkMessage (ID m) (From m) (SenderChat_ m) (ChatID m) (Sent m) (Text m)
            (Entities m) (Image_ m) v.

(** [bot.User{ID: u.ID, Username: u.UserName,
              DisplayName: u.FirstName + " " + u.LastName}] *)
Definition transformUser (u : tbapi.User) : bot.User :=
  mkUser (tbapi.User_ID u) (tbapi.UserName u)
         (tbapi.FirstName u ++ " " ++ tbapi.LastName u)%string.

(** [bot.SenderChat{ID: c.ID, UserName: c.UserName}] *)
Definition transformSenderChat (c : tbapi.Chat) : bot.SenderChat :=
  mkSenderChat (tbapi.Chat_ID c) (tbapi.Chat_UserName c).

Definition transformEntity (entity : tbapi.MessageEntity) : bot.Entity :=
  let e := mkEntity (tbapi.Entity_Type entity) (tbapi.Offset entity)
                    (tbapi.Length entity) (tbapi.URL entity) None in
  match tbapi.Entity_User entity with
  | Some u =>
      mkEntity (Entity_Type e) (Entity_Offset e) (Entity_Length e)
               (Entity_URL e) (Some (transformUser u))
  | None => e
  end.

(** The result is a pointer to a slice: [None] is the nil pointer. *)
Definition transformEntities (entities : slice tbapi.MessageEntity)
  : option (list bot.Entity) :=
  if len entities =? 0 then None
  else Some (foldl (fun result entity => result ++ [transformEntity entity])
                   [] (elems entities)).

(** The receiver of [transform] is not read. *)
Definition transform (msg : tbapi.Message) : outcome bot.Message :=
  let message :=
    mkMessage (tbapi.MessageID msg) zeroUser zeroSenderChat ""
              (tbapi.Time msg) (tbapi.Text msg) None None zeroReply in
  let message :=
    if negb (tbapi.Chat_ID (tbapi.Chat_ msg) =? 0)
    then set_ChatID (Itoa (tbapi.Chat_ID (tbapi.Chat_ msg)) ++ "_"
                     ++ Itoa (tbapi.MessageThreadID msg))%string message
    else message in
  let message :=
    match tbapi.From msg with
    | Some from => set_From (transformUser from) message
    | None => message
    end in
  let message :=
    match tbapi.SenderChat msg with
    | Some senderChat => set_SenderChat (transformSenderChat senderChat) message
    | None => message
    end in
  message ←!
    (if negb (is_nil (tbapi.Entities msg)) && (len (tbapi.Entities msg) >? 0)
     then Returns (set_Entities (transformEntities (tbapi.Entities msg)) message)
     else if negb (is_nil (tbapi.Photo msg)) && (len (tbapi.Photo msg) >? 0)
     then
       let sizes := tbapi.Photo msg in
       lastSize ←! index (elems sizes) (len sizes - 1);
       Returns (set_Image
                  (Some (mkImage (tbapi.FileID lastSize) (tbapi.Width lastSize)
                                 (tbapi.Height lastSize) (tbapi.Caption msg)
                                 (transformEntities (tbapi.CaptionEntities msg))))
                  message)
     else Returns message);
  let message :=
    match tbapi.ReplyToMessage msg with
    | Some replyTo =>
        let r := ReplyTo message in
        let r := mkReply (Reply_From r) (Reply_Sent r) (tbapi.Text replyTo)
                         (Reply_SenderChat r) in
        let r := mkReply (Reply_From r) (tbapi.Time replyTo) (Reply_Text r)
                         (Reply_SenderChat r) in
        let r :=
          match tbapi.From replyTo with
          | Some from => mkReply (transformUser from) (Reply_Sent r)
                                 (Reply_Text r) (Reply_SenderChat r)
          | None => r
          end in
        let r :=
          match tbapi.SenderChat replyTo with
          | Some senderChat =>
              mkReply (Reply_From r) (Reply_Sent r) (Reply_Text r)
                      (transformSenderChat senderChat)
          | None => r
          end in
        set_ReplyTo r message
    | None => message
    end in
  Returns message.

(** [p.f] through a pointer [p]. *)
Definition deref {A : Type} (p : option A) : outcome A :=
  match p with
  | Some a => Returns a
  | None => Panics NilDereference
  end.

Section BanUsername.

(** [fmt.Sprintf("%v", _)] on the two identity structs of package [bot]. *)
Variable Sprintf_v_User : bot.User -> string.
Variable Sprintf_v_SenderChat : bot.SenderChat -> string.

Definition getBanUsername (resp : bot.Response) (update : tbapi.Update)
  : outcome string :=
  if ChannelID resp =? 0 then Returns (Sprintf_v_User (Response_User resp))
  else
    let botChat := mkSenderChat (ChannelID resp) "" in
    message ←! deref (tbapi.Update_Message update);
    let botChat :=
      match tbapi.SenderChat message with
      | Some senderChat =>
          mkSenderChat (SenderChat_ID botChat) (tbapi.Chat_UserName senderChat)
      | None => botChat
      end in
    botChat ←!
      (if bool_decide (SenderChat_UserName botChat = "")
       then
         replyTo ←! deref (tbapi.ReplyToMessage message);
         match tbapi.SenderChat replyTo with
         | Some senderChat =>
             Returns (mkSenderChat (SenderChat_ID botChat)
                                   (tbapi.Chat_UserName senderChat))
         | None => Returns botChat
         end
       else Returns botChat);
    Returns (Sprintf_v_SenderChat botChat).

End BanUsername.

End events.

(** ** Package [events]: the listener *)

Module listener.

Import bot events.

(** [strconv.ParseInt(s, 10, 64)]; [None] stands for a non-nil error. *)
Definition digit_of (a : ascii) : option Z :=
  let n := Z.of_nat (nat_of_ascii a) in
  if (48 <=? n) && (n <=? 57) then Some (n - 48) else None.

Fixpoint parse_digits (s : string) (acc : Z) : option Z :=
  match s with
  | EmptyString => Some acc
  | String a rest =>
      match digit_of a with
      | Some d => parse_digits rest (10 * acc + d)
      | None => None
      end
  end.

Definition ParseInt (s : string) : option Z :=
  let '(neg, digits) :=
    match s with
    | String "-" rest => (true, rest)
    | String "+" rest => (false, rest)
    | _ => (false, s)
    end in
  match digits with
  | EmptyString => None
  | _ =>
      match parse_digits digits 0 with
      | Some n =>
          let v := if neg : bool then - n else n in
          if (- 2 ^ 63 <=? v) && (v <=? 2 ^ 63 - 1) then Some v else None
      | None => None
      end
  end.

(** The fields of [TelegramListener] the code reads or writes, without
    the collaborators ([TbAPI], [MsgLogger], [Bots]), which live in the
    [World]. [msgs_once] is the done flag of [msgs.once]; [msgs_ch] is the
    capacity of the channel [msgs.ch], [None] while the channel is nil. *)
Record TelegramListener : Type := mkListener {
  Group : string;
  IdleDuration : Z;
  chatID : Z;
  msgs_once : bool;
  msgs_ch : option Z
}.

Definition set_chatID (v : Z) (l : TelegramListener) : TelegramListener :=
  mkListener (Group l) (IdleDuration l) v (msgs_once l) (msgs_ch l).

Definition set_IdleDuration (v : Z) (l : TelegramListener) : TelegramListener :=
  mkListener (Group l) v (chatID l) (msgs_once l) (msgs_ch l).

Definition set_msgs_ch (v : option Z) (l : TelegramListener) : TelegramListener :=
  mkListener (Group l) (IdleDuration l) (chatID l) (msgs_once l) v.

(** [l.msgs.once.Do(f)] *)
Definition once_Do (f : TelegramListener -> TelegramListener)
    (l : TelegramListener) : TelegramListener :=
  if msgs_once l then l
  else
    let l := f l in
    mkListener (Group l) (IdleDuration l) (chatID l) true (msgs_ch l).

(** The function [Do] hands to [once.Do]. *)
Definition Do_init (l : TelegramListener) : TelegramListener :=
  let l := set_msgs_ch (Some 100) l in
  if IdleDuration l =? 0 then set_IdleDuration (30 * Second) l else l.

(** The function [Submit] and [SubmitHTML] hand to [once.Do]. *)
Definition Submit_init (l : TelegramListener) : TelegramListener :=
  set_msgs_ch (Some 100) l.

(** Which case of the [select] in [Submit] and [SubmitHTML] is taken. *)
Inductive SubmitReady : Type :=
| SubmitCtxDone (err : string)
| SubmitChanReady.

(** The result of a submission: the error returned, the [Response] put
    on [msgs.ch] if any, and the listener. *)
Definition Submit (ready : SubmitReady) (text : string) (pin : bool)
    (l : TelegramListener)
  : option error * option bot.Response * TelegramListener :=
  let l := once_Do Submit_init l in
  match ready with
  | SubmitCtxDone err => (Some (CtxErr err), None, l)
  | SubmitChanReady =>
      (None, Some (mkResponse text true pin true 0 "" 0 zeroUser 0), l)
  end.

Section Collaborators.

Context {T L B : Type}.
Context {TB : tbAPI T} {ML : msgLogger L} {BI : Interface B}.

(** [notify.TelegramSupportedHTML] *)
Variable TelegramSupportedHTML : string -> string.

Definition SubmitHTML (ready : SubmitReady) (text : string) (pin : bool)
    (l : TelegramListener)
  : option error * option bot.Response * TelegramListener :=
  let text := TelegramSupportedHTML text in
  let l := once_Do Submit_init l in
  match ready with
  | SubmitCtxDone err => (Some (CtxErr err), None, l)
  | SubmitChanReady =>
      (None,
       Some (mkResponse text true pin false 0 tbapi.ModeHTML 0 zeroUser 0),
       l)
  end.

(** The collaborators' states and the calls made on them so far. *)
Record World : Type := mkWorld {
  TbAPI : T;
  MsgLogger : L;
  Bots : B;
  calls : list Call
}.

(** The world once [Send c] has been answered with transport state [t]. *)
Definition after_Send (c : tbapi.MessageConfig) (t : T) (w : World) : World :=
  mkWorld t (MsgLogger w) (Bots w) (calls w ++ [CallSend c]).

(** The world once [Save m] has been called. *)
Definition after_Save (m : bot.Message) (w : World) : World :=
  mkWorld (TbAPI w) (logger_Save m (MsgLogger w)) (Bots w)
          (calls w ++ [CallSave m]).

(** Code that calls collaborators and may panic. *)
Definition M (A : Type) : Type := World -> outcome (A * World).

Definition ret {A : Type} (a : A) : M A := fun w => Returns (a, w).

Definition bindM {A C : Type} (x : M A) (f : A -> M C) : M C :=
  fun w =>
    match x w with
    | Returns (a, w') => f a w'
    | Panics p => Panics p
    end.

Definition lift {A : Type} (x : outcome A) : M A :=
  fun w =>
    match x with
    | Returns a => Returns (a, w)
    | Panics p => Panics p
    end.

Notation "x ←$ e1 ; e2" := (bindM e1 (fun x => e2))
  (at level 100, e1 at next level, right associativity, only parsing).

(** [l.TbAPI.Send(c)] *)
Definition Send (c : tbapi.MessageConfig)
  : M (tbapi.Message * option collaborator_error) :=
  fun w =>
    let '(r, t) := tb_Send c (TbAPI w) in
    Returns (r, mkWorld t (MsgLogger w) (Bots w) (calls w ++ [CallSend c])).

(** [l.TbAPI.GetChat(config)] *)
Definition GetChat (superGroupUsername : string)
  : M (Z * option collaborator_error) :=
  fun w =>
    let '(r, t) := tb_GetChat superGroupUsername (TbAPI w) in
    Returns (r, mkWorld t (MsgLogger w) (Bots w)
                        (calls w ++ [CallGetChat superGroupUsername])).

(** [l.MsgLogger.Save(msg)] *)
Definition Save (msg : bot.Message) : M unit :=
  fun w =>
    Returns (tt, mkWorld (TbAPI w) (logger_Save msg (MsgLogger w)) (Bots w)
                         (calls w ++ [CallSave msg])).

(** [l.Bots.OnMessage(msg)] *)
Definition OnMessage (msg : bot.Message) : M bot.Response :=
  fun w =>
    let '(resp, b) := bots_OnMessage msg (Bots w) in
    Returns (resp, mkWorld (TbAPI w) (MsgLogger w) b
                           (calls w ++ [CallOnMessage msg])).

Definition saveBotMessage (l : TelegramListener) (msg : tbapi.Message)
    (fromChat : Z) : M unit :=
  if negb (fromChat =? chatID l) then ret tt
  else
    m ←$ lift (transform msg);
    Save m.

Definition set_ParseMode (v : string) (c : tbapi.MessageConfig)
  : tbapi.MessageConfig :=
  tbapi.mkMessageConfig (tbapi.Config_ChatID c) (tbapi.Config_Text c) v
                        (tbapi.ReplyParameters_MessageID c).

Definition set_ReplyMessageID (v : Z) (c : tbapi.MessageConfig)
  : tbapi.MessageConfig :=
  tbapi.mkMessageConfig (tbapi.Config_ChatID c) (tbapi.Config_Text c)
                        (tbapi.Config_ParseMode c) v.

Definition cant_parse_entities : string :=
  "Bad Request: can't parse entities:".

(** The message [sendBotResponse] hands to the first [Send]. *)
Definition outbound (resp : bot.Response) (chatID : Z) : tbapi.MessageConfig :=
  let tbMsg := tbapi.NewMessage chatID (Response_Text resp) in
  let tbMsg := set_ParseMode tbapi.ModeMarkdown tbMsg in
  let tbMsg :=
    if negb (bool_decide (ParseMode resp = ""))
    then set_ParseMode (ParseMode resp) tbMsg
    else tbMsg in
  set_ReplyMessageID (Response_ReplyTo resp) tbMsg.

(** [None] is the nil error. *)
Definition sendBotResponse (l : TelegramListener) (resp : bot.Response)
    (chatID : Z) : M (option error) :=
  if negb (bot.Send resp) then ret None
  else
    let tbMsg := outbound resp chatID in
    r ←$ Send tbMsg;
    let '(res, err) := r in
    match err with
    | Some e =>
        r ←$ (if bool_decide (tbapi.Config_ParseMode tbMsg = tbapi.ModeMarkdown)
                 && Contains e cant_parse_entities
              then Send (set_ParseMode "" tbMsg)
              else ret (res, err));
        let '(res, err) := r in
        match err with
        | Some e => ret (Some (CantSendMessage (Response_Text resp) e))
        | None =>
            _ ←$ saveBotMessage l res chatID;
            ret None
        end
    | None =>
        _ ←$ saveBotMessage l res chatID;
        ret None
    end.

Definition getChatID (l : TelegramListener) (group : string)
  : M (Z * option error) :=
  match ParseInt (Group l) with
  | Some chatID => ret (chatID, None)
  | None =>
      r ←$ GetChat ("@" ++ group)%string;
      let '(chat_ID, err) := r in
      match err with
      | Some e => ret (0, Some (CantGetChat group e))
      | None => ret (chat_ID, None)
      end
  end.

(** What the [select] of the loop in [Do] receives. *)
Inductive Ready : Type :=
| CtxDone (err : string)
| UpdateRecv (update : option tbapi.Update)   (* [None]: channel closed *)
| MsgsRecv (resp : bot.Response)
| IdleFired.

(** The duration the [select] hands to [time.After]. *)
Definition idleTimer (l : TelegramListener) : Z := IdleDuration l.

(** [bot.Message{Text: "idle"}] *)
Definition idleMessage : bot.Message :=
  mkMessage 0 zeroUser zeroSenderChat "" TimeZero "idle" None None zeroReply.

(** One round of the loop; [Some err] when [Do] returns [err], [None]
    when the loop goes on. A failed delivery is logged only. The log lines,
    and the [json.Marshal] of the message that feeds one of them, are left
    out. *)
Definition iteration (l : TelegramListener) (ready : Ready)
  : M (option error) :=
  match ready with
  | CtxDone err => ret (Some (CtxErr err))
  | UpdateRecv None => ret (Some UpdateChanClosed)
  | UpdateRecv (Some update) =>
      match tbapi.Update_Message update with
      | None => ret None
      | Some message =>
          if tbapi.Chat_ID (tbapi.Chat_ message) =? 0 then ret None
          else if bool_decide (tbapi.Chat_Type (tbapi.Chat_ message) = "private")
          then ret None
          else
            let fromChat := tbapi.Chat_ID (tbapi.Chat_ message) in
            msg ←$ lift (transform message);
            _ ←$ (if fromChat =? chatID l then Save msg else ret tt);
            resp ←$ OnMessage msg;
            _ ←$ sendBotResponse l resp fromChat;
            ret None
      end
  | MsgsRecv resp =>
      _ ←$ sendBotResponse l resp (chatID l);
      ret None
  | IdleFired =>
      resp ←$ OnMessage idleMessage;
      _ ←$ sendBotResponse l resp (chatID l);
      ret None
  end.

(** The loop over what the [select] receives, round after round; when
    the list ends the loop is still waiting ([None]). *)
Fixpoint loop (l : TelegramListener) (schedule : list Ready)
  : M (option error) :=
  match schedule with
  | [] => ret None
  | ready :: rest =>
      r ←$ iteration l ready;
      match r with
      | Some err => ret (Some err)
      | None => loop l rest
      end
  end.

(** [Do] up to the loop: the chat id and the one-time initialisation. *)
Definition Do_start (l : TelegramListener)
  : M (option error * TelegramListener) :=
  r ←$ getChatID l (Group l);
  let '(id, getChatErr) := r in
  let l := set_chatID id l in
  match getChatErr with
  | Some e => ret (Some (FailedToGetChatID (Group l) e), l)
  | None => ret (None, once_Do Do_init l)
  end.

Definition Do (l : TelegramListener) (schedule : list Ready)
  : M (option error * TelegramListener) :=
  r ←$ Do_start l;
  let '(err, l) := r in
  match err with
  | Some e => ret (Some e, l)
  | None =>
      err ←$ loop l schedule;
      ret (err, l)
  end.

End Collaborators.

End listener.

(** ** Test doubles for the collaborators

    In the manner of the generated mocks of the package: a transport that
    answers [Send] from a script, a logger that keeps what it is given, and
    a responder that always gives the same answer. *)

Module mock.

Definition Script : Type := list (tbapi.Message * option collaborator_error).

#[global] Instance scripted_tbAPI : tbAPI Script := {|
  tb_Send _ t :=
    match t with
    | r :: rest => (r, rest)
    | [] => ((tbapi.zeroMessage, None), [])
    end;
  tb_GetChat _ t := ((0, Some "Bad Request: chat not found"%string), t)
|}.

#[global] Instance keeping_msgLogger : msgLogger (list bot.Message) := {|
  logger_Save msg saved := saved ++ [msg]
|}.

#[global] Instance constant_Interface : Interface bot.Response := {|
  bots_OnMessage _ resp := (resp, resp)
|}.

Definition world (script : Script) (answer : bot.Response)
  : listener.World (T := Script) (L := list bot.Message) (B := bot.Response) :=
  listener.mkWorld script [] answer [].

(** A response that asks for [text] to be sent. *)
Definition say (text parseMode : string) : bot.Response :=
  bot.mkResponse text true false false 0 parseMode 0 bot.zeroUser 0.

(** A response that asks for nothing. *)
Definition silent (text : string) : bot.Response :=
  bot.mkResponse text false true true 7 "HTML" 0 bot.zeroUser 0.

(** The confirmation of a sent message in chat [chat]. *)
Definition sent (id chat : Z) (text : string) : tbapi.Message :=
  tbapi.mkMessage id 0 None None 1700000000 (tbapi.mkChat chat "supergroup" "")
                  text None None "" None None.

Definition text_message (chat : string) (text : string) : bot.Message :=
  bot.mkMessage 0 bot.zeroUser bot.zeroSenderChat chat TimeZero text
                None None bot.zeroReply.

(** A listener for [group] with idle duration [idle], as configured and
    before [Do] or a submission has touched it. *)
Definition fresh (group : string) (idle : Z) : listener.TelegramListener :=
  listener.mkListener group idle 0 false None.

(** A listener in the running state, with target chat [chat]. *)
Definition running (chat : Z) : listener.TelegramListener :=
  listener.mkListener (Itoa chat) (30 * Second) chat true (Some 100).

End mock.

(** ** Package [openai]: the ChatGPT responder

    [OnMessage] and what it calls. The responder keeps the global history
    (it calls [Add] and [GetRandomMessage] without a chat and reads
    [history.messages]). Instants are nanoseconds on one time line, the zero
    [time.Time] being 0; monotonic clock readings are not modelled. The log
    lines are left out. *)

Module openai.

Import bot.

Definition Minute : Z := 60 * Second.
Definition Hour : Z := 60 * Minute.

(** [t.Sub(u)]: the difference, kept within [int64]. *)
Definition Time_Sub (t u : Z) : Z :=
  Z.max (- 2 ^ 63) (Z.min (2 ^ 63 - 1) (t - u)).

(** [s[n:]], with the bounds check. *)
Definition string_from (n : nat) (s : string) : outcome string :=
  if (String.length s <? n)%nat then Panics IndexOutOfRange
  else Returns (String.substring n (String.length s - n) s).

(** [s[:n]], with the bounds check. *)
Definition string_upto (n : Z) (s : string) : outcome string :=
  if (n <? 0) || (Z.of_nat (String.length s) <? n) then Panics IndexOutOfRange
  else Returns (String.substring 0 (Z.to_nat n) s).

(** [l[:n]], with the bounds check (the capacity is not modelled: [n] is
    never above the length where the code slices). *)
Definition list_upto {A : Type} (n : Z) (l : list A) : outcome (list A) :=
  if (n <? 0) || (Z.of_nat (length l) <? n) then Panics IndexOutOfRange
  else Returns (take (Z.to_nat n) l).

(** The types of the client library that the responder fills and reads. *)
Record ChatCompletionMessage : Type := mkChatCompletionMessage {
  Role : string;
  Content : string
}.

Record ChatCompletionRequest : Type := mkChatCompletionRequest {
  Model : string;
  MaxTokens : Z;
  Messages : list ChatCompletionMessage
}.

Record ChatCompletionResponse : Type := mkChatCompletionResponse {
  Choices : list ChatCompletionMessage   (* the [Message] of each choice *)
}.

Definition ChatMessageRoleSystem : string := "system".
Definition ChatMessageRoleUser : string := "user".
Definition GPT4o20240513 : string := "gpt-4o-2024-05-13".

Record Params : Type := mkParams {
  AuthToken : string;
  MaxTokensResponse : Z;
  MaxTokensRequest : Z;
  MaxSymbolsRequest : Z;
  Prompt : string;
  EnableAutoResponse : bool;
  HistorySize : Z;
  HistoryReplyProbability : Z
}.

(** The fields of [OpenAI] that change or are read as data; [client],
    [superUser], [rand] and [nowFn] are collaborators. *)
Record OpenAI : Type := mkOpenAI {
  params : Params;
  history : LegacyHistory.LimitedMessageHistory;
  lastDT : Z
}.

(** The request that carries [messages]. *)
Definition request_for (o : OpenAI) (messages : list ChatCompletionMessage)
  : ChatCompletionRequest :=
  mkChatCompletionRequest GPT4o20240513 (MaxTokensResponse (params o)) messages.

(** [NewOpenAI], without the client it builds. *)
Definition NewOpenAI (params : Params) : outcome OpenAI :=
  history ←! LegacyHistory.NewLimitedMessageHistory (HistorySize params);
  Returns (mkOpenAI params history 0).

Definition set_history (v : LegacyHistory.LimitedMessageHistory) (o : OpenAI)
  : OpenAI :=
  mkOpenAI (params o) v (lastDT o).

Definition set_lastDT (v : Z) (o : OpenAI) : OpenAI :=
  mkOpenAI (params o) (history o) v.

(** What the responder calls and cannot compute: the client, [o.rand],
    [o.nowFn], the clock behind [time.Since] and the default source of
    [math/rand], each answering from a state of its own kind. *)
Class Collaborators (E : Type) : Type := {
  env_CreateChatCompletion :
    ChatCompletionRequest -> E ->
    (ChatCompletionResponse * option collaborator_error) * E;
  env_rand : Z -> E -> Z * E;
  env_nowFn : E -> Z * E;
  env_Now : E -> Z * E;
  env_draw : E -> Z * E
}.

(** The tokenizer: [Encode] may fail, [Decode] does not. *)
Record Encoder : Type := mkEncoder {
  Encode : string -> option (list Z);
  Decode : list Z -> string
}.

Inductive Call : Type :=
| CallCreateChatCompletion (req : ChatCompletionRequest)
| CallRand (n : Z)
| CallNowFn.


Inductive completion_error : Type :=
| ClientError (e : collaborator_error)
| NoChoices.   (* "no choices in response" *)

(** [bot.Response{}] *)
Definition noResponse : bot.Response :=
  mkResponse "" false false false 0 "" 0 zeroUser 0.

(** [bot.Message{Text: text}] *)
Definition textMessage (text : string) : bot.Message :=
  mkMessage 0 zeroUser zeroSenderChat "" TimeZero text None None zeroReply.

(** [ReactOn]; the last prefix is the Cyrillic for "chat!". *)
Definition ReactOn : list string := ["chat!"; "gpt!"; "ai!"; "чат!"]%string.

Definition answerPrompt : string :=
  "You reply with no more than 100 words, your answer should be in the same language as the question. Don't give a real answer to the question, just make something up, something interesting and maybe funny and witty.".

Definition continuePrompt : string :=
  "You reply with no more than 100 words, your message should be in the same language as the last message. Say something related to the conversation or ask something to continue the conversation.".

Definition mentionPrompt (rndUsername : string) : string :=
  (" Be sure to mention " ++ rndUsername
   ++ " in your response, you should ask them a question or just say something to them to continue the conversation.")%string.

Section Responder.

Context {E : Type} {CO : Collaborators E}.

(** [strings.ToLower] and [strings.TrimSpace] *)
Variable ToLower : string -> string.
Variable TrimSpace : string -> string.

(** [superUser.IsSuper] *)
Variable IsSuper : string -> bool.

(** [tokenizer.NewEncoder()]; [None] stands for its error. *)
Variable NewEncoder : option Encoder.

(** The text of the ban, built from [time.Since(o.lastDT)] and the name. *)
Variable tooManyRequests : Z -> string -> string.

Record World : Type := mkWorld {
  env : E;
  calls : list Call
}.

Definition M (A : Type) : Type := World -> outcome (A * World).

Definition ret {A : Type} (a : A) : M A := fun w => Returns (a, w).

Definition bindM {A C : Type} (x : M A) (f : A -> M C) : M C :=
  fun w =>
    match x w with
    | Returns (a, w') => f a w'
    | Panics p => Panics p
    end.

Definition lift {A : Type} (x : outcome A) : M A :=
  fun w =>
    match x with
    | Returns a => Returns (a, w)
    | Panics p => Panics p
    end.

Notation "x ←$ e1 ; e2" := (bindM e1 (fun x => e2))
  (at level 100, e1 at next level, right associativity, only parsing).

(** [o.client.CreateChatCompletion(ctx, req)] *)
Definition CreateChatCompletion (req : ChatCompletionRequest)
  : M (ChatCompletionResponse * option collaborator_error) :=
  fun w =>
    let '(r, e) := env_CreateChatCompletion req (env w) in
    Returns (r, mkWorld e (calls w ++ [CallCreateChatCompletion req])).

(** [o.rand(n)] *)
Definition rand (n : Z) : M Z :=
  fun w =>
    let '(r, e) := env_rand n (env w) in
    Returns (r, mkWorld e (calls w ++ [CallRand n])).

(** [o.nowFn()] *)
Definition nowFn : M Z :=
  fun w =>
    let '(t, e) := env_nowFn (env w) in
    Returns (t, mkWorld e (calls w ++ [CallNowFn])).

(** [time.Since(t)] *)
Definition Since (t : Z) : M Z :=
  fun w =>
    let '(now, e) := env_Now (env w) in
    Returns (Time_Sub now t, mkWorld e (calls w)).

(** The value the default source of [math/rand] yields next. *)
Definition draw : M Z :=
  fun w =>
    let '(d, e) := env_draw (env w) in
    Returns (d, mkWorld e (calls w)).

Fixpoint request_prefixes (text textLowerCase : string) (prefixes : list string)
  : outcome (bool * string) :=
  match prefixes with
  | [] => Returns (false, ""%string)
  | prefix :: rest =>
      if String.prefix prefix textLowerCase
      then
        tail ←! string_from (String.length prefix) text;
        Returns (true, TrimSpace tail)
      else request_prefixes text textLowerCase rest
  end.

Definition request (text : string) : outcome (bool * string) :=
  let textLowerCase := ToLower text in
  request_prefixes text textLowerCase ReactOn.

Definition checkRequest (o : OpenAI) (username : string) : M (bool * string) :=
  if IsSuper username then ret (true, ""%string)
  else
    now ←$ nowFn;
    if Time_Sub now (lastDT o) <? 1 * Minute
    then
      _ ←$ Since (lastDT o);   (* read for the log line *)
      since ←$ Since (lastDT o);
      ret (false, tooManyRequests since username)
    else ret (true, ""%string).

Definition checkResponseAI (username : string) : bool * string :=
  if IsSuper username then (true, ""%string) else (true, ""%string).

Definition defaultReducer (o : OpenAI) (text : string) : outcome string :=
  if Z.of_nat (String.length text) <=? MaxSymbolsRequest (params o)
  then Returns text
  else string_upto (MaxSymbolsRequest (params o)) text.

Definition reduceRequest (o : OpenAI) (text : string) : outcome string :=
  match NewEncoder with
  | None => defaultReducer o text
  | Some encoder =>
      match Encode encoder text with
      | None => defaultReducer o text
      | Some tokens =>
          if Z.of_nat (length tokens) <=? MaxTokensRequest (params o)
          then Returns text
          else
            cut ←! list_upto (MaxTokensRequest (params o)) tokens;
            Returns (Decode encoder cut)
      end
  end.

Definition chatGPTRequestInternal (o : OpenAI)
    (messages : list ChatCompletionMessage)
  : M (string * option completion_error) :=
  r ←$ CreateChatCompletion
         (mkChatCompletionRequest GPT4o20240513 (MaxTokensResponse (params o))
                                  messages);
  let '(resp, err) := r in
  match err with
  | Some e => ret (""%string, Some (ClientError e))
  | None =>
      match Choices resp with
      | [] => ret (""%string, Some NoChoices)
      | choice :: _ => ret (Content choice, None)
      end
  end.

Definition chatGPTRequest (o : OpenAI) (request userPrompt sysPrompt : string)
  : M (string * option completion_error) :=
  let r := request in
  let r := if negb (bool_decide (userPrompt = ""%string))
           then (userPrompt ++ "." ++ String "010" "" ++ request)%string
           else r in
  r ←$ lift (reduceRequest o r);
  chatGPTRequestInternal o
    [mkChatCompletionMessage ChatMessageRoleSystem sysPrompt;
     mkChatCompletionMessage ChatMessageRoleUser r].

Definition shouldAnswerWithHistory (o : OpenAI) (msg : bot.Message) : M bool :=
  if negb (bool_decide (Text msg = ""%string)) && negb (Contains (Text msg) "?")
  then ret false
  else
    r ←$ rand 100;
    ret (r <? HistoryReplyProbability (params o)).

Definition chatGPTRequestWithHistory (o : OpenAI) (sysPrompt : string)
  : M (string * option completion_error) :=
  let messages := [mkChatCompletionMessage ChatMessageRoleSystem sysPrompt] in
  let messages :=
    foldl (fun messages message =>
             messages ++ [mkChatCompletionMessage ChatMessageRoleUser
                                                  (Text message)])
          messages (LegacyHistory.messages (history o)) in
  chatGPTRequestInternal o messages.

(** [Summary] *)
Definition Summary (o : OpenAI) (text : string)
  : M (string * option completion_error) :=
  chatGPTRequest o text ""
    ("Make a short summary, up to 50 words, followed by a list of bullet points. Each bullet point is limited to 50 words, up to 7 in total. All in markdown format and translated to russian:" ++ String "010" "").

(** The ban that [OnMessage] answers with. *)
Definition banResponse (banMessage : string) (msg : bot.Message) : bot.Response :=
  mkResponse banMessage true false false (ID msg) "" Hour (From msg) 0.

(** The branch of [OnMessage] for a text that is no request. *)
Definition autoResponse (o : OpenAI) (msg : bot.Message)
  : M (bot.Response * OpenAI) :=
  if negb (EnableAutoResponse (params o))
     || bool_decide (Text msg = "idle"%string)
     || (Z.of_nat (String.length (Text msg)) <? 3)
  then ret (noResponse, o)
  else
    let o := set_history (LegacyHistory.Add msg (history o)) o in
    let answeringToQuestion := false in
    let sysPrompt := "This is a chat conversation. "%string in
    should ←$ shouldAnswerWithHistory o msg;
    r ←$ (if should : bool
          then ret (Some (true, (sysPrompt ++ answerPrompt)%string))
          else
            n ←$ rand 100;
            if n <? 10
            then ret (Some (answeringToQuestion,
                            (sysPrompt ++ continuePrompt)%string))
            else ret None);
    match r with
    | None => ret (noResponse, o)
    | Some (answeringToQuestion, sysPrompt) =>
        n ←$ rand 100;
        let shouldAnswerWithMention := n <? 75 in
        sysPrompt ←$
          (if answeringToQuestion && shouldAnswerWithMention
           then
             d ←$ draw;
             rndMsg ←$ lift (LegacyHistory.GetRandomMessage d (history o));
             rndMsg ←$ lift (events.deref rndMsg);
             let rndUsername := ("@" ++ User_Username (From rndMsg))%string in
             let rndUsername :=
               if bool_decide (rndUsername = "@"%string)
               then User_DisplayName (From rndMsg)
               else rndUsername in
             if negb (bool_decide (rndUsername = ""%string))
             then ret (sysPrompt ++ mentionPrompt rndUsername)%string
             else ret sysPrompt
           else ret sysPrompt);
        r ←$ chatGPTRequestWithHistory o sysPrompt;
        let '(responseAI, err) := r in
        match err with
        | Some _ => ret (noResponse, o)
        | None =>
            let responseAIMsg := textMessage responseAI in
            let o := set_history (LegacyHistory.Add responseAIMsg (history o)) o in
            ret (mkResponse responseAI true false false 0 "" 0 zeroUser 0, o)
        end
    end.

Definition OnMessage (o : OpenAI) (msg : bot.Message)
  : M (bot.Response * OpenAI) :=
  r ←$ lift (request (Text msg));
  let '(ok, reqText) := r in
  if negb ok then autoResponse o msg
  else
    r ←$ checkRequest o (User_Username (From msg));
    let '(ok, banMessage) := r in
    if negb ok then ret (banResponse banMessage msg, o)
    else
      r ←$ chatGPTRequest o reqText (Prompt (params o))
             "You answer with no more than 100 words";
      let '(responseAI, err) := r in
      match err with
      | Some _ => ret (noResponse, o)
      | None =>
          let '(ok, banMessage) := checkResponseAI (User_Username (From msg)) in
          if negb ok then ret (banResponse banMessage msg, o)
          else
            o ←$ (if negb (IsSuper (User_Username (From msg)))
                  then now ←$ nowFn; ret (set_lastDT now o)
                  else ret o);
            let o := set_history (LegacyHistory.Add msg (history o)) o in
            let responseAIMsg := textMessage responseAI in
            let o := set_history (LegacyHistory.Add responseAIMsg (history o)) o in
            _ ←$ Since (lastDT o);   (* read for the log line *)
            ret (mkResponse responseAI true false false (ID msg) "" 0 zeroUser 0,
                 o)
      end.

End Responder.

End openai.

(** ** Test doubles for the responder's collaborators *)

Module botmock.

(** Scripts for the client, [o.rand], [o.nowFn], the clock and the default
    random source; each call takes the head of its script. *)
Record Script : Type := mkScript {
  completions : list (openai.ChatCompletionResponse * option collaborator_error);
  rands : list Z;
  nows : list Z;
  clock : list Z;
  draws : list Z
}.

#[global] Instance scripted : openai.Collaborators Script := {|
  openai.env_CreateChatCompletion _ e :=
    match completions e with
    | r :: rest => (r, mkScript rest (rands e) (nows e) (clock e) (draws e))
    | [] => ((openai.mkChatCompletionResponse [], Some "EOF"%string), e)
    end;
  openai.env_rand _ e :=
    match rands e with
    | r :: rest => (r, mkScript (completions e) rest (nows e) (clock e) (draws e))
    | [] => (0, e)
    end;
  openai.env_nowFn e :=
    match nows e with
    | t :: rest => (t, mkScript (completions e) (rands e) rest (clock e) (draws e))
    | [] => (0, e)
    end;
  openai.env_Now e :=
    match clock e with
    | t :: rest => (t, mkScript (completions e) (rands e) (nows e) rest (draws e))
    | [] => (0, e)
    end;
  openai.env_draw e :=
    match draws e with
    | d :: rest => (d, mkScript (completions e) (rands e) (nows e) (clock e) rest)
    | [] => (0, e)
    end
|}.

Definition world (script : Script) : openai.World (E := Script) :=
  openai.mkWorld script [].

(** [strings.ToLower] on ASCII letters; other bytes are left alone. *)
Definition lower_byte (a : ascii) : ascii :=
  let n := nat_of_ascii a in
  if (65 <=? n)%nat && (n <=? 90)%nat then ascii_of_nat (n + 32) else a.

Fixpoint ToLower (s : string) : string :=
  match s with
  | EmptyString => EmptyString
  | String a rest => String (lower_byte a) (ToLower rest)
  end.

(** [strings.TrimSpace] for leading blanks. *)
Fixpoint TrimSpace (s : string) : string :=
  match s with
  | String " " rest => TrimSpace rest
  | _ => s
  end.

Definition IsSuper (username : string) : bool :=
  bool_decide (username = "umputun"%string).

(** An encoder with one token per byte. *)
Definition bytes : openai.Encoder :=
  openai.mkEncoder
    (fun text => Some (Z.of_nat ∘ nat_of_ascii <$> String.list_ascii_of_string text))
    (fun tokens =>
       String.string_of_list_ascii (ascii_of_nat ∘ Z.to_nat <$> tokens)).

Definition tooManyRequests (since : Z) (username : string) : string :=
  ("Too many requests, @" ++ username)%string.

Definition params (historySize : Z) : openai.Params :=
  openai.mkParams "token" 1000 3000 12000 "" true historySize 10.

Definition from (username text : string) : bot.Message :=
  bot.mkMessage 9 (bot.mkUser 77 username "Some One") bot.zeroSenderChat "5_0"
                (TimeUnix 1700000000) text None None bot.zeroReply.

Definition answer (text : string)
  : openai.ChatCompletionResponse * option collaborator_error :=
  (openai.mkChatCompletionResponse
     [openai.mkChatCompletionMessage "assistant" text], None).

End botmock.

(** No underscore in a string. *)
Fixpoint no_underscore (s : string) : Prop :=
  match s with
  | EmptyString => True
  | String a rest => a <> "_"%char /\ no_underscore rest
  end.

(** * Properties *)

(** ** Lists kept to a bound *)

Section Capped.

Context {A : Type}.
Implicit Types (l : list A) (x : A) (C : nat).

Lemma last_n_min C l : last_n (min (length l) C) l = drop (length l - C) l.
Proof. unfold last_n. f_equal. lia. Qed.

Lemma last_n_length C l : length (last_n (min (length l) C) l) = min (length l) C.
Proof. rewrite last_n_min, length_drop. lia. Qed.

(** Appending to the kept part of [l] and dropping the head on overflow
    keeps the last [C] elements of [l ++ [x]]. *)
Lemma push_capped C l x :
  (if (C <? length (drop (length l - C) l ++ [x]))%nat
   then drop 1 (drop (length l - C) l ++ [x])
   else drop (length l - C) l ++ [x])
  = drop (length (l ++ [x]) - C) (l ++ [x]).
Proof.
  rewrite !length_app, length_drop. cbn [length].
  destruct (Nat.ltb_spec C (length l - (length l - C) + 1)) as [Hlt | Hge].
  - destruct C as [| C'].
    + rewrite Nat.sub_0_r, drop_all. cbn.
      replace (length l + 1 - 0)%nat with (length (l ++ [x]))
        by (rewrite length_app; cbn; lia).
      now rewrite drop_all.
    + rewrite drop_app_le by (rewrite length_drop; lia).
      rewrite drop_drop.
      rewrite (drop_app_le l) by lia.
      do 2 f_equal. lia.
  - replace (length l + 1 - C)%nat with 0%nat by lia.
    replace (length l - C)%nat with 0%nat by lia.
    reflexivity.
Qed.

(** One insertion drops at most the head. *)
Lemma push_evicts (limit : Z) l x :
  exists evicted : list A,
    (length evicted <= 1)%nat /\
    l ++ [x]
    = evicted ++ (if Z.of_nat (length (l ++ [x])) >? limit
                  then drop 1 (l ++ [x]) else l ++ [x]).
Proof.
  destruct (Z.of_nat (length (l ++ [x])) >? limit).
  - exists (take 1 (l ++ [x])). split.
    + rewrite length_take. lia.
    + now rewrite take_drop.
  - exists []. split; [cbn; lia | reflexivity].
Qed.

Lemma gtb_nat_Z (n : nat) (limit : Z) :
  0 <= limit -> (Z.of_nat n >? limit) = (Z.to_nat limit <? n)%nat.
Proof.
  intros Hl. destruct (Nat.ltb_spec (Z.to_nat limit) n); lia.
Qed.

End Capped.

(** ** The global history *)

Module LegacyHistoryFacts.

Import LegacyHistory.

Lemma legacy_AddAll_snoc msgs m h : AddAll (msgs ++ [m]) h = Add m (AddAll msgs h).
Proof. unfold AddAll. now rewrite foldl_app. Qed.

Lemma AddAll_limit msgs h : limit (AddAll msgs h) = limit h.
Proof.
  induction msgs as [| m msgs IH] using rev_ind; [reflexivity |].
  now rewrite legacy_AddAll_snoc.
Qed.

(** From an empty history, the messages kept are the tail of what was added. *)
Lemma AddAll_messages (C : Z) msgs h0 :
  0 <= C -> limit h0 = C -> messages h0 = [] ->
  messages (AddAll msgs h0) = drop (length msgs - Z.to_nat C) msgs.
Proof.
  intros HC Hlim Hempty.
  induction msgs as [| m msgs IH] using rev_ind.
  - now rewrite drop_nil.
  - rewrite legacy_AddAll_snoc. cbn [Add messages].
    rewrite AddAll_limit, Hlim, IH.
    rewrite gtb_nat_Z by exact HC.
    apply push_capped.
Qed.

Lemma New_ok (C : Z) :
  0 <= C ->
  NewLimitedMessageHistory C = Returns (mkHistory C 0 []).
Proof.
  intros HC. unfold NewLimitedMessageHistory, make_empty.
  destruct (Z.ltb_spec C 0); [lia | reflexivity].
Qed.

Lemma legacy_Add_evicts m h :
  exists evicted,
    (length evicted <= 1)%nat /\
    messages h ++ [m] = evicted ++ messages (Add m h).
Proof. apply push_evicts. Qed.

Lemma GetRandomMessage_empty draw h :
  messages h = [] -> GetRandomMessage draw h = Returns None.
Proof. intros E. unfold GetRandomMessage. now rewrite E. Qed.

End LegacyHistoryFacts.

(** Picking by a drawn index never leaves the list. *)
Lemma pick_in_range {A : Type} (draw : Z) (l : list A) :
  l <> [] ->
  exists a,
    (randomIndex ←! Intn draw (Z.of_nat (length l));
     m ←! index l randomIndex;
     Returns (Some m)) = Returns (Some a)
    /\ a ∈ l.
Proof.
  intros Hne.
  assert (0 < Z.of_nat (length l)) as Hlen by (destruct l; [done | cbn; lia]).
  unfold Intn. destruct (Z.leb_spec (Z.of_nat (length l)) 0) as [| _]; [lia |].
  cbn [Go.bind]. unfold index.
  pose proof (Z.mod_pos_bound draw _ Hlen) as [Hlo Hhi].
  destruct (Z.ltb_spec (draw mod Z.of_nat (length l)) 0) as [| _]; [lia |].
  destruct (lookup_lt_is_Some_2 l (Z.to_nat (draw mod Z.of_nat (length l))))
    as [a Ha]; [lia |].
  rewrite Ha. cbn. exists a. split; [reflexivity |].
  eapply list_elem_of_lookup_2, Ha.
Qed.

(** ** The per-chat history *)

Module ChatHistoriesFacts.

Import ChatHistories.

Lemma retained_lookup chatID h :
  retained chatID h = default [] (messages <$> chats h !! chatID).
Proof.
  unfold retained, GetMessagesByChatID. now destruct (chats h !! chatID).
Qed.

Lemma AddAll_snoc msgs m h :
  AddAll (msgs ++ [m]) h = (h' ←! AddAll msgs h; Add m h').
Proof.
  revert h. induction msgs as [| m' msgs IH]; intros h; cbn.
  - now destruct (Add m h).
  - destruct (Add m' h) as [h1 | p]; cbn; [apply IH | reflexivity].
Qed.

Lemma inserted_snoc_same m msgs :
  inserted (bot.ChatID m) (msgs ++ [m]) = inserted (bot.ChatID m) msgs ++ [m].
Proof.
  unfold inserted. rewrite filter_app. f_equal.
  now rewrite filter_cons_True.
Qed.

Lemma inserted_snoc_other chatID m msgs :
  bot.ChatID m <> chatID ->
  inserted chatID (msgs ++ [m]) = inserted chatID msgs.
Proof.
  intros Hne. unfold inserted. rewrite filter_app.
  rewrite filter_cons_False by exact Hne. cbn. apply app_nil_r.
Qed.

(** What each chat holds after a run of insertions into a new history. *)
Lemma AddAll_chats (C : Z) (msgs : list bot.Message) :
  0 <= C ->
  exists h,
    AddAll msgs (NewLimitedMessageHistory C) = Returns h /\
    limit h = C /\
    forall chatID,
      messages <$> chats h !! chatID
      = if decide (inserted chatID msgs = []) then None
        else Some (drop (length (inserted chatID msgs) - Z.to_nat C)
                        (inserted chatID msgs)).
Proof.
  intros HC. induction msgs as [| m msgs IH] using rev_ind.
  - eexists. split; [reflexivity |]. split; [reflexivity |].
    intros chatID. cbn. now rewrite lookup_empty.
  - destruct IH as (h & Hrun & Hlim & Hchats).
    rewrite AddAll_snoc, Hrun. cbn [Go.bind]. unfold Add.
    assert (exists ch,
               match chats h !! bot.ChatID m with
               | Some chatHistory => Returns chatHistory
               | None =>
                   messages ←! make_empty (limit h);
                   Returns {| count := 0; messages := messages |}
               end = Returns ch
               /\ messages ch
                  = drop (length (inserted (bot.ChatID m) msgs) - Z.to_nat C)
                         (inserted (bot.ChatID m) msgs)) as (ch & -> & Hch).
    { specialize (Hchats (bot.ChatID m)).
      destruct (chats h !! bot.ChatID m) as [ch |] eqn:E; cbn in Hchats.
      - exists ch. split; [reflexivity |].
        destruct (decide (inserted (bot.ChatID m) msgs = [])); congruence.
      - destruct (decide (inserted (bot.ChatID m) msgs = [])) as [E0 |];
          [| discriminate].
        unfold make_empty. rewrite Hlim.
        destruct (Z.ltb_spec C 0); [lia |]. cbn.
        eexists. split; [reflexivity |]. cbn. now rewrite E0. }
    cbn [Go.bind]. eexists. split; [reflexivity |]. split; [exact Hlim |].
    intros chatID. cbn [chats].
    destruct (decide (bot.ChatID m = chatID)) as [<- | Hne].
    + rewrite lookup_insert_eq. cbn [fmap option_fmap option_map messages].
      rewrite inserted_snoc_same.
      rewrite decide_False by (intros E; now apply app_nil in E as [_ ?]).
      f_equal. rewrite Hch, Hlim, gtb_nat_Z by exact HC.
      apply push_capped.
    + rewrite lookup_insert_ne by exact Hne.
      rewrite inserted_snoc_other by exact Hne. apply Hchats.
Qed.

(** One insertion appends to its chat, drops at most the head there, and
    leaves the other chats as they were. *)
Lemma Add_evicts m h h' chatID :
  Add m h = Returns h' ->
  exists evicted,
    (length evicted <= 1)%nat /\
    retained chatID h ++ (if decide (bot.ChatID m = chatID) then [m] else [])
    = evicted ++ retained chatID h'.
Proof.
  unfold Add. intros Hadd.
  destruct (decide (bot.ChatID m = chatID)) as [<- | Hne].
  - rewrite !retained_lookup.
    destruct (chats h !! bot.ChatID m) as [ch |] eqn:E; cbn in Hadd |- *.
    + injection Hadd as <-. cbn [chats]. rewrite lookup_insert_eq. cbn.
      apply push_evicts.
    + unfold make_empty in Hadd. destruct (limit h <? 0); [discriminate |].
      cbn in Hadd. injection Hadd as <-. cbn [chats].
      rewrite lookup_insert_eq.
      cbn [fmap option_fmap option_map messages default].
      apply (push_evicts (limit h) [] m).
  - exists []. split; [cbn; lia |]. rewrite app_nil_r. cbn [app].
    rewrite !retained_lookup.
    destruct (match chats h !! bot.ChatID m with
              | Some chatHistory => Returns chatHistory
              | None =>
                  messages ←! make_empty (limit h);
                  Returns {| count := 0; messages := messages |}
              end) as [ch | p]; [| discriminate].
    cbn in Hadd. injection Hadd as <-. cbn [chats].
    now rewrite lookup_insert_ne by exact Hne.
Qed.

Lemma GetRandomMessage_retained draw chatID h :
  GetRandomMessage draw chatID h
  = if decide (retained chatID h = []) then Returns None
    else (randomIndex ←! Intn draw (Z.of_nat (length (retained chatID h)));
          m ←! index (retained chatID h) randomIndex;
          Returns (Some m)).
Proof.
  unfold GetRandomMessage, retained, GetMessagesByChatID.
  destruct (chats h !! chatID) as [ch |]; cbn [elems]; [| reflexivity].
  destruct (messages ch) as [| m ms]; [reflexivity |].
  rewrite decide_False by discriminate. reflexivity.
Qed.

End ChatHistoriesFacts.

(** ** The claims about the history *)

Import ChatHistoriesFacts.

(** C2. For a capacity [C >= 0] and any run of insertions [msgs] into a new
    history: in the global variant the messages kept are at most [C] and are
    the last [min N C] of the run, in order, and every insertion drops at
    most one entry, the oldest; in the per-chat variant the same holds chat
    by chat, for the messages of the run that belong to the chat. *)
Theorem C2_history_keeps_last (C : Z) (msgs : list bot.Message) :
  0 <= C ->
  (exists h0,
      LegacyHistory.NewLimitedMessageHistory C = Returns h0 /\
      let h := LegacyHistory.AddAll msgs h0 in
      Z.of_nat (length (LegacyHistory.messages h)) <= C /\
      LegacyHistory.messages h = last_n (min (length msgs) (Z.to_nat C)) msgs)
  /\ (forall h m,
         exists evicted,
           (length evicted <= 1)%nat /\
           LegacyHistory.messages h ++ [m]
           = evicted ++ LegacyHistory.messages (LegacyHistory.Add m h))
  /\ (exists h,
         ChatHistories.AddAll msgs (ChatHistories.NewLimitedMessageHistory C)
         = Returns h /\
         forall chatID,
           Z.of_nat (length (ChatHistories.retained chatID h)) <= C /\
           ChatHistories.retained chatID h
           = last_n (min (length (ChatHistories.inserted chatID msgs)) (Z.to_nat C))
                    (ChatHistories.inserted chatID msgs))
  /\ (forall h m,
         ChatHistories.limit h = C ->
         exists h',
           ChatHistories.Add m h = Returns h' /\
           forall chatID,
             exists evicted,
               (length evicted <= 1)%nat /\
               ChatHistories.retained chatID h
               ++ (if decide (bot.ChatID m = chatID) then [m] else [])
               = evicted ++ ChatHistories.retained chatID h').
Proof.
  intros HC. repeat split.
  - eexists. split; [apply LegacyHistoryFacts.New_ok, HC |]. cbn zeta.
    rewrite (LegacyHistoryFacts.AddAll_messages C) by (done || reflexivity).
    rewrite last_n_min. split; [| reflexivity].
    rewrite length_drop. lia.
  - intros h m. apply LegacyHistoryFacts.legacy_Add_evicts.
  - destruct (AddAll_chats C msgs HC) as (h & Hrun & _ & Hchats).
    exists h. split; [exact Hrun |]. intros chatID.
    rewrite retained_lookup, Hchats, last_n_min.
    destruct (decide (ChatHistories.inserted chatID msgs = [])) as [-> | _]; cbn.
    + split; [lia | reflexivity].
    + split; [rewrite length_drop; lia | reflexivity].
  - intros h m Hlim.
    assert (exists h', ChatHistories.Add m h = Returns h') as [h' Hadd].
    { unfold ChatHistories.Add.
      destruct (ChatHistories.chats h !! bot.ChatID m); cbn; [eauto |].
      unfold make_empty. rewrite Hlim.
      destruct (Z.ltb_spec C 0); [lia |]. cbn. eauto. }
    exists h'. split; [exact Hadd |]. intros chatID.
    eapply Add_evicts, Hadd.
Qed.

Lemma C2_history_keeps_last_witness :
  let a := mock.text_message "1_0" "a" in
  let b := mock.text_message "2_0" "b" in
  let c := mock.text_message "1_0" "c" in
  let d := mock.text_message "1_0" "d" in
  0 <= 2 /\
  LegacyHistory.messages
    (LegacyHistory.AddAll [a; b; c; d] (LegacyHistory.mkHistory 2 0 []))
  = [c; d] /\
  (exists h,
      ChatHistories.AddAll [a; b; c; d] (ChatHistories.NewLimitedMessageHistory 2)
      = Returns h /\
      ChatHistories.retained "1_0" h = [c; d] /\ ChatHistories.retained "2_0" h = [b] /\ ChatHistories.retained "" h = []).
Proof.
  intros a b c d.
  assert (0 <= 2) as H by lia.
  split; [exact H |].
  destruct (C2_history_keeps_last 2 [a; b; c; d] H)
    as ((h0 & Hnew & _ & Hkept) & _ & (h & Hrun & Hchats) & _).
  split.
  - injection Hnew as <-. exact Hkept.
  - exists h. split; [exact Hrun |].
    split; [exact (proj2 (Hchats "1_0"%string)) |].
    split; [exact (proj2 (Hchats "2_0"%string)) |].
    exact (proj2 (Hchats ""%string)).
Defined.

(** C10. [GetRandomMessage] on a history with no message (for a chat with no
    message, in the per-chat variant) returns nil without panicking; when
    there are messages it returns one of those kept, whatever the source of
    randomness draws. *)
Theorem C10_random_message (draw : Z) :
  (forall h,
      LegacyHistory.messages h = [] ->
      LegacyHistory.GetRandomMessage draw h = Returns None)
  /\ (forall h,
         LegacyHistory.messages h <> [] ->
         exists m,
           LegacyHistory.GetRandomMessage draw h = Returns (Some m) /\
           m ∈ LegacyHistory.messages h)
  /\ (forall chatID h,
         ChatHistories.retained chatID h = [] ->
         ChatHistories.GetRandomMessage draw chatID h = Returns None)
  /\ (forall chatID h,
         ChatHistories.retained chatID h <> [] ->
         exists m,
           ChatHistories.GetRandomMessage draw chatID h = Returns (Some m) /\
           m ∈ ChatHistories.retained chatID h).
Proof.
  repeat split.
  - intros h. apply LegacyHistoryFacts.GetRandomMessage_empty.
  - intros h Hne. unfold LegacyHistory.GetRandomMessage.
    destruct (LegacyHistory.messages h) as [| m ms] eqn:E; [done |].
    change (Z.of_nat (length (m :: ms)) =? 0) with false. cbv iota.
    apply pick_in_range. discriminate.
  - intros chatID h E. rewrite GetRandomMessage_retained.
    now rewrite decide_True by exact E.
  - intros chatID h Hne. rewrite GetRandomMessage_retained.
    rewrite decide_False by exact Hne. now apply pick_in_range.
Qed.

Lemma C10_random_message_witness :
  let a := mock.text_message "1_0" "a" in
  let b := mock.text_message "1_0" "b" in
  let one := ChatHistories.mkHistory 2
               {[ "1_0"%string := ChatHistories.mkChatHistory 2 [a; b] ]} in
  LegacyHistory.GetRandomMessage 5 (LegacyHistory.mkHistory 2 0 []) = Returns None
  /\ (exists m,
         LegacyHistory.GetRandomMessage 5 (LegacyHistory.mkHistory 2 2 [a; b])
         = Returns (Some m) /\ m ∈ [a; b])
  /\ ChatHistories.GetRandomMessage 5 "2_0" one = Returns None
  /\ (exists m,
         ChatHistories.GetRandomMessage 5 "1_0" one = Returns (Some m) /\
         m ∈ ChatHistories.retained "1_0" one).
Proof.
  intros a b one.
  destruct (C10_random_message 5) as (H1 & H2 & H3 & H4).
  split; [apply H1; reflexivity |].
  split; [apply (H2 (LegacyHistory.mkHistory 2 2 [a; b])); discriminate |].
  split; [apply H3; reflexivity |].
  apply H4. vm_compute. discriminate.
Defined.

(** ** The transformer *)

Module TransformFacts.

Import bot events.

Lemma nonempty_test {A : Type} (s : slice A) :
  negb (is_nil s) && (len s >? 0)
  = match elems s with [] => false | _ :: _ => true end.
Proof. destruct s as [[| a l] |]; reflexivity. Qed.

Lemma len_zero_test {A : Type} (s : slice A) :
  (len s =? 0) = match elems s with [] => true | _ :: _ => false end.
Proof. destruct s as [[| a l] |]; reflexivity. Qed.

Lemma index_last {A : Type} (l : list A) :
  l <> [] ->
  exists x, last l = Some x /\ index l (Z.of_nat (length l) - 1) = Returns x.
Proof.
  intros Hne. unfold index.
  destruct (Z.ltb_spec (Z.of_nat (length l) - 1) 0) as [Hlt | _].
  - destruct l; [done | cbn in Hlt; lia].
  - replace (Z.to_nat (Z.of_nat (length l) - 1)) with (pred (length l)) by lia.
    rewrite <- last_lookup.
    destruct (last l) as [x |] eqn:E; [eauto |].
    apply last_None in E. done.
Qed.

Lemma transformEntities_foldl (acc : list bot.Entity) entities :
  foldl (fun result entity => result ++ [transformEntity entity]) acc entities
  = acc ++ map transformEntity entities.
Proof.
  revert acc. induction entities as [| e es IH]; intros acc; cbn.
  - now rewrite app_nil_r.
  - rewrite IH. now rewrite <- app_assoc.
Qed.

(** [transformEntities] gives nil for no entity, and else the entities
    one by one. *)
Lemma transformEntities_spec (entities : slice tbapi.MessageEntity) :
  transformEntities entities
  = match elems entities with
    | [] => None
    | _ :: _ => Some (map transformEntity (elems entities))
    end.
Proof.
  unfold transformEntities. rewrite len_zero_test.
  destruct (elems entities) as [| e es]; [reflexivity |].
  now rewrite transformEntities_foldl.
Qed.

Lemma transformEntities_not_empty (entities : slice tbapi.MessageEntity) :
  transformEntities entities <> Some [].
Proof.
  rewrite transformEntities_spec.
  destruct (elems entities); discriminate.
Qed.

(** Case analysis on the optional parts that [transform] inspects besides
    the entities and the photo. *)
Ltac split_optionals msg :=
  destruct (tbapi.ReplyToMessage msg) as [replyTo |];
  [ destruct (tbapi.From replyTo) eqn:?;
    destruct (tbapi.SenderChat replyTo) eqn:? | ];
  destruct (Z.eqb_spec (tbapi.Chat_ID (tbapi.Chat_ msg)) 0);
  destruct (tbapi.From msg);
  destruct (tbapi.SenderChat msg).

(** A message with entities: they are attached, the photo is not looked at. *)
Lemma transform_entities msg :
  elems (tbapi.Entities msg) <> [] ->
  exists m,
    transform msg = Returns m /\
    Entities m = Some (map transformEntity (elems (tbapi.Entities msg))) /\
    Image_ m = None.
Proof.
  intros Hne. unfold transform. rewrite !nonempty_test, transformEntities_spec.
  destruct (elems (tbapi.Entities msg)) as [| e es]; [done |].
  cbn [Go.bind].
  split_optionals msg; eexists; (split; [reflexivity |]); split; reflexivity.
Qed.

(** A message with a photo and no entity: the image is built from the last
    size, the caption and the caption entities. *)
Lemma transform_photo msg :
  elems (tbapi.Entities msg) = [] ->
  elems (tbapi.Photo msg) <> [] ->
  exists m lastSize,
    transform msg = Returns m /\
    last (elems (tbapi.Photo msg)) = Some lastSize /\
    Image_ m = Some (mkImage (tbapi.FileID lastSize) (tbapi.Width lastSize)
                             (tbapi.Height lastSize) (tbapi.Caption msg)
                             (transformEntities (tbapi.CaptionEntities msg))) /\
    Entities m = None.
Proof.
  intros Hnone Hphoto. unfold transform. rewrite !nonempty_test, Hnone.
  destruct (index_last _ Hphoto) as (lastSize & Hlast & Hindex).
  unfold len at 1. rewrite Hindex.
  destruct (elems (tbapi.Photo msg)) as [| p ps]; [done |].
  cbn [Go.bind].
  split_optionals msg; eexists; exists lastSize;
    (split; [reflexivity |]); (split; [exact Hlast |]); split; reflexivity.
Qed.

(** A message with neither: nothing is attached. *)
Lemma transform_plain msg :
  elems (tbapi.Entities msg) = [] ->
  elems (tbapi.Photo msg) = [] ->
  exists m,
    transform msg = Returns m /\ Entities m = None /\ Image_ m = None.
Proof.
  intros Hnone Hphoto. unfold transform. rewrite !nonempty_test, Hnone, Hphoto.
  cbn [Go.bind].
  split_optionals msg; eexists; (split; [reflexivity |]); split; reflexivity.
Qed.

(** [transform] never panics. *)
Lemma transform_total msg : exists m, transform msg = Returns m.
Proof.
  destruct (elems (tbapi.Entities msg)) as [| e es] eqn:He.
  - destruct (elems (tbapi.Photo msg)) as [| p ps] eqn:Hp.
    + destruct (transform_plain msg He Hp) as (m & H & _). eauto.
    + destruct (transform_photo msg He) as (m & lastSize & H & _);
        [rewrite Hp; discriminate | eauto].
  - destruct (transform_entities msg) as (m & H & _);
      [rewrite He; discriminate | eauto].
Qed.

(** The time of a transformed message comes from [time.Unix]. *)
Lemma transform_Sent msg m :
  transform msg = Returns m -> Sent m = TimeUnix (tbapi.Date msg).
Proof.
  unfold transform. rewrite !nonempty_test.
  destruct (elems (tbapi.Entities msg)) as [| e es].
  - destruct (elems (tbapi.Photo msg)) as [| p ps] eqn:Hp.
    + cbn [Go.bind]. split_optionals msg; intros [= <-]; reflexivity.
    + destruct (index_last (p :: ps)) as (lastSize & _ & Hindex); [done |].
      unfold len at 1. rewrite Hp, Hindex. cbn [Go.bind].
      split_optionals msg; intros [= <-]; reflexivity.
  - cbn [Go.bind]. split_optionals msg; intros [= <-]; reflexivity.
Qed.

(** Whatever is absent on the wire stays at its zero value. *)
Lemma transform_absent msg :
  exists m,
    transform msg = Returns m /\
    (tbapi.From msg = None -> From m = zeroUser) /\
    (tbapi.SenderChat msg = None -> SenderChat_ m = zeroSenderChat) /\
    (tbapi.Chat_ID (tbapi.Chat_ msg) = 0 -> ChatID m = ""%string) /\
    (tbapi.ReplyToMessage msg = None -> ReplyTo m = zeroReply) /\
    (forall replyTo,
        tbapi.ReplyToMessage msg = Some replyTo ->
        (tbapi.From replyTo = None -> Reply_From (ReplyTo m) = zeroUser) /\
        (tbapi.SenderChat replyTo = None ->
         Reply_SenderChat (ReplyTo m) = zeroSenderChat)).
Proof.
  unfold transform. rewrite !nonempty_test.
  destruct (elems (tbapi.Entities msg)) as [| e es].
  - destruct (elems (tbapi.Photo msg)) as [| p ps] eqn:Hp.
    + cbn [Go.bind]. eexists. split; [reflexivity |].
      split_optionals msg; cbn; repeat split; intros; simplify_eq; done.
    + destruct (index_last (p :: ps)) as (lastSize & _ & Hindex); [done |].
      unfold len at 1. rewrite Hp, Hindex. cbn [Go.bind].
      eexists. split; [reflexivity |].
      split_optionals msg; cbn; repeat split; intros; simplify_eq; done.
  - cbn [Go.bind]. eexists. split; [reflexivity |].
    split_optionals msg; cbn; repeat split; intros; simplify_eq; done.
Qed.

End TransformFacts.

(** ** The claims about the transformer *)

Import TransformFacts.

Lemma transform_content msg m :
  events.transform msg = Returns m ->
  (elems (tbapi.Entities msg) = [] -> bot.Entities m = None) /\
  (elems (tbapi.Photo msg) = [] -> bot.Image_ m = None) /\
  bot.Entities m <> Some [] /\
  (bot.Entities m = None \/ bot.Image_ m = None).
Proof.
  intros Hm.
  destruct (elems (tbapi.Entities msg)) as [| e es] eqn:He.
  - destruct (elems (tbapi.Photo msg)) as [| p ps] eqn:Hp.
    + destruct (transform_plain msg He Hp) as (m' & Hm' & HE & HI).
      rewrite Hm in Hm'. injection Hm' as <-.
      rewrite HE, HI. repeat split; auto; discriminate.
    + destruct (transform_photo msg He) as (m' & lastSize & Hm' & _ & HI & HE);
        [rewrite Hp; discriminate |].
      rewrite Hm in Hm'. injection Hm' as <-.
      rewrite HE. repeat split; auto; discriminate.
  - destruct (transform_entities msg) as (m' & Hm' & HE & HI);
      [rewrite He; discriminate |].
    rewrite Hm in Hm'. injection Hm' as <-.
    rewrite HE, HI, He. repeat split; auto; discriminate.
Qed.

(** C3. [transform] attaches either the entities or the image: with
    entities on the wire message the entities are set and the image is not,
    photo or no photo; with a photo and no entities the image is built from
    the last entry of the photo sizes, the caption and the caption entities,
    and the entities stay unset; the two are never set together. *)
Theorem C3_transform_entities_or_image (msg : tbapi.Message) :
  (elems (tbapi.Entities msg) <> [] ->
   exists m,
     events.transform msg = Returns m /\
     bot.Entities m
     = Some (map events.transformEntity (elems (tbapi.Entities msg))) /\
     bot.Image_ m = None)
  /\ (elems (tbapi.Entities msg) = [] ->
      elems (tbapi.Photo msg) <> [] ->
      exists m lastSize,
        events.transform msg = Returns m /\
        last (elems (tbapi.Photo msg)) = Some lastSize /\
        bot.Image_ m
        = Some (bot.mkImage (tbapi.FileID lastSize) (tbapi.Width lastSize)
                            (tbapi.Height lastSize) (tbapi.Caption msg)
                            (events.transformEntities (tbapi.CaptionEntities msg)))
        /\ bot.Entities m = None)
  /\ (forall m,
         events.transform msg = Returns m ->
         ~ (is_Some (bot.Entities m) /\ is_Some (bot.Image_ m))).
Proof.
  split; [apply transform_entities |].
  split; [apply transform_photo |].
  intros m Hm [[es HE] [img HI]].
  destruct (transform_content msg m Hm) as (_ & _ & _ & [H | H]); congruence.
Qed.

Lemma C3_transform_entities_or_image_witness :
  let bold := tbapi.mkMessageEntity "bold" 0 4 "" None in
  let small := tbapi.mkPhotoSize "small" 90 60 in
  let large := tbapi.mkPhotoSize "large" 1280 853 in
  let both :=
    tbapi.mkMessage 7 0 None None 1700000000 (tbapi.mkChat 5 "supergroup" "")
                    "text" (Some [bold]) (Some [small; large]) "cap" None None in
  let photo :=
    tbapi.mkMessage 8 0 None None 1700000000 (tbapi.mkChat 5 "supergroup" "")
                    "" (Some []) (Some [small; large]) "cap" (Some [bold]) None in
  (exists m,
      events.transform both = Returns m /\
      bot.Entities m = Some [bot.mkEntity "bold" 0 4 "" None] /\
      bot.Image_ m = None)
  /\ (exists m,
         events.transform photo = Returns m /\
         bot.Image_ m
         = Some (bot.mkImage "large" 1280 853 "cap"
                             (Some [bot.mkEntity "bold" 0 4 "" None])) /\
         bot.Entities m = None).
Proof.
  intros bold small large both photo.
  split.
  - destruct (C3_transform_entities_or_image both) as (H & _ & _).
    apply H. discriminate.
  - destruct (C3_transform_entities_or_image photo) as (_ & H & _).
    destruct H as (m & lastSize & Hm & Hlast & HI & HE);
      [reflexivity | discriminate |].
    injection Hlast as <-. exists m. auto.
Defined.

(** C9. [transform] returns for every wire message, whatever is absent
    from it: an absent sender, sender chat, chat, entities, photo or
    replied-to message (and an absent sender or sender chat of the replied-to
    message) leaves the corresponding field at its zero value, and the
    entities of the result are nil, not an empty list, when the wire message
    carries none. *)
Theorem C9_transform_tolerates_absence (msg : tbapi.Message) :
  exists m,
    events.transform msg = Returns m /\
    (tbapi.From msg = None -> bot.From m = bot.zeroUser) /\
    (tbapi.SenderChat msg = None -> bot.SenderChat_ m = bot.zeroSenderChat) /\
    (tbapi.Chat_ID (tbapi.Chat_ msg) = 0 -> bot.ChatID m = ""%string) /\
    (tbapi.ReplyToMessage msg = None -> bot.ReplyTo m = bot.zeroReply) /\
    (forall replyTo,
        tbapi.ReplyToMessage msg = Some replyTo ->
        (tbapi.From replyTo = None ->
         bot.Reply_From (bot.ReplyTo m) = bot.zeroUser) /\
        (tbapi.SenderChat replyTo = None ->
         bot.Reply_SenderChat (bot.ReplyTo m) = bot.zeroSenderChat)) /\
    (elems (tbapi.Entities msg) = [] -> bot.Entities m = None) /\
    (elems (tbapi.Photo msg) = [] -> bot.Image_ m = None) /\
    bot.Entities m <> Some [].
Proof.
  destruct (transform_absent msg) as (m & Hm & HF & HS & HC & HR & HRR).
  destruct (transform_content msg m Hm) as (HE & HI & HN & _).
  exists m. repeat split; auto; apply HRR; auto.
Qed.

Lemma C9_transform_tolerates_absence_witness :
  let bare := tbapi.mkMessage 9 0 None None 1700000000 tbapi.zeroChat "hi"
                              (Some []) None "" None None in
  events.transform bare
  = Returns (bot.mkMessage 9 bot.zeroUser bot.zeroSenderChat ""
                           (TimeUnix 1700000000) "hi" None None bot.zeroReply).
Proof.
  intros bare.
  destruct (C9_transform_tolerates_absence bare)
    as (m & Hm & HF & HS & HC & HR & _ & HE & HI & _).
  rewrite Hm. f_equal.
  specialize (HF eq_refl). specialize (HS eq_refl). specialize (HC eq_refl).
  specialize (HR eq_refl). specialize (HE eq_refl). specialize (HI eq_refl).
  assert (bot.ID m = 9 /\ bot.Sent m = TimeUnix 1700000000
          /\ bot.Text m = "hi"%string) as (Hid & Hsent & Htext)
    by (injection Hm as <-; repeat split).
  destruct m; cbn in *. congruence.
Defined.

(** ** The listener *)

Module ListenerFacts.

Import bot events listener.

Lemma sends_app (xs ys : list Call) : sends (xs ++ ys) = sends xs ++ sends ys.
Proof. apply omap_app. Qed.

Lemma saves_app (xs ys : list Call) : saves (xs ++ ys) = saves xs ++ saves ys.
Proof. apply omap_app. Qed.

Lemma dispatches_app (xs ys : list Call) :
  dispatches (xs ++ ys) = dispatches xs ++ dispatches ys.
Proof. apply omap_app. Qed.

Section Collaborators.

Context {T L B : Type}.
Context {TB : tbAPI T} {ML : msgLogger L} {BI : Interface B}.

Implicit Types (l : TelegramListener) (w : World (T := T) (L := L) (B := B)).

Lemma Send_run c w res err t :
  tb_Send c (TbAPI w) = ((res, err), t) ->
  Send c w = Returns ((res, err), after_Send c t w).
Proof. intros H. unfold Send. now rewrite H. Qed.

(** [saveBotMessage] saves the transformed message for the target chat and
    does nothing for another chat. *)
Lemma saveBotMessage_run l (res : tbapi.Message) (fromChat : Z) w :
  exists m,
    transform res = Returns m /\
    saveBotMessage l res fromChat w
    = Returns (tt, if fromChat =? chatID l then after_Save m w else w).
Proof.
  destruct (TransformFacts.transform_total res) as [m Hm].
  exists m. split; [exact Hm |].
  unfold saveBotMessage. destruct (fromChat =? chatID l); cbn; [| reflexivity].
  unfold bindM, lift. now rewrite Hm.
Qed.

(** A delivery that is confirmed: [saveBotMessage], then the nil error. *)
Lemma confirmed_run l (res : tbapi.Message) (chat : Z) w :
  exists m,
    transform res = Returns m /\
    bindM (saveBotMessage l res chat) (fun _ => ret None) w
    = Returns (None : option error,
               if chat =? chatID l then after_Save m w else w).
Proof.
  destruct (saveBotMessage_run l res chat w) as (m & Hm & Hrun).
  exists m. split; [exact Hm |]. unfold bindM. now rewrite Hrun.
Qed.

Lemma sendBotResponse_silent l resp chat w :
  bot.Send resp = false ->
  sendBotResponse l resp chat w = Returns (None, w).
Proof. intros H. unfold sendBotResponse. now rewrite H. Qed.

(** First attempt confirmed. *)
Lemma sendBotResponse_first_ok l resp chat w res t :
  bot.Send resp = true ->
  tb_Send (outbound resp chat) (TbAPI w) = ((res, None), t) ->
  exists m,
    transform res = Returns m /\
    sendBotResponse l resp chat w
    = Returns (None,
               let w1 := after_Send (outbound resp chat) t w in
               if chat =? chatID l then after_Save m w1 else w1).
Proof.
  intros Hsend Hfirst. unfold sendBotResponse. rewrite Hsend. cbn [negb].
  unfold bindM at 1. rewrite (Send_run _ _ _ _ _ Hfirst).
  apply confirmed_run.
Qed.

(** First attempt failed and the fallback does not apply. *)
Lemma sendBotResponse_first_fails l resp chat w res e t :
  bot.Send resp = true ->
  tb_Send (outbound resp chat) (TbAPI w) = ((res, Some e), t) ->
  bool_decide (tbapi.Config_ParseMode (outbound resp chat) = tbapi.ModeMarkdown)
  && Contains e cant_parse_entities = false ->
  sendBotResponse l resp chat w
  = Returns (Some (CantSendMessage (Response_Text resp) e),
             after_Send (outbound resp chat) t w).
Proof.
  intros Hsend Hfirst Hcond. unfold sendBotResponse. rewrite Hsend. cbn [negb].
  unfold bindM at 1. rewrite (Send_run _ _ _ _ _ Hfirst).
  cbv beta iota zeta. rewrite Hcond. reflexivity.
Qed.

(** First attempt failed and the fallback applies: a second attempt as
    plain text decides. *)
Lemma sendBotResponse_retry l resp chat w res e t res2 err2 t2 :
  bot.Send resp = true ->
  tb_Send (outbound resp chat) (TbAPI w) = ((res, Some e), t) ->
  bool_decide (tbapi.Config_ParseMode (outbound resp chat) = tbapi.ModeMarkdown)
  && Contains e cant_parse_entities = true ->
  tb_Send (set_ParseMode "" (outbound resp chat)) t = ((res2, err2), t2) ->
  let w2 := after_Send (set_ParseMode "" (outbound resp chat)) t2
                       (after_Send (outbound resp chat) t w) in
  match err2 with
  | Some e2 =>
      sendBotResponse l resp chat w
      = Returns (Some (CantSendMessage (Response_Text resp) e2), w2)
  | None =>
      exists m,
        transform res2 = Returns m /\
        sendBotResponse l resp chat w
        = Returns (None, if chat =? chatID l then after_Save m w2 else w2)
  end.
Proof.
  intros Hsend Hfirst Hcond Hsecond w2.
  assert (sendBotResponse l resp chat w
          = match err2 with
            | Some e2 =>
                ret (Some (CantSendMessage (Response_Text resp) e2)) w2
            | None =>
                bindM (saveBotMessage l res2 chat) (fun _ => ret None) w2
            end) as ->.
  { unfold sendBotResponse. rewrite Hsend. cbn [negb].
    unfold bindM at 1. rewrite (Send_run _ _ _ _ _ Hfirst).
    cbv beta iota zeta. rewrite Hcond.
    unfold bindM at 1.
    rewrite (Send_run _ (after_Send (outbound resp chat) t w) res2 err2 t2)
      by exact Hsecond.
    now destruct err2. }
  destruct err2 as [e2 |]; [reflexivity |].
  apply confirmed_run.
Qed.

(** What a delivery leaves behind, whatever the transport answers: it
    returns, the responders are not called, and what is saved, if anything,
    is one message that [transform] produced. *)
Lemma sendBotResponse_effects l resp chat w :
  exists r w' new,
    sendBotResponse l resp chat w = Returns (r, w') /\
    saves (calls w') = saves (calls w) ++ new /\
    dispatches (calls w') = dispatches (calls w) /\
    Bots w' = Bots w /\
    (length new <= 1)%nat /\
    Forall (fun m => exists res, transform res = Returns m) new.
Proof.
  assert (forall c t m w0,
             let w1 := after_Send c t w0 in
             forall w',
               w' = (if chat =? chatID l then after_Save m w1 else w1) ->
               (exists res, transform res = Returns m) ->
               exists new,
                 saves (calls w') = saves (calls w0) ++ new /\
                 dispatches (calls w') = dispatches (calls w0) /\
                 Bots w' = Bots w0 /\
                 (length new <= 1)%nat /\
                 Forall (fun m => exists res, transform res = Returns m) new)
    as Hsaved.
  { intros c t m w0 w1 w' -> Hm. subst w1.
    destruct (chat =? chatID l); cbn [calls after_Save after_Send Bots].
    - exists [m]. rewrite !saves_app, !dispatches_app. cbn.
      rewrite !app_nil_r. repeat split; auto.
    - exists []. rewrite !saves_app, !dispatches_app. cbn.
      rewrite !app_nil_r. repeat split; auto. }
  assert (forall c t w0,
             exists new,
               saves (calls (after_Send c t w0)) = saves (calls w0) ++ new /\
               dispatches (calls (after_Send c t w0)) = dispatches (calls w0) /\
               Bots (after_Send c t w0) = Bots w0 /\
               (length new <= 1)%nat /\
               Forall (fun m => exists res, transform res = Returns m) new)
    as Hfailed.
  { intros c t w0. exists []. cbn [calls after_Send Bots].
    rewrite !saves_app, !dispatches_app. cbn. rewrite !app_nil_r.
    repeat split; auto. }
  destruct (bot.Send resp) eqn:Hsend.
  - destruct (tb_Send (outbound resp chat) (TbAPI w)) as [[res [e |]] t] eqn:H1.
    + destruct (bool_decide (tbapi.Config_ParseMode (outbound resp chat)
                             = tbapi.ModeMarkdown)
                && Contains e cant_parse_entities) eqn:Hcond.
      * destruct (tb_Send (set_ParseMode "" (outbound resp chat)) t)
          as [[res2 err2] t2] eqn:H2.
        pose proof (sendBotResponse_retry l resp chat w _ _ _ _ _ _
                      Hsend H1 Hcond H2) as Hrun.
        cbv zeta in Hrun. destruct err2 as [e2 |].
        -- rewrite Hrun.
           destruct (Hfailed (set_ParseMode "" (outbound resp chat)) t2
                             (after_Send (outbound resp chat) t w))
             as (new & Hs & Hd & Hb & Hlen & Hall).
           destruct (Hfailed (outbound resp chat) t w)
             as (new0 & Hs0 & Hd0 & Hb0 & _ & _).
           do 2 eexists. exists new. split; [reflexivity |].
           cbn [calls after_Send] in *.
           rewrite !saves_app, !dispatches_app in *. cbn in *.
           rewrite !app_nil_r in *. repeat split; auto.
        -- destruct Hrun as (m & Hm & ->).
           destruct (Hsaved (set_ParseMode "" (outbound resp chat)) t2 m
                            (after_Send (outbound resp chat) t w) _ eq_refl)
             as (new & Hs & Hd & Hb & Hlen & Hall); [eauto |].
           do 2 eexists. exists new. split; [reflexivity |].
           rewrite Hs, Hd, Hb. cbn [calls after_Send Bots].
           rewrite !saves_app, !dispatches_app. cbn.
           rewrite !app_nil_r. repeat split; auto.
      * rewrite (sendBotResponse_first_fails l resp chat w _ _ _ Hsend H1 Hcond).
        destruct (Hfailed (outbound resp chat) t w) as (new & H).
        do 2 eexists. exists new. split; [reflexivity | exact H].
    + destruct (sendBotResponse_first_ok l resp chat w _ _ Hsend H1)
        as (m & Hm & ->).
      destruct (Hsaved (outbound resp chat) t m w _ eq_refl) as (new & H);
        [eauto |].
      do 2 eexists. exists new. split; [reflexivity | exact H].
  - rewrite (sendBotResponse_silent l resp chat w Hsend).
    do 2 eexists. exists []. split; [reflexivity |].
    rewrite !app_nil_r. repeat split; auto.
Qed.

(** On the idle timer the responders get [idleMessage] and their answer is
    delivered to the target chat; [Save] is not called on [idleMessage]. *)
Lemma iteration_idle l w :
  exists w' new,
    iteration l IdleFired w = Returns (None, w') /\
    dispatches (calls w') = dispatches (calls w) ++ [idleMessage] /\
    saves (calls w') = saves (calls w) ++ new /\
    (length new <= 1)%nat /\
    Forall (fun m => exists res, transform res = Returns m) new.
Proof.
  unfold iteration. unfold bindM at 1. unfold OnMessage.
  destruct (bots_OnMessage idleMessage (Bots w)) as [resp b].
  set (w0 := mkWorld (TbAPI w) (MsgLogger w) b
                     (calls w ++ [CallOnMessage idleMessage])).
  destruct (sendBotResponse_effects l resp (chatID l) w0)
    as (r & w' & new & Hrun & Hs & Hd & _ & Hlen & Hall).
  exists w', new. unfold bindM. rewrite Hrun. cbn [ret].
  split; [reflexivity |].
  rewrite Hs, Hd. subst w0. cbn [calls].
  rewrite saves_app, dispatches_app. cbn. rewrite app_nil_r.
  repeat split; auto.
Qed.

(** No transformed message is [idleMessage]: its time is the zero time. *)
Lemma transformed_not_idle (new : list bot.Message) :
  Forall (fun m => exists res, transform res = Returns m) new ->
  idleMessage ∉ new.
Proof.
  intros Hall Hin.
  rewrite Forall_forall in Hall. destruct (Hall _ Hin) as [res Hres].
  apply TransformFacts.transform_Sent in Hres. discriminate.
Qed.

(** A run of rounds in which only the idle timer fires. *)
Lemma loop_idle l (n : nat) w :
  exists w' new,
    loop l (replicate n IdleFired) w = Returns (None, w') /\
    dispatches (calls w') = dispatches (calls w) ++ replicate n idleMessage /\
    saves (calls w') = saves (calls w) ++ new /\
    Forall (fun m => exists res, transform res = Returns m) new.
Proof.
  revert w. induction n as [| n IH]; intros w.
  - exists w, []. cbn. rewrite !app_nil_r. auto.
  - destruct (iteration_idle l w) as (w1 & new1 & Hrun1 & Hd1 & Hs1 & _ & Hall1).
    destruct (IH w1) as (w' & new & Hrun & Hd & Hs & Hall).
    exists w', (new1 ++ new).
    cbn [replicate loop]. unfold bindM at 1. rewrite Hrun1.
    split; [exact Hrun |].
    rewrite Hd, Hd1, Hs, Hs1, <- !app_assoc.
    repeat split; auto. now apply Forall_app.
Qed.

End Collaborators.

End ListenerFacts.

(** ** The claims about delivery *)

Import ListenerFacts.

(** The formatting mode of the first attempt: Markdown unless the response
    names another mode. *)
Lemma outbound_ParseMode (resp : bot.Response) (chat : Z) :
  tbapi.Config_ParseMode (listener.outbound resp chat)
  = if bool_decide (bot.ParseMode resp = ""%string) then tbapi.ModeMarkdown
    else bot.ParseMode resp.
Proof.
  unfold listener.outbound. now destruct (bool_decide (bot.ParseMode resp = _)).
Qed.

(** C1. A response with [Send] set whose first attempt fails with error [e]:
    if the mode used was Markdown and [e] contains the "can't parse
    entities" text, there is exactly one more [Send], of the same message
    with the parse mode emptied, and its error, if any, is what the caller
    gets; otherwise there is no other [Send] and the caller gets [e],
    wrapped. *)
Theorem C1_plain_text_fallback
    {T L B : Type} {TB : tbAPI T} {ML : msgLogger L} {BI : Interface B}
    (l : listener.TelegramListener) (resp : bot.Response) (chat : Z)
    (w : listener.World (T := T) (L := L) (B := B))
    (res : tbapi.Message) (e : collaborator_error) (t : T) :
  bot.Send resp = true ->
  tb_Send (listener.outbound resp chat) (listener.TbAPI w) = ((res, Some e), t) ->
  let tbMsg := listener.outbound resp chat in
  let plain := listener.set_ParseMode "" tbMsg in
  (tbapi.Config_ParseMode tbMsg = tbapi.ModeMarkdown /\
   Contains e listener.cant_parse_entities = true ->
   exists r w',
     listener.sendBotResponse l resp chat w = Returns (r, w') /\
     sends (listener.calls w') = sends (listener.calls w) ++ [tbMsg; plain] /\
     tbapi.Config_ParseMode plain = ""%string /\
     r = CantSendMessage (bot.Response_Text resp) <$> snd (fst (tb_Send plain t)))
  /\ (tbapi.Config_ParseMode tbMsg <> tbapi.ModeMarkdown \/
      Contains e listener.cant_parse_entities = false ->
      exists w',
        listener.sendBotResponse l resp chat w
        = Returns (Some (CantSendMessage (bot.Response_Text resp) e), w') /\
        sends (listener.calls w') = sends (listener.calls w) ++ [tbMsg]).
Proof.
  intros Hsend Hfirst tbMsg plain. split.
  - intros [Hmode Hpattern].
    assert (bool_decide (tbapi.Config_ParseMode tbMsg = tbapi.ModeMarkdown)
            && Contains e listener.cant_parse_entities = true) as Hcond
      by (rewrite bool_decide_eq_true_2 by exact Hmode; exact Hpattern).
    destruct (tb_Send plain t) as [[res2 err2] t2] eqn:Hsecond.
    pose proof (sendBotResponse_retry l resp chat w _ _ _ _ _ _
                  Hsend Hfirst Hcond Hsecond) as Hrun.
    cbv zeta in Hrun. destruct err2 as [e2 |].
    + do 2 eexists. split; [exact Hrun |].
      cbn [listener.calls listener.after_Send]. rewrite !sends_app. cbn.
      rewrite <- app_assoc. auto.
    + destruct Hrun as (m & _ & Hrun). do 2 eexists. split; [exact Hrun |].
      split; [| auto].
      destruct (chat =? listener.chatID l);
        cbn [listener.calls listener.after_Send listener.after_Save]; rewrite !sends_app; cbn;
        rewrite ?app_nil_r, <- app_assoc; reflexivity.
  - intros Hother.
    assert (bool_decide (tbapi.Config_ParseMode tbMsg = tbapi.ModeMarkdown)
            && Contains e listener.cant_parse_entities = false) as Hcond.
    { destruct Hother as [Hmode | Hpattern].
      - now rewrite bool_decide_eq_false_2 by exact Hmode.
      - rewrite Hpattern. apply andb_false_r. }
    eexists. split.
    + apply (sendBotResponse_first_fails l resp chat w _ _ _ Hsend Hfirst Hcond).
    + cbn [listener.calls listener.after_Send]. now rewrite sends_app.
Qed.

Lemma C1_plain_text_fallback_witness :
  let l := mock.running 5 in
  let resp := mock.say "*hi" "" in
  let markdown := tbapi.mkMessageConfig 5 "*hi" "Markdown" 0 in
  let plain := tbapi.mkMessageConfig 5 "*hi" "" 0 in
  let rejected :=
    "Bad Request: can't parse entities: Can't find end of the entity"%string in
  let kicked := "Forbidden: bot was kicked from the supergroup chat"%string in
  (exists r w',
      listener.sendBotResponse l resp 5
        (mock.world [(tbapi.zeroMessage, Some rejected);
                     (mock.sent 1 5 "*hi", None)] resp)
      = Returns (r, w') /\
      sends (listener.calls w') = [markdown; plain] /\ r = None)
  /\ (exists w',
         listener.sendBotResponse l resp 5
           (mock.world [(tbapi.zeroMessage, Some kicked);
                        (mock.sent 1 5 "*hi", None)] resp)
         = Returns (Some (CantSendMessage "*hi" kicked), w') /\
         sends (listener.calls w') = [markdown]).
Proof.
  intros l resp markdown plain rejected kicked. split.
  - destruct (C1_plain_text_fallback (TB := mock.scripted_tbAPI) l resp 5
                (mock.world [(tbapi.zeroMessage, Some rejected);
                             (mock.sent 1 5 "*hi", None)] resp)
                tbapi.zeroMessage rejected [(mock.sent 1 5 "*hi", None)]
                eq_refl eq_refl) as [Hretry _].
    destruct Hretry as (r & w' & Hrun & Hsends & _ & Hr);
      [split; reflexivity |].
    exists r, w'. auto.
  - destruct (C1_plain_text_fallback (TB := mock.scripted_tbAPI) l resp 5
                (mock.world [(tbapi.zeroMessage, Some kicked);
                             (mock.sent 1 5 "*hi", None)] resp)
                tbapi.zeroMessage kicked [(mock.sent 1 5 "*hi", None)]
                eq_refl eq_refl) as [_ Hfail].
    apply Hfail. right. reflexivity.
Defined.

(** C6. A response with [Send] unset: [sendBotResponse] returns the nil
    error and leaves everything as it was, so no call reaches the transport
    or the logger, whatever the other fields are. *)
Theorem C6_unsent_response_no_effect
    {T L B : Type} {TB : tbAPI T} {ML : msgLogger L} {BI : Interface B}
    (l : listener.TelegramListener) (resp : bot.Response) (chat : Z)
    (w : listener.World (T := T) (L := L) (B := B)) :
  bot.Send resp = false ->
  exists w',
    listener.sendBotResponse l resp chat w = Returns (None, w') /\
    w' = w /\
    sends (listener.calls w') = sends (listener.calls w) /\
    saves (listener.calls w') = saves (listener.calls w).
Proof.
  intros Hsend. exists w.
  split; [apply sendBotResponse_silent, Hsend | auto].
Qed.

Lemma C6_unsent_response_no_effect_witness :
  let w := mock.world [(mock.sent 1 5 "pong", None)] (mock.silent "pong") in
  bot.Send (mock.silent "pong") = false /\
  listener.sendBotResponse (mock.running 5) (mock.silent "pong") 5 w
  = Returns (None, w).
Proof.
  intros w. split; [reflexivity |].
  destruct (C6_unsent_response_no_effect (mock.running 5) (mock.silent "pong")
              5 w eq_refl) as (w' & Hrun & -> & _).
  exact Hrun.
Defined.

(** C7. A response with [Send] set whose delivery is confirmed (the nil
    error comes back): the confirmation [res] of the attempt that went
    through, the first or the plain-text one, is transformed and saved when
    the destination is the target chat of the listener, and nothing is saved
    when it is another chat. *)
Theorem C7_saved_iff_target_chat
    {T L B : Type} {TB : tbAPI T} {ML : msgLogger L} {BI : Interface B}
    (l : listener.TelegramListener) (resp : bot.Response) (chat : Z)
    (w w' : listener.World (T := T) (L := L) (B := B)) :
  bot.Send resp = true ->
  listener.sendBotResponse l resp chat w = Returns (None, w') ->
  let tbMsg := listener.outbound resp chat in
  exists res t m,
    (tb_Send tbMsg (listener.TbAPI w) = ((res, None), t)
     \/ exists res0 e t0,
         tb_Send tbMsg (listener.TbAPI w) = ((res0, Some e), t0) /\
         tb_Send (listener.set_ParseMode "" tbMsg) t0 = ((res, None), t)) /\
    events.transform res = Returns m /\
    saves (listener.calls w')
    = saves (listener.calls w)
      ++ (if chat =? listener.chatID l then [m] else []) /\
    listener.MsgLogger w'
    = (if chat =? listener.chatID l
       then logger_Save m (listener.MsgLogger w)
       else listener.MsgLogger w).
Proof.
  intros Hsend Hrun tbMsg. subst tbMsg.
  assert (forall m c t (w0 : listener.World (T := T) (L := L) (B := B)),
             let w1 := listener.after_Send c t w0 in
             saves (listener.calls
                      (if chat =? listener.chatID l then listener.after_Save m w1 else w1))
             = saves (listener.calls w0)
               ++ (if chat =? listener.chatID l then [m] else [])
             /\ listener.MsgLogger
                  (if chat =? listener.chatID l then listener.after_Save m w1 else w1)
                = (if chat =? listener.chatID l
                   then logger_Save m (listener.MsgLogger w0)
                   else listener.MsgLogger w0)) as Hsaved.
  { intros m c t w0 w1. subst w1.
    destruct (chat =? listener.chatID l);
      cbn [listener.calls listener.MsgLogger listener.after_Save listener.after_Send];
      rewrite !saves_app; cbn; rewrite ?app_nil_r; auto. }
  destruct (tb_Send (listener.outbound resp chat) (listener.TbAPI w)) as [[res [e |]] t] eqn:H1.
  - destruct (bool_decide (tbapi.Config_ParseMode (listener.outbound resp chat) = tbapi.ModeMarkdown)
              && Contains e listener.cant_parse_entities) eqn:Hcond.
    + destruct (tb_Send (listener.set_ParseMode "" (listener.outbound resp chat)) t)
        as [[res2 err2] t2] eqn:H2.
      pose proof (sendBotResponse_retry l resp chat w _ _ _ _ _ _
                    Hsend H1 Hcond H2) as Hretry.
      cbv zeta in Hretry. destruct err2 as [e2 |].
      * rewrite Hretry in Hrun. discriminate.
      * destruct Hretry as (m & Hm & Hretry).
        rewrite Hretry in Hrun. injection Hrun as <-.
        exists res2, t2, m. split; [right; eauto |]. split; [exact Hm |].
        destruct (Hsaved m (listener.set_ParseMode "" (listener.outbound resp chat)) t2
                         (listener.after_Send (listener.outbound resp chat) t w)) as [Hs Hl].
        rewrite Hs, Hl. cbn [listener.calls listener.MsgLogger listener.after_Send].
        rewrite saves_app. cbn. rewrite app_nil_r. auto.
    + rewrite (sendBotResponse_first_fails l resp chat w _ _ _ Hsend H1 Hcond)
        in Hrun.
      discriminate.
  - destruct (sendBotResponse_first_ok l resp chat w _ _ Hsend H1)
      as (m & Hm & Hok).
    rewrite Hok in Hrun. injection Hrun as <-.
    exists res, t, m. split; [left; reflexivity |]. split; [exact Hm |].
    apply Hsaved.
Qed.

Lemma C7_saved_iff_target_chat_witness :
  let l := mock.running 5 in
  let resp := mock.say "pong" "" in
  let w := mock.world [(mock.sent 1 5 "pong", None)] resp in
  let w9 := mock.world [(mock.sent 1 9 "pong", None)] resp in
  let pong chat :=
    bot.mkMessage 1 bot.zeroUser bot.zeroSenderChat chat (TimeUnix 1700000000)
                  "pong" None None bot.zeroReply in
  (exists w',
      listener.sendBotResponse l resp 5 w = Returns (None, w') /\
      saves (listener.calls w') = [pong "5_0"%string])
  /\ (exists w',
         listener.sendBotResponse l resp 9 w9 = Returns (None, w') /\
         saves (listener.calls w') = []).
Proof.
  intros l resp w w9 pong. split.
  - assert (exists w', listener.sendBotResponse l resp 5 w = Returns (None, w'))
      as [w' Hrun] by (eexists; vm_compute; reflexivity).
    exists w'. split; [exact Hrun |].
    destruct (C7_saved_iff_target_chat (TB := mock.scripted_tbAPI) l resp 5 w w'
                eq_refl Hrun) as (res & t & m & Hres & Hm & Hs & _).
    rewrite Hs.
    destruct Hres as [[= <- <-] | (res0 & e & t0 & [=] & _)].
    vm_compute in Hm. injection Hm as <-. reflexivity.
  - assert (exists w', listener.sendBotResponse l resp 9 w9 = Returns (None, w'))
      as [w' Hrun] by (eexists; vm_compute; reflexivity).
    exists w'. split; [exact Hrun |].
    destruct (C7_saved_iff_target_chat (TB := mock.scripted_tbAPI) l resp 9 w9 w'
                eq_refl Hrun) as (res & t & m & _ & _ & Hs & _).
    exact Hs.
Defined.

(** C8. When the idle timer fires, in any state of the loop: the message
    handed to the responders has the text "idle" and nothing else (no
    sender, no sender chat, no image, no entities), the round returns, the
    loop goes on, and that message is not among what the round saves; the
    same over any number of rounds in a row in which the timer fires. *)
Theorem C8_idle_message_not_saved
    {T L B : Type} {TB : tbAPI T} {ML : msgLogger L} {BI : Interface B}
    (l : listener.TelegramListener)
    (w : listener.World (T := T) (L := L) (B := B)) :
  (listener.idleMessage
   = bot.mkMessage 0 bot.zeroUser bot.zeroSenderChat "" TimeZero "idle"
                   None None bot.zeroReply)
  /\ (exists w' new,
         listener.iteration l listener.IdleFired w = Returns (None, w') /\
         dispatches (listener.calls w')
         = dispatches (listener.calls w) ++ [listener.idleMessage] /\
         saves (listener.calls w') = saves (listener.calls w) ++ new /\
         listener.idleMessage ∉ new)
  /\ (forall n : nat,
         exists w' new,
           listener.loop l (replicate n listener.IdleFired) w
           = Returns (None, w') /\
           dispatches (listener.calls w')
           = dispatches (listener.calls w) ++ replicate n listener.idleMessage /\
           saves (listener.calls w') = saves (listener.calls w) ++ new /\
           listener.idleMessage ∉ new).
Proof.
  split; [reflexivity |]. split.
  - destruct (iteration_idle l w) as (w' & new & Hrun & Hd & Hs & _ & Hall).
    exists w', new. repeat split; auto.
    apply transformed_not_idle, Hall.
  - intros n.
    destruct (loop_idle l n w) as (w' & new & Hrun & Hd & Hs & Hall).
    exists w', new. repeat split; auto.
    apply transformed_not_idle, Hall.
Qed.

(** The idle round at work: the responders answer "tick", which is sent to
    the target chat and saved; the idle message is dispatched, not saved. *)
Example idle_round :
  let w := mock.world [(mock.sent 3 5 "tick", None)] (mock.say "tick" "") in
  exists w',
    listener.iteration (mock.running 5) listener.IdleFired w = Returns (None, w') /\
    listener.calls w'
    = [CallOnMessage listener.idleMessage;
       CallSend (tbapi.mkMessageConfig 5 "tick" "Markdown" 0);
       CallSave (bot.mkMessage 3 bot.zeroUser bot.zeroSenderChat "5_0"
                               (TimeUnix 1700000000) "tick" None None
                               bot.zeroReply)].
Proof. eexists. split; vm_compute; reflexivity. Qed.

(** ** The one-time initialisation and the idle timer *)

(** When [Do] is the first to reach [msgs.once], an unset idle duration
    becomes 30 seconds. *)
Lemma Do_first_sets_idle_default (l : listener.TelegramListener) :
  listener.msgs_once l = false ->
  listener.IdleDuration l = 0 ->
  listener.idleTimer (listener.once_Do listener.Do_init l) = 30 * Second.
Proof.
  intros Honce Hidle. unfold listener.once_Do, listener.Do_init.
  rewrite Honce. cbn. now rewrite Hidle.
Qed.

(** When a submission was the first, [Do] finds the once done and the idle
    duration stays what it was. *)
Lemma Submit_first_keeps_idle (l : listener.TelegramListener)
    (ready : listener.SubmitReady) (text : string) (pin : bool) :
  listener.msgs_once l = false ->
  listener.idleTimer
    (listener.once_Do listener.Do_init (listener.Submit ready text pin l).2)
  = listener.IdleDuration l.
Proof.
  intros Honce. unfold listener.Submit.
  destruct ready; cbn [snd]; unfold listener.once_Do; rewrite Honce;
    reflexivity.
Qed.

(** C4. An idle duration left at zero: when [Do] runs first the timer of
    the loop is 30 seconds; when [Submit] or [SubmitHTML] ran before [Do],
    the timer of the loop is zero, not 30 seconds. *)
Theorem C4_idle_default_lost_after_submit :
  let l0 := mock.fresh "-1001234" 0 in
  let w := mock.world [] (mock.silent "") in
  let submitted := (listener.Submit listener.SubmitChanReady "news" false l0).2 in
  let submittedHTML :=
    (listener.SubmitHTML (fun s => s) listener.SubmitChanReady "<b>news</b>"
                         false l0).2 in
  (exists l1,
      listener.Do_start l0 w = Returns ((None, l1), w) /\
      listener.idleTimer l1 = 30 * Second)
  /\ (exists l1,
         listener.Do_start submitted w = Returns ((None, l1), w) /\
         listener.idleTimer l1 = 0)
  /\ (exists l1,
         listener.Do_start submittedHTML w = Returns ((None, l1), w) /\
         listener.idleTimer l1 = 0).
Proof.
  cbv zeta. repeat split; eexists; split; vm_compute; reflexivity.
Qed.

(** ** The name of the banned *)

Section BanUsernameFacts.

Variable Sprintf_v_User : bot.User -> string.
Variable Sprintf_v_SenderChat : bot.SenderChat -> string.

Let getBanUsername := events.getBanUsername Sprintf_v_User Sprintf_v_SenderChat.

(** Without a channel the user is formatted, whatever the update. *)
Lemma getBanUsername_user (resp : bot.Response) (update : tbapi.Update) :
  bot.ChannelID resp = 0 ->
  getBanUsername resp update = Returns (Sprintf_v_User (bot.Response_User resp)).
Proof.
  intros H. unfold getBanUsername, events.getBanUsername. now rewrite H.
Qed.

(** With a channel whose handle comes with the message, that handle is used. *)
Lemma getBanUsername_own_handle (resp : bot.Response) (update : tbapi.Update)
    (message : tbapi.Message) (senderChat : tbapi.Chat) :
  bot.ChannelID resp <> 0 ->
  tbapi.Update_Message update = Some message ->
  tbapi.SenderChat message = Some senderChat ->
  tbapi.Chat_UserName senderChat <> ""%string ->
  getBanUsername resp update
  = Returns (Sprintf_v_SenderChat
               (bot.mkSenderChat (bot.ChannelID resp)
                                 (tbapi.Chat_UserName senderChat))).
Proof.
  intros Hch Hmsg Hsender Hname. unfold getBanUsername, events.getBanUsername.
  destruct (Z.eqb_spec (bot.ChannelID resp) 0); [done |].
  rewrite Hmsg. cbn. rewrite Hsender. cbn.
  now rewrite bool_decide_eq_false_2 by exact Hname.
Qed.

(** With a channel and a blank handle (no sender chat, or one without a
    handle), the handle of the replied-to message's sender chat is used, when
    there is a replied-to message. *)
Lemma getBanUsername_reply_handle (resp : bot.Response) (update : tbapi.Update)
    (message replyTo : tbapi.Message) (senderChat : tbapi.Chat) :
  bot.ChannelID resp <> 0 ->
  tbapi.Update_Message update = Some message ->
  default ""%string (tbapi.Chat_UserName <$> tbapi.SenderChat message)
  = ""%string ->
  tbapi.ReplyToMessage message = Some replyTo ->
  tbapi.SenderChat replyTo = Some senderChat ->
  getBanUsername resp update
  = Returns (Sprintf_v_SenderChat
               (bot.mkSenderChat (bot.ChannelID resp)
                                 (tbapi.Chat_UserName senderChat))).
Proof.
  intros Hch Hmsg Hblank Hreply Hrsender.
  unfold getBanUsername, events.getBanUsername.
  destruct (Z.eqb_spec (bot.ChannelID resp) 0); [done |].
  rewrite Hmsg. cbn [events.deref Go.bind].
  destruct (tbapi.SenderChat message) as [own |]; cbn in Hblank |- *;
    rewrite ?Hblank; cbn; rewrite Hreply; cbn; now rewrite Hrsender.
Qed.

(** C5. A response with a channel, for a message that comes without a
    sender-chat handle and replies to nothing: [getBanUsername] does not
    return a string, it dereferences the nil [ReplyToMessage]. *)
Theorem C5_getBanUsername_nil_reply :
  let resp := bot.mkResponse "" true false false 0 "" (600 * Second)
                             bot.zeroUser (-1001999) in
  let message := tbapi.mkMessage 42 0 None None 1700000000
                                 (tbapi.mkChat (-1001234) "supergroup" "")
                                 "spam" None None "" None None in
  getBanUsername resp (tbapi.mkUpdate (Some message)) = Panics NilDereference.
Proof. reflexivity. Qed.

End BanUsernameFacts.

(** * Further properties of the listener *)

Module DeliveryFacts.

Import bot events listener ListenerFacts.

Section Collaborators.

Context {T L B : Type}.
Context {TB : tbAPI T} {ML : msgLogger L} {BI : Interface B}.

Implicit Types (l : TelegramListener) (w : World (T := T) (L := L) (B := B)).

(** The calls of one delivery, in order: no call, or the first [Send], or
    the first [Send] and the plain-text one; then, when the nil error comes
    back and the chat is the target chat, one [Save] of a transformed
    message. The responders are left alone. *)
Lemma sendBotResponse_calls l resp chat w :
  exists r w' ns nv,
    sendBotResponse l resp chat w = Returns (r, w') /\
    calls w' = calls w ++ (CallSend <$> ns) ++ (CallSave <$> nv) /\
    Bots w' = Bots w /\
    (ns = [] /\ bot.Send resp = false
     \/ ns = [outbound resp chat]
     \/ ns = [outbound resp chat; set_ParseMode "" (outbound resp chat)]) /\
    (nv = [] /\ (r <> None \/ chat <> chatID l \/ bot.Send resp = false)
     \/ exists res m,
         transform res = Returns m /\ nv = [m] /\ r = None /\
         chat = chatID l /\
         MsgLogger w' = logger_Save m (MsgLogger w)) /\
    (nv = [] -> MsgLogger w' = MsgLogger w).
Proof.
  assert (forall (m : bot.Message) (res : tbapi.Message)
                 (w0 : World (T := T) (L := L) (B := B)),
             transform res = Returns m ->
             exists nv,
               calls (if chat =? chatID l then after_Save m w0 else w0)
               = calls w0 ++ (CallSave <$> nv) /\
               Bots (if chat =? chatID l then after_Save m w0 else w0)
               = Bots w0 /\
               (nv = [] /\ chat <> chatID l
                /\ MsgLogger (if chat =? chatID l then after_Save m w0 else w0)
                   = MsgLogger w0
                \/ nv = [m] /\ chat = chatID l
                   /\ MsgLogger (if chat =? chatID l
                                 then after_Save m w0 else w0)
                      = logger_Save m (MsgLogger w0))) as Hsaved.
  { intros m res w0 Hm. destruct (Z.eqb_spec chat (chatID l)) as [-> | Hne].
    - exists [m]. cbn. split; [reflexivity |]. split; [reflexivity |].
      right. auto.
    - exists []. cbn. rewrite app_nil_r. split; [reflexivity |].
      split; [reflexivity |]. left. auto. }
  destruct (bot.Send resp) eqn:Hsend.
  - destruct (tb_Send (outbound resp chat) (TbAPI w)) as [[res [e |]] t] eqn:H1.
    + destruct (bool_decide (tbapi.Config_ParseMode (outbound resp chat)
                             = tbapi.ModeMarkdown)
                && Contains e cant_parse_entities) eqn:Hcond.
      * destruct (tb_Send (set_ParseMode "" (outbound resp chat)) t)
          as [[res2 err2] t2] eqn:H2.
        pose proof (sendBotResponse_retry l resp chat w _ _ _ _ _ _
                      Hsend H1 Hcond H2) as Hrun.
        cbv zeta in Hrun. destruct err2 as [e2 |].
        -- do 2 eexists.
           exists [outbound resp chat; set_ParseMode "" (outbound resp chat)], [].
           split; [exact Hrun |]. cbn [calls after_Send Bots MsgLogger].
           split; [cbn; rewrite ?app_nil_r, <- ?app_assoc; reflexivity |].
           split; [reflexivity |]. split; [auto |].
           split; [left; split; [reflexivity | left; discriminate] | auto].
        -- destruct Hrun as (m & Hm & Hrun).
           destruct (Hsaved m res2
                       (after_Send (set_ParseMode "" (outbound resp chat)) t2
                                   (after_Send (outbound resp chat) t w)) Hm)
             as (nv & Hc & Hb & Hnv).
           do 2 eexists.
           exists [outbound resp chat; set_ParseMode "" (outbound resp chat)], nv.
           split; [exact Hrun |]. rewrite Hc, Hb.
           cbn [calls after_Send Bots MsgLogger].
           split; [cbn; rewrite <- ?app_assoc; reflexivity |].
           split; [reflexivity |]. split; [auto |].
           destruct Hnv as [(-> & Hne & Hl) | (-> & Heq & Hl)].
           ++ split; [left; auto | intros _; exact Hl].
           ++ split; [right; exists res2, m; auto | discriminate].
      * rewrite (sendBotResponse_first_fails l resp chat w _ _ _ Hsend H1 Hcond).
        do 2 eexists. exists [outbound resp chat], [].
        split; [reflexivity |]. cbn [calls after_Send Bots MsgLogger].
        split; [cbn; rewrite ?app_nil_r; reflexivity |].
        split; [reflexivity |]. split; [auto |].
        split; [left; split; [reflexivity | left; discriminate] | auto].
    + destruct (sendBotResponse_first_ok l resp chat w _ _ Hsend H1)
        as (m & Hm & Hrun). cbv zeta in Hrun.
      destruct (Hsaved m res (after_Send (outbound resp chat) t w) Hm)
        as (nv & Hc & Hb & Hnv).
      do 2 eexists. exists [outbound resp chat], nv.
      split; [exact Hrun |]. rewrite Hc, Hb.
      cbn [calls after_Send Bots MsgLogger].
      split; [cbn; rewrite <- ?app_assoc; reflexivity |].
      split; [reflexivity |]. split; [auto |].
      destruct Hnv as [(-> & Hne & Hl) | (-> & Heq & Hl)].
      * split; [left; auto | intros _; exact Hl].
      * split; [right; exists res, m; auto | discriminate].
  - rewrite (sendBotResponse_silent l resp chat w Hsend).
    do 2 eexists. exists [], []. split; [reflexivity |].
    cbn. rewrite app_nil_r. repeat split; auto.
Qed.

Lemma sends_of_calls (ns : list tbapi.MessageConfig) (nv : list bot.Message) :
  sends ((CallSend <$> ns) ++ (CallSave <$> nv)) = ns.
Proof.
  rewrite sends_app.
  replace (sends (CallSave <$> nv)) with (@nil tbapi.MessageConfig)
    by (induction nv; [reflexivity | assumption]).
  rewrite app_nil_r. induction ns as [| c ns IH]; [reflexivity |].
  cbn. unfold sends in IH. now rewrite IH.
Qed.

Lemma saves_of_calls (ns : list tbapi.MessageConfig) (nv : list bot.Message) :
  saves ((CallSend <$> ns) ++ (CallSave <$> nv)) = nv.
Proof.
  rewrite saves_app.
  replace (saves (CallSend <$> ns)) with (@nil bot.Message)
    by (induction ns; [reflexivity | assumption]).
  cbn. induction nv as [| c nv IH]; [reflexivity |].
  cbn. unfold saves in IH. now rewrite IH.
Qed.


End Collaborators.

End DeliveryFacts.

Module LoopFacts.

Import bot events listener ListenerFacts DeliveryFacts.

Section Collaborators.

Context {T L B : Type}.
Context {TB : tbAPI T} {ML : msgLogger L} {BI : Interface B}.

Implicit Types (l : TelegramListener) (w : World (T := T) (L := L) (B := B)).

(** An update that passes the filters: the message is transformed, saved
    when it comes from the target chat, handed to the responders, and their
    answer is delivered to the chat the update came from. *)
Lemma iteration_update_accepted l update message w :
  tbapi.Update_Message update = Some message ->
  tbapi.Chat_ID (tbapi.Chat_ message) <> 0 ->
  tbapi.Chat_Type (tbapi.Chat_ message) <> "private"%string ->
  let fromChat := tbapi.Chat_ID (tbapi.Chat_ message) in
  exists msg resp b r w0 w',
    transform message = Returns msg /\
    bots_OnMessage msg (Bots w) = (resp, b) /\
    w0 = mkWorld (TbAPI w)
                 (if fromChat =? chatID l
                  then logger_Save msg (MsgLogger w) else MsgLogger w)
                 b
                 (calls w
                  ++ (if fromChat =? chatID l then [CallSave msg] else [])
                  ++ [CallOnMessage msg]) /\
    sendBotResponse l resp fromChat w0 = Returns (r, w') /\
    iteration l (UpdateRecv (Some update)) w = Returns (None, w').
Proof.
  intros Hmsg Hchat Htype fromChat.
  destruct (TransformFacts.transform_total message) as [msg Htr].
  destruct (bots_OnMessage msg (Bots w)) as [resp b] eqn:Hbots.
  exists msg, resp, b.
  set (w0 := mkWorld (TbAPI w)
                     (if fromChat =? chatID l
                      then logger_Save msg (MsgLogger w) else MsgLogger w)
                     b
                     (calls w
                      ++ (if fromChat =? chatID l then [CallSave msg] else [])
                      ++ [CallOnMessage msg])).
  destruct (sendBotResponse_effects l resp fromChat w0)
    as (r & w' & _ & Hrun & _).
  exists r, w0, w'. split; [exact Htr |]. split; [exact Hbots |].
  split; [reflexivity |]. split; [exact Hrun |].
  unfold iteration. rewrite Hmsg.
  destruct (Z.eqb_spec (tbapi.Chat_ID (tbapi.Chat_ message)) 0); [done |].
  rewrite bool_decide_eq_false_2 by exact Htype.
  unfold bindM at 1, lift. rewrite Htr.
  unfold bindM at 1. fold fromChat.
  assert ((if fromChat =? chatID l then Save msg else ret tt) w
          = Returns (tt, mkWorld (TbAPI w)
                                 (if fromChat =? chatID l
                                  then logger_Save msg (MsgLogger w)
                                  else MsgLogger w)
                                 (Bots w)
                                 (calls w ++ (if fromChat =? chatID l
                                              then [CallSave msg] else []))))
    as ->.
  { destruct (fromChat =? chatID l); cbn; [reflexivity |].
    rewrite app_nil_r. now destruct w. }
  unfold bindM at 1, OnMessage. cbn [Bots]. rewrite Hbots.
  cbn [TbAPI MsgLogger calls]. rewrite <- app_assoc. fold w0.
  unfold bindM. rewrite Hrun. reflexivity.
Qed.

(** A round always returns, and tells the loop to stop in two cases only. *)
Lemma iteration_returns l ready w :
  exists w',
    iteration l ready w
    = Returns (match ready with
               | CtxDone err => Some (CtxErr err)
               | UpdateRecv None => Some UpdateChanClosed
               | _ => None
               end, w').
Proof.
  destruct ready as [err | [update |] | resp |].
  - eexists. reflexivity.
  - destruct (tbapi.Update_Message update) as [message |] eqn:Hmsg.
    + destruct (Z.eq_dec (tbapi.Chat_ID (tbapi.Chat_ message)) 0) as [Hz | Hnz].
      * exists w. unfold iteration. rewrite Hmsg, Hz. reflexivity.
      * destruct (decide (tbapi.Chat_Type (tbapi.Chat_ message)
                          = "private"%string)) as [Hp | Hnp].
        -- exists w. unfold iteration. rewrite Hmsg.
           destruct (_ =? 0); [reflexivity |].
           now rewrite bool_decide_eq_true_2 by exact Hp.
        -- destruct (iteration_update_accepted l update message w Hmsg Hnz Hnp)
             as (msg & resp & b & r & w0 & w' & _ & _ & _ & _ & Hrun).
           eauto.
    + exists w. unfold iteration. now rewrite Hmsg.
  - eexists. reflexivity.
  - destruct (sendBotResponse_effects l resp (chatID l) w)
      as (r & w' & _ & Hrun & _).
    exists w'. unfold iteration, bindM. now rewrite Hrun.
  - destruct (iteration_idle l w) as (w' & _ & Hrun & _). eauto.
Qed.

End Collaborators.

End LoopFacts.

(** ** Start-up *)

Import DeliveryFacts LoopFacts.

(** X1. A group that is not a number and that the transport cannot resolve:
    [Do] returns the wrapped error after the one [GetChat] call, without
    running the one-time initialisation or any round of the loop. *)
Theorem Do_fails_when_chat_unresolved
    {T L B : Type} {TB : tbAPI T} {ML : msgLogger L} {BI : Interface B}
    (l : listener.TelegramListener) (schedule : list listener.Ready)
    (w : listener.World (T := T) (L := L) (B := B))
    (id : Z) (e : collaborator_error) (t : T) :
  listener.ParseInt (listener.Group l) = None ->
  tb_GetChat ("@" ++ listener.Group l)%string (listener.TbAPI w)
  = ((id, Some e), t) ->
  listener.Do l schedule w
  = Returns ((Some (FailedToGetChatID (listener.Group l)
                      (CantGetChat (listener.Group l) e)),
              listener.set_chatID 0 l),
             listener.mkWorld t (listener.MsgLogger w) (listener.Bots w)
               (listener.calls w
                ++ [CallGetChat ("@" ++ listener.Group l)%string])).
Proof.
  intros Hparse Hchat.
  unfold listener.Do, listener.Do_start, listener.getChatID.
  rewrite Hparse. unfold listener.bindM, listener.GetChat.
  now rewrite Hchat.
Qed.

Lemma Do_fails_when_chat_unresolved_witness :
  let l := mock.fresh "radio_t_chat" 0 in
  let w := mock.world [(mock.sent 1 5 "pong", None)] (mock.say "pong" "") in
  exists w',
    listener.Do l [listener.IdleFired; listener.IdleFired] w
    = Returns ((Some (FailedToGetChatID "radio_t_chat"
                        (CantGetChat "radio_t_chat"
                                     "Bad Request: chat not found")),
                l), w') /\
    listener.calls w' = [CallGetChat "@radio_t_chat"].
Proof.
  intros l w. eexists. split.
  - exact (Do_fails_when_chat_unresolved (TB := mock.scripted_tbAPI)
             l [listener.IdleFired; listener.IdleFired] w 0
             "Bad Request: chat not found"
             [(mock.sent 1 5 "pong", None)] eq_refl eq_refl).
  - reflexivity.
Defined.

(** X2. The target chat: a group that reads as a 64-bit decimal number is the
    chat id, with no call to the transport; any other group is looked up
    once, with "@" in front, and the id the transport gives is the chat id.
    Either way the one-time initialisation runs next. *)
Theorem Do_start_resolves_chat
    {T L B : Type} {TB : tbAPI T} {ML : msgLogger L} {BI : Interface B}
    (l : listener.TelegramListener)
    (w : listener.World (T := T) (L := L) (B := B)) :
  (forall id,
      listener.ParseInt (listener.Group l) = Some id ->
      listener.Do_start l w
      = Returns ((None, listener.once_Do listener.Do_init
                          (listener.set_chatID id l)), w))
  /\ (forall id t,
         listener.ParseInt (listener.Group l) = None ->
         tb_GetChat ("@" ++ listener.Group l)%string (listener.TbAPI w)
         = ((id, None), t) ->
         listener.Do_start l w
         = Returns ((None, listener.once_Do listener.Do_init
                             (listener.set_chatID id l)),
                    listener.mkWorld t (listener.MsgLogger w) (listener.Bots w)
                      (listener.calls w
                       ++ [CallGetChat ("@" ++ listener.Group l)%string]))).
Proof.
  split.
  - intros id Hparse. unfold listener.Do_start, listener.getChatID.
    now rewrite Hparse.
  - intros id t Hparse Hchat.
    unfold listener.Do_start, listener.getChatID.
    rewrite Hparse. unfold listener.bindM, listener.GetChat.
    now rewrite Hchat.
Qed.

Lemma Do_start_resolves_chat_witness :
  let w := mock.world [] (mock.silent "") in
  exists l',
    listener.Do_start (mock.fresh "-1001234" (5 * Second)) w
    = Returns ((None, l'), w) /\
    listener.chatID l' = -1001234 /\
    listener.IdleDuration l' = 5 * Second /\
    listener.msgs_ch l' = Some 100.
Proof.
  intros w. eexists. split.
  - exact (proj1 (Do_start_resolves_chat (TB := mock.scripted_tbAPI)
                    (mock.fresh "-1001234" (5 * Second)) w)
                 (-1001234) eq_refl).
  - repeat split.
Defined.

(** ** The rounds of the loop *)

(** X3. Every round returns, whatever the collaborators do, and only a
    cancelled context or a closed update channel makes [Do] return: a failed
    delivery, whatever its error, lets the loop go on. *)
Theorem round_stops_only_on_cancel_or_close
    {T L B : Type} {TB : tbAPI T} {ML : msgLogger L} {BI : Interface B}
    (l : listener.TelegramListener) (ready : listener.Ready)
    (w : listener.World (T := T) (L := L) (B := B)) :
  exists w',
    listener.iteration l ready w
    = Returns (match ready with
               | listener.CtxDone err => Some (CtxErr err)
               | listener.UpdateRecv None => Some UpdateChanClosed
               | _ => None
               end, w').
Proof. apply iteration_returns. Qed.

(** X4. Once the context is cancelled or the update channel is closed, nothing
    that is ready afterwards is looked at. *)
Theorem loop_runs_nothing_after_stop
    {T L B : Type} {TB : tbAPI T} {ML : msgLogger L} {BI : Interface B}
    (l : listener.TelegramListener)
    (before after : list listener.Ready) (stop : listener.Ready)
    (w : listener.World (T := T) (L := L) (B := B)) :
  (exists err, stop = listener.CtxDone err) \/ stop = listener.UpdateRecv None ->
  listener.loop l (before ++ stop :: after) w
  = listener.loop l (before ++ [stop]) w.
Proof.
  intros Hstop. revert w.
  induction before as [| ready before IH]; intros w.
  - cbn [app listener.loop]. unfold listener.bindM.
    destruct (iteration_returns l stop w) as [w' ->].
    destruct Hstop as [[err ->] | ->]; reflexivity.
  - cbn [app listener.loop]. unfold listener.bindM.
    destruct (listener.iteration l ready w) as [[[err |] w'] | p];
      [reflexivity | apply IH | reflexivity].
Qed.

Lemma loop_runs_nothing_after_stop_witness :
  let l := mock.running 5 in
  let w := mock.world [(mock.sent 3 5 "tick", None)] (mock.say "tick" "") in
  exists w',
    listener.loop l [listener.IdleFired; listener.CtxDone "context canceled";
                     listener.IdleFired; listener.IdleFired] w
    = Returns (Some (CtxErr "context canceled"), w') /\
    dispatches (listener.calls w') = [listener.idleMessage].
Proof.
  intros l w. eexists.
  rewrite (loop_runs_nothing_after_stop (TB := mock.scripted_tbAPI) l
             [listener.IdleFired] [listener.IdleFired; listener.IdleFired]
             (listener.CtxDone "context canceled") w
             (or_introl (ex_intro _ "context canceled"%string eq_refl))).
  split; vm_compute; reflexivity.
Defined.

(** X5. An update without a message, from chat id zero, or from a private chat
    is dropped: no call on any collaborator, and the loop goes on. *)
Theorem dropped_update_leaves_no_trace
    {T L B : Type} {TB : tbAPI T} {ML : msgLogger L} {BI : Interface B}
    (l : listener.TelegramListener) (update : tbapi.Update)
    (w : listener.World (T := T) (L := L) (B := B)) :
  (tbapi.Update_Message update = None
   \/ exists message,
       tbapi.Update_Message update = Some message /\
       (tbapi.Chat_ID (tbapi.Chat_ message) = 0
        \/ tbapi.Chat_Type (tbapi.Chat_ message) = "private"%string)) ->
  listener.iteration l (listener.UpdateRecv (Some update)) w = Returns (None, w).
Proof.
  intros [Hnone | (message & Hmsg & [Hzero | Hprivate])];
    unfold listener.iteration.
  - now rewrite Hnone.
  - now rewrite Hmsg, Hzero.
  - rewrite Hmsg. destruct (_ =? 0); [reflexivity |].
    now rewrite bool_decide_eq_true_2 by exact Hprivate.
Qed.

Lemma dropped_update_leaves_no_trace_witness :
  let l := mock.running 5 in
  let w := mock.world [(mock.sent 3 5 "hi", None)] (mock.say "hi" "") in
  let private :=
    tbapi.mkMessage 7 0 None None 1700000000 (tbapi.mkChat 5 "private" "")
                    "ping" None None "" None None in
  listener.iteration l (listener.UpdateRecv (Some (tbapi.mkUpdate (Some private)))) w
  = Returns (None, w)
  /\ listener.iteration l (listener.UpdateRecv (Some (tbapi.mkUpdate None))) w
     = Returns (None, w).
Proof.
  intros l w private. split.
  - apply (dropped_update_leaves_no_trace (TB := mock.scripted_tbAPI)).
    right. exists private. split; [reflexivity | right; reflexivity].
  - apply (dropped_update_leaves_no_trace (TB := mock.scripted_tbAPI)).
    left. reflexivity.
Defined.

Lemma outbound_ChatID (resp : bot.Response) (chat : Z) :
  tbapi.Config_ChatID (listener.outbound resp chat) = chat.
Proof. unfold listener.outbound. now destruct (bool_decide _). Qed.

Lemma outbound_Text (resp : bot.Response) (chat : Z) :
  tbapi.Config_Text (listener.outbound resp chat) = bot.Response_Text resp.
Proof. unfold listener.outbound. now destruct (bool_decide _). Qed.

Lemma outbound_ReplyTo (resp : bot.Response) (chat : Z) :
  tbapi.ReplyParameters_MessageID (listener.outbound resp chat)
  = bot.Response_ReplyTo resp.
Proof. unfold listener.outbound. now destruct (bool_decide _). Qed.

Ltac outbound_fields :=
  cbn; first [apply outbound_ChatID | apply outbound_Text
             | apply outbound_ReplyTo].



(** ** Delivery *)

(** X7. Whatever the transport answers, a delivery makes at most two [Send]
    calls, each to the chat it was given, with the text and the reply-to id
    of the response. *)
Theorem delivery_sends_are_addressed
    {T L B : Type} {TB : tbAPI T} {ML : msgLogger L} {BI : Interface B}
    (l : listener.TelegramListener) (resp : bot.Response) (chat : Z)
    (w : listener.World (T := T) (L := L) (B := B)) :
  exists r w' ns,
    listener.sendBotResponse l resp chat w = Returns (r, w') /\
    sends (listener.calls w') = sends (listener.calls w) ++ ns /\
    (length ns <= 2)%nat /\
    Forall (fun c =>
              tbapi.Config_ChatID c = chat /\
              tbapi.Config_Text c = bot.Response_Text resp /\
              tbapi.ReplyParameters_MessageID c = bot.Response_ReplyTo resp)
           ns.
Proof.
  destruct (sendBotResponse_calls l resp chat w)
    as (r & w' & ns & nv & Hrun & Hcalls & _ & Hns & _).
  exists r, w', ns. split; [exact Hrun |].
  split; [rewrite Hcalls, sends_app, sends_of_calls; reflexivity |].
  destruct Hns as [[-> _] | [-> | ->]]; (split; [cbn; lia |]);
    repeat constructor; outbound_fields.
Qed.

(** X8. A delivery that ends in an error saves nothing: the logger is not
    called. *)
Theorem failed_delivery_saves_nothing
    {T L B : Type} {TB : tbAPI T} {ML : msgLogger L} {BI : Interface B}
    (l : listener.TelegramListener) (resp : bot.Response) (chat : Z)
    (w w' : listener.World (T := T) (L := L) (B := B)) (err : error) :
  listener.sendBotResponse l resp chat w = Returns (Some err, w') ->
  saves (listener.calls w') = saves (listener.calls w) /\
  listener.MsgLogger w' = listener.MsgLogger w.
Proof.
  intros Hrun.
  destruct (sendBotResponse_calls l resp chat w)
    as (r & w'' & ns & nv & Hrun' & Hcalls & _ & _ & Hnv & Hlog).
  rewrite Hrun in Hrun'. injection Hrun' as <- <-.
  destruct Hnv as [[-> _] | (res & m & _ & _ & [=] & _)].
  split; [| auto].
  rewrite Hcalls, saves_app, saves_of_calls. now rewrite app_nil_r.
Qed.

Lemma failed_delivery_saves_nothing_witness :
  let w := mock.world [(tbapi.zeroMessage, Some "Forbidden: bot was kicked"%string)]
                      (mock.say "pong" "") in
  exists w',
    listener.sendBotResponse (mock.running 5) (mock.say "pong" "") 5 w
    = Returns (Some (CantSendMessage "pong" "Forbidden: bot was kicked"), w') /\
    saves (listener.calls w') = [].
Proof.
  intros w.
  assert (exists w',
             listener.sendBotResponse (mock.running 5) (mock.say "pong" "") 5 w
             = Returns (Some (CantSendMessage "pong" "Forbidden: bot was kicked"),
                        w')) as [w' Hrun] by (eexists; vm_compute; reflexivity).
  exists w'. split; [exact Hrun |].
  exact (proj1 (failed_delivery_saves_nothing (TB := mock.scripted_tbAPI)
                  (mock.running 5) (mock.say "pong" "") 5 w w' _ Hrun)).
Defined.

(** X9. Delivery reads the text, the send flag, the reply-to id and the parse
    mode of a response and nothing else: the pin flag, the preview flag and
    the ban directive (interval, user, channel) change nothing. *)
Theorem delivery_ignores_pin_preview_ban
    {T L B : Type} {TB : tbAPI T} {ML : msgLogger L} {BI : Interface B}
    (l : listener.TelegramListener) (resp resp' : bot.Response) (chat : Z)
    (w : listener.World (T := T) (L := L) (B := B)) :
  bot.Response_Text resp = bot.Response_Text resp' ->
  bot.Send resp = bot.Send resp' ->
  bot.Response_ReplyTo resp = bot.Response_ReplyTo resp' ->
  bot.ParseMode resp = bot.ParseMode resp' ->
  listener.sendBotResponse l resp chat w = listener.sendBotResponse l resp' chat w.
Proof.
  intros Htext Hsend Hreply Hmode.
  unfold listener.sendBotResponse, listener.outbound.
  now rewrite Htext, Hsend, Hreply, Hmode.
Qed.

Lemma delivery_ignores_pin_preview_ban_witness :
  let w := mock.world [(mock.sent 1 5 "bye", None)] (mock.silent "") in
  listener.sendBotResponse (mock.running 5)
    (bot.mkResponse "bye" true true true 0 "" (3600 * Second)
                    (bot.mkUser 77 "spammer" "Spam Mer") (-1001999)) 5 w
  = listener.sendBotResponse (mock.running 5) (mock.say "bye" "") 5 w.
Proof.
  intros w.
  apply (delivery_ignores_pin_preview_ban (TB := mock.scripted_tbAPI));
    reflexivity.
Defined.

(** ** Submissions *)


(** X11. What [SubmitHTML] puts on the channel is sent in HTML mode and, when
    the transport rejects it, whatever the reason, is not sent again: the
    plain-text fallback is for Markdown only. *)
Theorem html_submission_is_not_retried
    {T L B : Type} {TB : tbAPI T} {ML : msgLogger L} {BI : Interface B}
    (TelegramSupportedHTML : string -> string)
    (text : string) (pin : bool) (l0 l : listener.TelegramListener)
    (resp : bot.Response) (chat : Z)
    (w : listener.World (T := T) (L := L) (B := B))
    (res : tbapi.Message) (e : collaborator_error) (t : T) :
  (listener.SubmitHTML TelegramSupportedHTML listener.SubmitChanReady
                       text pin l0).1.2 = Some resp ->
  let html := tbapi.mkMessageConfig chat (TelegramSupportedHTML text) "HTML" 0 in
  tb_Send html (listener.TbAPI w) = ((res, Some e), t) ->
  exists w',
    listener.sendBotResponse l resp chat w
    = Returns (Some (CantSendMessage (TelegramSupportedHTML text) e), w') /\
    sends (listener.calls w') = sends (listener.calls w) ++ [html].
Proof.
  intros Hresp html Hfirst. cbn in Hresp. injection Hresp as <-.
  exists (listener.after_Send html t w). split.
  - exact (sendBotResponse_first_fails l
             (bot.mkResponse (TelegramSupportedHTML text) true pin false 0
                             tbapi.ModeHTML 0 bot.zeroUser 0)
             chat w res e t eq_refl Hfirst eq_refl).
  - cbn [listener.calls listener.after_Send]. now rewrite sends_app.
Qed.

Lemma html_submission_is_not_retried_witness :
  let rejected :=
    "Bad Request: can't parse entities: Unsupported start tag"%string in
  let w := mock.world [(tbapi.zeroMessage, Some rejected);
                       (mock.sent 1 5 "<i>news", None)] (mock.silent "") in
  exists resp w',
    (listener.SubmitHTML (fun s => s) listener.SubmitChanReady "<i>news" true
                         (mock.fresh "5" 0)).1.2 = Some resp /\
    listener.sendBotResponse (mock.running 5) resp 5 w
    = Returns (Some (CantSendMessage "<i>news" rejected), w') /\
    sends (listener.calls w') = [tbapi.mkMessageConfig 5 "<i>news" "HTML" 0].
Proof.
  intros rejected w.
  destruct (html_submission_is_not_retried (TB := mock.scripted_tbAPI)
              (fun s => s) "<i>news" true (mock.fresh "5" 0) (mock.running 5)
              _ 5 w tbapi.zeroMessage rejected [(mock.sent 1 5 "<i>news", None)]
              eq_refl eq_refl) as (w' & Hrun & Hsends).
  eexists. exists w'. split; [reflexivity |]. split; [exact Hrun | exact Hsends].
Defined.

(** What [Submit] puts on the channel is sent as Markdown, and when the
    transport cannot parse its entities it is sent once more as plain text. *)
Theorem plain_submission_falls_back
    {T L B : Type} {TB : tbAPI T} {ML : msgLogger L} {BI : Interface B}
    (text : string) (pin : bool) (l0 l : listener.TelegramListener)
    (resp : bot.Response) (chat : Z)
    (w : listener.World (T := T) (L := L) (B := B))
    (res : tbapi.Message) (e : collaborator_error) (t : T) :
  (listener.Submit listener.SubmitChanReady text pin l0).1.2 = Some resp ->
  let markdown := tbapi.mkMessageConfig chat text "Markdown" 0 in
  let plain := tbapi.mkMessageConfig chat text "" 0 in
  tb_Send markdown (listener.TbAPI w) = ((res, Some e), t) ->
  Contains e listener.cant_parse_entities = true ->
  exists r w',
    listener.sendBotResponse l resp chat w = Returns (r, w') /\
    sends (listener.calls w') = sends (listener.calls w) ++ [markdown; plain].
Proof.
  intros Hresp markdown plain Hfirst Hpattern. cbn in Hresp.
  injection Hresp as <-.
  destruct (sendBotResponse_calls l
              (bot.mkResponse text true pin true 0 "" 0 bot.zeroUser 0) chat w)
    as (r & w' & ns & nv & Hrun & Hcalls & _ & _).
  exists r, w'. split; [exact Hrun |].
  destruct (tb_Send plain t) as [[res2 err2] t2] eqn:Hsecond.
  pose proof (sendBotResponse_retry l
                (bot.mkResponse text true pin true 0 "" 0 bot.zeroUser 0)
                chat w res e t res2 err2 t2 eq_refl Hfirst) as Hretry.
  cbv zeta in Hretry.
  specialize (Hretry ltac:(cbn; exact Hpattern) Hsecond).
  destruct err2 as [e2 |].
  - rewrite Hretry in Hrun. injection Hrun as <- <-.
    cbn [listener.calls listener.after_Send]. rewrite !sends_app. cbn.
    now rewrite <- app_assoc.
  - destruct Hretry as (m & _ & Hretry).
    rewrite Hretry in Hrun. injection Hrun as <- <-.
    destruct (chat =? listener.chatID l);
      cbn [listener.calls listener.after_Send listener.after_Save];
      rewrite !sends_app; cbn; rewrite ?app_nil_r, <- app_assoc; reflexivity.
Qed.

Lemma plain_submission_falls_back_witness :
  let rejected :=
    "Bad Request: can't parse entities: Can't find end of the entity"%string in
  let w := mock.world [(tbapi.zeroMessage, Some rejected);
                       (mock.sent 1 5 "_news", None)] (mock.silent "") in
  exists resp r w',
    (listener.Submit listener.SubmitChanReady "_news" false
                     (mock.fresh "5" 0)).1.2 = Some resp /\
    listener.sendBotResponse (mock.running 5) resp 5 w = Returns (r, w') /\
    sends (listener.calls w')
    = [tbapi.mkMessageConfig 5 "_news" "Markdown" 0;
       tbapi.mkMessageConfig 5 "_news" "" 0].
Proof.
  intros rejected w.
  destruct (plain_submission_falls_back (TB := mock.scripted_tbAPI)
              "_news" false (mock.fresh "5" 0) (mock.running 5)
              _ 5 w tbapi.zeroMessage rejected [(mock.sent 1 5 "_news", None)]
              eq_refl eq_refl eq_refl) as (r & w' & Hrun & Hsends).
  eexists. exists r, w'. split; [reflexivity |]. split; [exact Hrun | exact Hsends].
Defined.

(** X12. The first call through [msgs.once] creates the channel with room for
    100 responses; every later call through it, whatever it would do, leaves
    the listener as it is. *)
Theorem once_runs_first_initialiser_only
    (l : listener.TelegramListener)
    (later : listener.TelegramListener -> listener.TelegramListener) :
  listener.msgs_once l = false ->
  (listener.msgs_ch (listener.once_Do listener.Do_init l) = Some 100 /\
   listener.msgs_ch (listener.once_Do listener.Submit_init l) = Some 100) /\
  listener.once_Do later (listener.once_Do listener.Do_init l)
  = listener.once_Do listener.Do_init l /\
  listener.once_Do later (listener.once_Do listener.Submit_init l)
  = listener.once_Do listener.Submit_init l.
Proof.
  intros Honce. unfold listener.once_Do. rewrite Honce. cbn.
  split; [| split; reflexivity].
  unfold listener.Do_init. cbn. now destruct (listener.IdleDuration l =? 0).
Qed.

Lemma once_runs_first_initialiser_only_witness :
  let l := mock.fresh "5" (10 * Second) in
  listener.once_Do (listener.set_IdleDuration 0)
                   (listener.once_Do listener.Submit_init l)
  = listener.mkListener "5" (10 * Second) 0 true (Some 100).
Proof.
  intros l.
  rewrite (proj2 (proj2 (once_runs_first_initialiser_only l
                           (listener.set_IdleDuration 0) eq_refl))).
  reflexivity.
Defined.

(** ** More about the transformer *)

(** X13. What a wire message has is carried over: the id, the text and the time
    always; the sender and the sender chat when present; the chat and thread
    ids, as "chat_thread", when the chat id is not zero. *)
Theorem transform_carries_what_is_present (msg : tbapi.Message) :
  exists m,
    events.transform msg = Returns m /\
    bot.ID m = tbapi.MessageID msg /\
    bot.Text m = tbapi.Text msg /\
    bot.Sent m = TimeUnix (tbapi.Date msg) /\
    (forall from,
        tbapi.From msg = Some from ->
        bot.From m
        = bot.mkUser (tbapi.User_ID from) (tbapi.UserName from)
                     (tbapi.FirstName from ++ " " ++ tbapi.LastName from)%string) /\
    (forall senderChat,
        tbapi.SenderChat msg = Some senderChat ->
        bot.SenderChat_ m
        = bot.mkSenderChat (tbapi.Chat_ID senderChat)
                           (tbapi.Chat_UserName senderChat)) /\
    (tbapi.Chat_ID (tbapi.Chat_ msg) <> 0 ->
     bot.ChatID m
     = (Itoa (tbapi.Chat_ID (tbapi.Chat_ msg)) ++ "_"
        ++ Itoa (tbapi.MessageThreadID msg))%string).
Proof.
  unfold events.transform. rewrite !nonempty_test.
  destruct (elems (tbapi.Entities msg)) as [| e es].
  - destruct (elems (tbapi.Photo msg)) as [| p ps] eqn:Hp.
    + cbn [Go.bind]. eexists. split; [reflexivity |].
      split_optionals msg; cbn; repeat split; intros; simplify_eq; done.
    + destruct (index_last (p :: ps)) as (lastSize & _ & Hindex); [done |].
      unfold len at 1. rewrite Hp, Hindex. cbn [Go.bind].
      eexists. split; [reflexivity |].
      split_optionals msg; cbn; repeat split; intros; simplify_eq; done.
  - cbn [Go.bind]. eexists. split; [reflexivity |].
    split_optionals msg; cbn; repeat split; intros; simplify_eq; done.
Qed.

(** X14. A replied-to message is summed up by its text, its time, its sender and
    its sender chat (zero when absent), whether the message itself carries
    entities, a photo or neither. *)
Theorem transform_sums_up_reply (msg replyTo : tbapi.Message) :
  tbapi.ReplyToMessage msg = Some replyTo ->
  exists m,
    events.transform msg = Returns m /\
    bot.ReplyTo m
    = bot.mkReply
        (match tbapi.From replyTo with
         | Some from => events.transformUser from
         | None => bot.zeroUser
         end)
        (TimeUnix (tbapi.Date replyTo))
        (tbapi.Text replyTo)
        (match tbapi.SenderChat replyTo with
         | Some senderChat => events.transformSenderChat senderChat
         | None => bot.zeroSenderChat
         end).
Proof.
  intros Hreply. unfold events.transform. rewrite !nonempty_test, Hreply.
  destruct (elems (tbapi.Entities msg)) as [| e es].
  - destruct (elems (tbapi.Photo msg)) as [| p ps] eqn:Hp.
    + cbn [Go.bind]. eexists. split; [reflexivity |].
      destruct (tbapi.From replyTo), (tbapi.SenderChat replyTo),
        (tbapi.Chat_ID (tbapi.Chat_ msg) =? 0), (tbapi.From msg),
        (tbapi.SenderChat msg); reflexivity.
    + destruct (index_last (p :: ps)) as (lastSize & _ & Hindex); [done |].
      unfold len at 1. rewrite Hp, Hindex. cbn [Go.bind].
      eexists. split; [reflexivity |].
      destruct (tbapi.From replyTo), (tbapi.SenderChat replyTo),
        (tbapi.Chat_ID (tbapi.Chat_ msg) =? 0), (tbapi.From msg),
        (tbapi.SenderChat msg); reflexivity.
  - cbn [Go.bind]. eexists. split; [reflexivity |].
    destruct (tbapi.From replyTo), (tbapi.SenderChat replyTo),
        (tbapi.Chat_ID (tbapi.Chat_ msg) =? 0), (tbapi.From msg),
        (tbapi.SenderChat msg); reflexivity.
Qed.

Lemma transform_sums_up_reply_witness :
  let asker := tbapi.mkUser 11 "alice" "Alice" "A" in
  let question :=
    tbapi.mkMessage 20 0 (Some asker) None 1700000000
                    (tbapi.mkChat 5 "supergroup" "") "why?"
                    (Some [tbapi.mkMessageEntity "bold" 0 3 "" None])
                    (Some [tbapi.mkPhotoSize "p" 1 1]) "cap" None
                    (Some tbapi.zeroMessage) in
  let answer :=
    tbapi.mkMessage 21 0 None None 1700000060 (tbapi.mkChat 5 "supergroup" "")
                    "because" None (Some [tbapi.mkPhotoSize "q" 2 2]) "" None
                    (Some question) in
  exists m,
    events.transform answer = Returns m /\
    bot.ReplyTo m
    = bot.mkReply (bot.mkUser 11 "alice" "Alice A") (TimeUnix 1700000000)
                  "why?" bot.zeroSenderChat.
Proof.
  intros asker question answer.
  exact (transform_sums_up_reply answer question eq_refl).
Defined.

(** The entities are translated one by one, in place: as many as on the
    wire, each with the type, offset, length and URL of its source and with
    the mentioned user when there is one; no entity at all gives nil. *)
Theorem transformEntities_in_place (entities : slice tbapi.MessageEntity) :
  match events.transformEntities entities with
  | None => elems entities = []
  | Some result =>
      elems entities <> [] /\
      length result = length (elems entities) /\
      forall (i : nat) (entity : tbapi.MessageEntity),
        elems entities !! i = Some entity ->
        result !! i
        = Some (bot.mkEntity (tbapi.Entity_Type entity) (tbapi.Offset entity)
                             (tbapi.Length entity) (tbapi.URL entity)
                             (events.transformUser <$> tbapi.Entity_User entity))
  end.
Proof.
  rewrite transformEntities_spec.
  destruct (elems entities) as [| e es] eqn:He; [reflexivity |].
  split; [discriminate |]. split; [apply length_map |].
  intros i entity Hi.
  change (map events.transformEntity (e :: es))
    with (events.transformEntity <$> (e :: es)).
  rewrite list_lookup_fmap, Hi. cbn. f_equal.
  unfold events.transformEntity. now destruct (tbapi.Entity_User entity).
Qed.

(** ** The conversation key *)

Lemma pretty_N_char_no_underscore (x : N) : pretty_N_char x <> "_"%char.
Proof.
  unfold pretty_N_char.
  destruct x as [| p]; [discriminate |].
  do 4 (try destruct p as [p | p |]); discriminate.
Qed.

Lemma pretty_N_go_no_underscore (x : N) (s : string) :
  no_underscore s -> no_underscore (pretty_N_go x s).
Proof.
  revert s. induction (N.lt_wf_0 x) as [x _ IH]. intros s Hs.
  destruct (decide (x = 0%N)) as [-> | Hx].
  - now rewrite pretty_N_go_0.
  - rewrite pretty_N_go_step by lia. apply IH.
    + apply N.div_lt; lia.
    + split; [apply pretty_N_char_no_underscore | exact Hs].
Qed.

Lemma Itoa_no_underscore (z : Z) : no_underscore (Itoa z).
Proof.
  assert (forall x : N, no_underscore (pretty x)) as HN.
  { intros x. unfold pretty, pretty_N.
    destruct (decide (x = 0%N)).
    - repeat split; discriminate.
    - now apply pretty_N_go_no_underscore. }
  unfold Itoa, pretty, pretty_Z. destruct z as [| p | p].
  - repeat split; discriminate.
  - apply HN.
  - split; [discriminate | apply HN].
Qed.

(** Two strings without underscore, each followed by an underscore and
    more: equal wholes have equal parts. *)
Lemma underscore_splits (s1 s2 t1 t2 : string) :
  no_underscore s1 -> no_underscore s2 ->
  (s1 ++ "_" ++ t1 = s2 ++ "_" ++ t2)%string ->
  s1 = s2 /\ t1 = t2.
Proof.
  revert s2. induction s1 as [| a s1 IH]; intros [| b s2] H1 H2 Heq;
    cbn in H1, H2; unfold String.append in Heq; fold String.append in Heq.
  - injection Heq as ->. auto.
  - injection Heq as <- _. now destruct H2.
  - injection Heq as -> _. now destruct H1.
  - injection Heq as -> Heq. destruct H1 as [_ H1], H2 as [_ H2].
    destruct (IH s2 H1 H2 Heq) as [-> ->]. auto.
Qed.

Lemma transform_ChatID (msg : tbapi.Message) (m : bot.Message) :
  events.transform msg = Returns m ->
  bot.ChatID m
  = if tbapi.Chat_ID (tbapi.Chat_ msg) =? 0 then ""%string
    else (Itoa (tbapi.Chat_ID (tbapi.Chat_ msg)) ++ "_"
          ++ Itoa (tbapi.MessageThreadID msg))%string.
Proof.
  unfold events.transform. rewrite !nonempty_test.
  destruct (elems (tbapi.Entities msg)) as [| e es].
  - destruct (elems (tbapi.Photo msg)) as [| p ps] eqn:Hp.
    + cbn [Go.bind].
      destruct (tbapi.ReplyToMessage msg), (tbapi.Chat_ID (tbapi.Chat_ msg) =? 0),
        (tbapi.From msg), (tbapi.SenderChat msg); intros [= <-]; reflexivity.
    + destruct (index_last (p :: ps)) as (lastSize & _ & Hindex); [done |].
      unfold len at 1. rewrite Hp, Hindex. cbn [Go.bind].
      destruct (tbapi.ReplyToMessage msg), (tbapi.Chat_ID (tbapi.Chat_ msg) =? 0),
        (tbapi.From msg), (tbapi.SenderChat msg); intros [= <-]; reflexivity.
  - cbn [Go.bind].
    destruct (tbapi.ReplyToMessage msg), (tbapi.Chat_ID (tbapi.Chat_ msg) =? 0),
      (tbapi.From msg), (tbapi.SenderChat msg); intros [= <-]; reflexivity.
Qed.

(** X15. The conversation key of a transformed message tells chats and threads
    apart: two messages from chats with a non-zero id get the same key
    exactly when they agree on the chat id and on the thread id, and their
    key is never the empty key of a message without a chat. *)
Theorem conversation_key_is_injective
    (msg1 msg2 : tbapi.Message) (m1 m2 : bot.Message) :
  events.transform msg1 = Returns m1 ->
  events.transform msg2 = Returns m2 ->
  tbapi.Chat_ID (tbapi.Chat_ msg1) <> 0 ->
  tbapi.Chat_ID (tbapi.Chat_ msg2) <> 0 ->
  (bot.ChatID m1 = bot.ChatID m2
   <-> tbapi.Chat_ID (tbapi.Chat_ msg1) = tbapi.Chat_ID (tbapi.Chat_ msg2) /\
       tbapi.MessageThreadID msg1 = tbapi.MessageThreadID msg2)
  /\ bot.ChatID m1 <> ""%string.
Proof.
  intros H1 H2 Hc1 Hc2.
  rewrite (transform_ChatID _ _ H1), (transform_ChatID _ _ H2).
  destruct (Z.eqb_spec (tbapi.Chat_ID (tbapi.Chat_ msg1)) 0); [done |].
  destruct (Z.eqb_spec (tbapi.Chat_ID (tbapi.Chat_ msg2)) 0); [done |].
  split.
  - split.
    + intros Heq.
      apply underscore_splits in Heq as [Hchat Hthread];
        try apply Itoa_no_underscore.
      split; eapply (inj pretty); eassumption.
    + intros [-> ->]. reflexivity.
  - intros Hempty.
    destruct (Itoa (tbapi.Chat_ID (tbapi.Chat_ msg1))); discriminate.
Qed.

Lemma conversation_key_is_injective_witness :
  let post chat thread :=
    tbapi.mkMessage 1 thread None None 1700000000
                    (tbapi.mkChat chat "supergroup" "") "hi" None None ""
                    None None in
  exists m1 m2,
    events.transform (post (-1001234) 1) = Returns m1 /\
    events.transform (post (-1001234) 12) = Returns m2 /\
    bot.ChatID m1 <> bot.ChatID m2.
Proof.
  intros post. do 2 eexists. split; [reflexivity |]. split; [reflexivity |].
  intros Heq.
  destruct (conversation_key_is_injective (post (-1001234) 1)
              (post (-1001234) 12) _ _ eq_refl eq_refl
              ltac:(discriminate) ltac:(discriminate)) as [[Hkey _] _].
  destruct (Hkey Heq) as [_ Hthread]. discriminate.
Defined.

(** ** More about the name of the banned *)

(** X16. Where [getBanUsername] does return: without a channel it formats the
    user of the response and does not read the update; with a channel it
    formats the channel id with the handle of the message's sender chat or,
    when that handle is blank and the message is a reply, with the handle of
    the replied-to message's sender chat (blank again when there is none). *)
Theorem getBanUsername_identity
    (Sprintf_v_User : bot.User -> string)
    (Sprintf_v_SenderChat : bot.SenderChat -> string)
    (resp : bot.Response) (update : tbapi.Update) :
  (bot.ChannelID resp = 0 ->
   events.getBanUsername Sprintf_v_User Sprintf_v_SenderChat resp update
   = Returns (Sprintf_v_User (bot.Response_User resp)))
  /\ (forall message,
         bot.ChannelID resp <> 0 ->
         tbapi.Update_Message update = Some message ->
         let own :=
           default ""%string
                   (tbapi.Chat_UserName <$> tbapi.SenderChat message) in
         let replied :=
           default ""%string
                   (tbapi.Chat_UserName
                      <$> (tbapi.ReplyToMessage message ≫= tbapi.SenderChat)) in
         own <> ""%string \/ is_Some (tbapi.ReplyToMessage message) ->
         events.getBanUsername Sprintf_v_User Sprintf_v_SenderChat resp update
         = Returns (Sprintf_v_SenderChat
                      (bot.mkSenderChat (bot.ChannelID resp)
                         (if bool_decide (own = ""%string)
                          then replied else own)))).
Proof.
  split.
  - intros Hch. unfold events.getBanUsername. now rewrite Hch.
  - intros message Hch Hmsg own replied Hok. subst own replied.
    unfold events.getBanUsername.
    destruct (Z.eqb_spec (bot.ChannelID resp) 0); [done |].
    rewrite Hmsg. cbn [events.deref Go.bind].
    destruct (tbapi.SenderChat message) as [senderChat |]; cbn in Hok |- *.
    + destruct (bool_decide (tbapi.Chat_UserName senderChat = ""%string))
        eqn:Hblank; cbn; [| reflexivity].
      apply bool_decide_eq_true_1 in Hblank.
      destruct Hok as [Hown | [replyTo Hreply]]; [done |].
      rewrite Hreply. cbn.
      destruct (tbapi.SenderChat replyTo); cbn; [reflexivity |].
      now rewrite Hblank.
    + destruct Hok as [Hown | [replyTo Hreply]]; [done |].
      rewrite Hreply. cbn.
      now destruct (tbapi.SenderChat replyTo).
Qed.

Lemma getBanUsername_identity_witness :
  let show (c : bot.SenderChat) := bot.SenderChat_UserName c in
  let ban := bot.mkResponse "" true false false 0 "" (600 * Second)
                            bot.zeroUser (-1001999) in
  let channel handle := Some (tbapi.mkChat (-1001999) "channel" handle) in
  let spam :=
    tbapi.mkMessage 41 0 None (channel "") 1700000000
                    (tbapi.mkChat (-1001234) "supergroup" "") "spam"
                    None None "" None None in
  let verdict :=
    tbapi.mkMessage 42 0 None None 1700000060
                    (tbapi.mkChat (-1001234) "supergroup" "") "ban!"
                    None None "" None
                    (Some (tbapi.mkMessage 41 0 None (channel "spam_channel")
                             1700000000 (tbapi.mkChat (-1001234) "supergroup" "")
                             "spam" None None "" None None)) in
  events.getBanUsername bot.User_Username show ban
                        (tbapi.mkUpdate (Some verdict))
  = Returns "spam_channel"%string.
Proof.
  intros show ban channel spam verdict.
  exact (proj2 (getBanUsername_identity bot.User_Username show ban
                  (tbapi.mkUpdate (Some verdict)))
               verdict ltac:(discriminate) eq_refl
               (or_intror (ex_intro _ _ eq_refl))).
Defined.

(** * Further properties of the histories *)

Lemma wrap_int_succ (n : Z) : 0 <= n -> n + 1 < 2 ^ 63 -> wrap_int (n + 1) = n + 1.
Proof.
  intros H0 H1. unfold wrap_int.
  rewrite Z.mod_small by lia. lia.
Qed.

Lemma last_snoc_capped {A : Type} (limit : Z) (l : list A) (x : A) :
  1 <= limit ->
  last (if Z.of_nat (length (l ++ [x])) >? limit
        then drop 1 (l ++ [x]) else l ++ [x]) = Some x.
Proof.
  intros Hlimit. destruct (Z.gtb_spec (Z.of_nat (length (l ++ [x]))) limit) as [Hgt | _].
  - rewrite length_app in Hgt. cbn in Hgt.
    destruct l as [| a l]; [cbn in Hgt; lia |].
    cbn [app drop]. apply last_snoc.
  - apply last_snoc.
Qed.

(** X17. The newest message is kept, at the end, as soon as the limit is at
    least one: in the global history, and in the history of its chat, which
    is then not nil. *)
Theorem Add_keeps_the_newest (m : bot.Message) :
  (forall h,
      1 <= LegacyHistory.limit h ->
      last (LegacyHistory.messages (LegacyHistory.Add m h)) = Some m)
  /\ (forall h,
         1 <= ChatHistories.limit h ->
         exists h' kept,
           ChatHistories.Add m h = Returns h' /\
           ChatHistories.GetMessagesByChatID (bot.ChatID m) h' = Some kept /\
           last kept = Some m).
Proof.
  split.
  - intros h Hlimit. cbn [LegacyHistory.Add LegacyHistory.messages].
    now apply last_snoc_capped.
  - intros h Hlimit. unfold ChatHistories.Add.
    assert (exists ch,
               match ChatHistories.chats h !! bot.ChatID m with
               | Some chatHistory => Returns chatHistory
               | None =>
                   messages ←! make_empty (ChatHistories.limit h);
                   Returns {| ChatHistories.count := 0;
                              ChatHistories.messages := messages |}
               end = Returns ch) as [ch ->].
    { destruct (ChatHistories.chats h !! bot.ChatID m); [eauto |].
      unfold make_empty. destruct (Z.ltb_spec (ChatHistories.limit h) 0);
        [lia | cbn; eauto]. }
    cbn [Go.bind]. do 2 eexists. split; [reflexivity |].
    unfold ChatHistories.GetMessagesByChatID. cbn [ChatHistories.chats].
    rewrite lookup_insert_eq. split; [reflexivity |].
    cbn [ChatHistories.messages]. now apply last_snoc_capped.
Qed.

Lemma Add_keeps_the_newest_witness :
  let a := mock.text_message "1_0" "a" in
  let b := mock.text_message "1_0" "b" in
  last (LegacyHistory.messages
          (LegacyHistory.Add b (LegacyHistory.mkHistory 1 1 [a]))) = Some b
  /\ (exists h' kept,
         ChatHistories.Add b
           (ChatHistories.mkHistory 1
              {[ "1_0"%string := ChatHistories.mkChatHistory 1 [a] ]})
         = Returns h' /\
         ChatHistories.GetMessagesByChatID "1_0" h' = Some kept /\
         last kept = Some b).
Proof.
  intros a b. destruct (Add_keeps_the_newest b) as [Hlegacy Hchats].
  split.
  - apply Hlegacy. cbn. lia.
  - apply (Hchats (ChatHistories.mkHistory 1
                     {[ "1_0"%string := ChatHistories.mkChatHistory 1 [a] ]})).
    cbn. lia.
Defined.

(** X18. An insertion into the per-chat history touches the chat of the message
    only: the limit and every other chat, known or not, stay as they were. *)
Theorem Add_leaves_other_chats
    (m : bot.Message) (h h' : ChatHistories.LimitedMessageHistory) :
  ChatHistories.Add m h = Returns h' ->
  ChatHistories.limit h' = ChatHistories.limit h /\
  forall chatID,
    chatID <> bot.ChatID m ->
    ChatHistories.chats h' !! chatID = ChatHistories.chats h !! chatID /\
    ChatHistories.GetMessagesByChatID chatID h'
    = ChatHistories.GetMessagesByChatID chatID h /\
    forall draw,
      ChatHistories.GetRandomMessage draw chatID h'
      = ChatHistories.GetRandomMessage draw chatID h.
Proof.
  unfold ChatHistories.Add. intros Hadd.
  destruct (match ChatHistories.chats h !! bot.ChatID m with
            | Some chatHistory => Returns chatHistory
            | None =>
                messages ←! make_empty (ChatHistories.limit h);
                Returns {| ChatHistories.count := 0;
                           ChatHistories.messages := messages |}
            end) as [ch | p]; [| discriminate].
  cbn in Hadd. injection Hadd as <-. split; [reflexivity |].
  intros chatID Hne.
  unfold ChatHistories.GetMessagesByChatID, ChatHistories.GetRandomMessage.
  cbn [ChatHistories.chats].
  rewrite lookup_insert_ne by congruence. auto.
Qed.

Lemma Add_leaves_other_chats_witness :
  let a := mock.text_message "1_0" "a" in
  let b := mock.text_message "2_0" "b" in
  let h := ChatHistories.mkHistory 1
             {[ "1_0"%string := ChatHistories.mkChatHistory 1 [a] ]} in
  exists h',
    ChatHistories.Add b h = Returns h' /\
    ChatHistories.GetMessagesByChatID "1_0" h' = Some [a].
Proof.
  intros a b h. eexists. split; [reflexivity |].
  destruct (Add_leaves_other_chats b h _ eq_refl) as [_ Hother].
  destruct (Hother "1_0"%string ltac:(discriminate)) as (_ & -> & _).
  reflexivity.
Defined.

(** X19. A negative limit: the global history cannot be made, [make] panics;
    the per-chat history is made, and panics on the first message of any
    chat. *)
Theorem negative_limit_panics (limit : Z) (m : bot.Message) :
  limit < 0 ->
  LegacyHistory.NewLimitedMessageHistory limit = Panics MakeSliceCapOutOfRange /\
  ChatHistories.Add m (ChatHistories.NewLimitedMessageHistory limit)
  = Panics MakeSliceCapOutOfRange /\
  forall h,
    ChatHistories.limit h = limit ->
    ChatHistories.chats h !! bot.ChatID m = None ->
    ChatHistories.Add m h = Panics MakeSliceCapOutOfRange.
Proof.
  intros Hneg.
  assert (forall h,
             ChatHistories.limit h = limit ->
             ChatHistories.chats h !! bot.ChatID m = None ->
             ChatHistories.Add m h = Panics MakeSliceCapOutOfRange) as Hadd.
  { intros h Hlimit Hnone. unfold ChatHistories.Add, make_empty.
    rewrite Hnone, Hlimit. destruct (Z.ltb_spec limit 0); [reflexivity | lia]. }
  split.
  - unfold LegacyHistory.NewLimitedMessageHistory, make_empty.
    destruct (Z.ltb_spec limit 0); [reflexivity | lia].
  - split; [apply Hadd; [reflexivity | apply lookup_empty] | exact Hadd].
Qed.

Lemma negative_limit_panics_witness :
  LegacyHistory.NewLimitedMessageHistory (-1) = Panics MakeSliceCapOutOfRange /\
  ChatHistories.Add (mock.text_message "1_0" "a")
                    (ChatHistories.NewLimitedMessageHistory (-1))
  = Panics MakeSliceCapOutOfRange.
Proof.
  destruct (negative_limit_panics (-1) (mock.text_message "1_0" "a")
              ltac:(lia)) as (H1 & H2 & _).
  split; [exact H1 | exact H2].
Defined.

Lemma legacy_AddAll_count (msgs : list bot.Message) (h : LegacyHistory.LimitedMessageHistory) :
  0 <= LegacyHistory.count h ->
  LegacyHistory.count h + Z.of_nat (length msgs) < 2 ^ 63 ->
  LegacyHistory.count (LegacyHistory.AddAll msgs h)
  = LegacyHistory.count h + Z.of_nat (length msgs).
Proof.
  intros H0. induction msgs as [| m msgs IH] using rev_ind; intros Hlt.
  - cbn. lia.
  - rewrite length_app in *. cbn [length] in *.
    rewrite LegacyHistoryFacts.legacy_AddAll_snoc.
    cbn [LegacyHistory.Add LegacyHistory.count].
    rewrite IH by lia. rewrite wrap_int_succ by lia. lia.
Qed.

Lemma AddAll_counts (C : Z) (msgs : list bot.Message) :
  0 <= C ->
  Z.of_nat (length msgs) < 2 ^ 63 ->
  exists h,
    ChatHistories.AddAll msgs (ChatHistories.NewLimitedMessageHistory C)
    = Returns h /\
    ChatHistories.limit h = C /\
    forall chatID,
      ChatHistories.count <$> ChatHistories.chats h !! chatID
      = if decide (ChatHistories.inserted chatID msgs = []) then None
        else Some (Z.of_nat (length (ChatHistories.inserted chatID msgs))).
Proof.
  intros HC. induction msgs as [| m msgs IH] using rev_ind; intros Hlt.
  - eexists. split; [reflexivity |]. split; [reflexivity |].
    intros chatID. cbn. now rewrite lookup_empty.
  - rewrite length_app in Hlt. cbn [length] in Hlt.
    destruct IH as (h & Hrun & Hlim & Hcount); [lia |].
    rewrite AddAll_snoc, Hrun. cbn [Go.bind]. unfold ChatHistories.Add.
    assert (exists ch,
               match ChatHistories.chats h !! bot.ChatID m with
               | Some chatHistory => Returns chatHistory
               | None =>
                   messages ←! make_empty (ChatHistories.limit h);
                   Returns {| ChatHistories.count := 0;
                              ChatHistories.messages := messages |}
               end = Returns ch
               /\ ChatHistories.count ch
                  = Z.of_nat (length (ChatHistories.inserted (bot.ChatID m) msgs)))
      as (ch & -> & Hch).
    { specialize (Hcount (bot.ChatID m)).
      destruct (ChatHistories.chats h !! bot.ChatID m) as [ch |] eqn:E;
        cbn in Hcount.
      - exists ch. split; [reflexivity |].
        destruct (decide (ChatHistories.inserted (bot.ChatID m) msgs = []));
          congruence.
      - destruct (decide (ChatHistories.inserted (bot.ChatID m) msgs = []))
          as [E0 |]; [| discriminate].
        unfold make_empty. rewrite Hlim.
        destruct (Z.ltb_spec C 0); [lia |]. cbn.
        eexists. split; [reflexivity |]. cbn. now rewrite E0. }
    cbn [Go.bind]. eexists. split; [reflexivity |]. split; [exact Hlim |].
    intros chatID. cbn [ChatHistories.chats].
    destruct (decide (bot.ChatID m = chatID)) as [<- | Hne].
    + rewrite lookup_insert_eq.
      cbn [fmap option_fmap option_map ChatHistories.count].
      rewrite inserted_snoc_same.
      rewrite decide_False by (intros E; now apply app_nil in E as [_ ?]).
      f_equal. rewrite Hch, length_app. cbn [length].
      pose proof (length_filter (fun m0 => bot.ChatID m0 = bot.ChatID m) msgs)
        as Hle.
      unfold ChatHistories.inserted in *.
      rewrite wrap_int_succ by lia. lia.
    + rewrite lookup_insert_ne by exact Hne.
      rewrite inserted_snoc_other by exact Hne. apply Hcount.
Qed.

(** X20. The counter of a history counts the insertions, evicted or not: after
    [N] insertions into a new history it is [N] in the global variant and,
    for each chat, the number of messages of that chat in the per-chat
    variant (for fewer than [2^63] insertions, where [int] does not wrap). *)
Theorem count_counts_insertions (C : Z) (msgs : list bot.Message) :
  0 <= C ->
  Z.of_nat (length msgs) < 2 ^ 63 ->
  (exists h0,
      LegacyHistory.NewLimitedMessageHistory C = Returns h0 /\
      LegacyHistory.count (LegacyHistory.AddAll msgs h0)
      = Z.of_nat (length msgs))
  /\ (exists h,
         ChatHistories.AddAll msgs (ChatHistories.NewLimitedMessageHistory C)
         = Returns h /\
         forall chatID,
           ChatHistories.count <$> ChatHistories.chats h !! chatID
           = if decide (ChatHistories.inserted chatID msgs = []) then None
             else Some (Z.of_nat (length (ChatHistories.inserted chatID msgs)))).
Proof.
  intros HC Hlt. split.
  - eexists. split; [apply LegacyHistoryFacts.New_ok, HC |].
    rewrite legacy_AddAll_count; cbn; lia.
  - destruct (AddAll_counts C msgs HC Hlt) as (h & Hrun & _ & Hcount). eauto.
Qed.

Lemma count_counts_insertions_witness :
  let a := mock.text_message "1_0" "a" in
  let b := mock.text_message "2_0" "b" in
  let c := mock.text_message "1_0" "c" in
  LegacyHistory.count
    (LegacyHistory.AddAll [a; b; c] (LegacyHistory.mkHistory 1 0 [])) = 3
  /\ (exists h,
         ChatHistories.AddAll [a; b; c] (ChatHistories.NewLimitedMessageHistory 1)
         = Returns h /\
         ChatHistories.count <$> ChatHistories.chats h !! "1_0"%string = Some 2).
Proof.
  intros a b c.
  destruct (count_counts_insertions 1 [a; b; c] ltac:(lia) ltac:(cbn; lia))
    as ((h0 & Hnew & Hcount) & (h & Hrun & Hchats)).
  split.
  - injection Hnew as <-. exact Hcount.
  - exists h. split; [exact Hrun |]. exact (Hchats "1_0"%string).
Defined.

(** X21. With a limit of zero nothing is ever kept, so a random message is
    always nil; but the per-chat history still tells a chat it has seen (an
    empty, non-nil list of messages) from one it has not (nil). *)
Theorem zero_limit_keeps_nothing (msgs : list bot.Message) (draw : Z) :
  (exists h0,
      LegacyHistory.NewLimitedMessageHistory 0 = Returns h0 /\
      LegacyHistory.messages (LegacyHistory.AddAll msgs h0) = [] /\
      LegacyHistory.GetRandomMessage draw (LegacyHistory.AddAll msgs h0)
      = Returns None)
  /\ (exists h,
         ChatHistories.AddAll msgs (ChatHistories.NewLimitedMessageHistory 0)
         = Returns h /\
         forall chatID,
           ChatHistories.GetRandomMessage draw chatID h = Returns None /\
           ChatHistories.GetMessagesByChatID chatID h
           = if decide (ChatHistories.inserted chatID msgs = []) then None
             else Some []).
Proof.
  split.
  - eexists. split; [apply LegacyHistoryFacts.New_ok; lia |].
    assert (LegacyHistory.messages
              (LegacyHistory.AddAll msgs (LegacyHistory.mkHistory 0 0 [])) = [])
      as Hempty.
    { rewrite (LegacyHistoryFacts.AddAll_messages 0) by (lia || reflexivity).
      cbn. rewrite Nat.sub_0_r. apply drop_all. }
    split; [exact Hempty |].
    now apply LegacyHistoryFacts.GetRandomMessage_empty.
  - destruct (AddAll_chats 0 msgs ltac:(lia)) as (h & Hrun & _ & Hchats).
    exists h. split; [exact Hrun |]. intros chatID.
    specialize (Hchats chatID). cbn in Hchats.
    rewrite Nat.sub_0_r, drop_all in Hchats.
    unfold ChatHistories.GetRandomMessage, ChatHistories.GetMessagesByChatID.
    destruct (ChatHistories.chats h !! chatID) as [ch |]; cbn in Hchats.
    + destruct (decide (ChatHistories.inserted chatID msgs = []));
        [discriminate |].
      injection Hchats as ->. auto.
    + destruct (decide (ChatHistories.inserted chatID msgs = []));
        [auto | discriminate].
Qed.

(** * The ChatGPT responder *)

Module ResponderFacts.

Import bot openai.

Lemma substring_0_length (n : nat) (s : string) :
  (n <= String.length s)%nat -> String.length (String.substring 0 n s) = n.
Proof.
  revert s. induction n as [| n IH]; intros [| c s] Hn; cbn in *;
    try reflexivity; try lia.
  f_equal. apply IH. lia.
Qed.

Lemma substring_0_prefix (n : nat) (s : string) :
  String.prefix (String.substring 0 n s) s = true.
Proof.
  revert s. induction n as [| n IH]; intros [| c s]; cbn; try reflexivity.
  destruct (Ascii.ascii_dec c c); [apply IH | done].
Qed.

Section Responder.

Context {E : Type} {CO : Collaborators E}.

Variable ToLower : string -> string.
Variable TrimSpace : string -> string.
Variable IsSuper : string -> bool.
Variable NewEncoder : option Encoder.
Variable tooManyRequests : Z -> string -> string.

Implicit Types (o : OpenAI) (w : World (E := E)) (msg : bot.Message).

(** One call to the client; its error, or the lack of choices, or the
    content of its first choice. *)
Lemma chatGPTRequestInternal_run o messages w :
  exists resp err e,
    env_CreateChatCompletion (request_for o messages) (env w) = ((resp, err), e) /\
    chatGPTRequestInternal o messages w
    = Returns (match err, Choices resp with
               | Some e', _ => (""%string, Some (ClientError e'))
               | None, [] => (""%string, Some NoChoices)
               | None, choice :: _ => (Content choice, None)
               end,
               mkWorld e (calls w
                          ++ [CallCreateChatCompletion (request_for o messages)])).
Proof.
  unfold chatGPTRequestInternal, bindM, CreateChatCompletion.
  fold (request_for o messages).
  destruct (env_CreateChatCompletion (request_for o messages) (env w))
    as [[resp err] e].
  exists resp, err, e. split; [reflexivity |].
  destruct err as [e' |]; [reflexivity |].
  now destruct (Choices resp).
Qed.

Lemma history_messages_foldl (acc : list ChatCompletionMessage)
    (messages : list bot.Message) :
  foldl (fun acc message =>
           acc ++ [mkChatCompletionMessage ChatMessageRoleUser (Text message)])
        acc messages
  = acc ++ map (fun message =>
                  mkChatCompletionMessage ChatMessageRoleUser (Text message))
               messages.
Proof.
  revert acc. induction messages as [| m messages IH]; intros acc; cbn.
  - now rewrite app_nil_r.
  - rewrite IH. now rewrite <- app_assoc.
Qed.

(** What the branch for a text that is no request leaves behind: the
    parameters and [lastDT] as they were, and a history that is untouched,
    or has the message, or has the message and the answer; a response is
    sent in the last case only. *)
Lemma autoResponse_state o msg w resp o' w' :
  autoResponse o msg w = Returns ((resp, o'), w') ->
  params o' = params o /\ lastDT o' = lastDT o /\
  (history o' = history o /\ resp = noResponse
   \/ history o' = LegacyHistory.Add msg (history o) /\ resp = noResponse
   \/ exists answer,
       history o'
       = LegacyHistory.Add (textMessage answer)
                           (LegacyHistory.Add msg (history o)) /\
       resp = mkResponse answer true false false 0 "" 0 zeroUser 0).
Proof.
  unfold autoResponse, shouldAnswerWithHistory, chatGPTRequestWithHistory,
    chatGPTRequestInternal, bindM, ret, lift, rand, draw, CreateChatCompletion.
  intros H.
  repeat (case_match; simplify_eq; cbn in * );
    split; try reflexivity; split; try reflexivity; eauto.
Qed.

End Responder.

End ResponderFacts.

Import ResponderFacts.

(** ** What [OnMessage] does *)

Section ResponderClaims.

Context {E : Type} {CO : openai.Collaborators E}.

Variable ToLower : string -> string.
Variable TrimSpace : string -> string.
Variable IsSuper : string -> bool.
Variable NewEncoder : option openai.Encoder.
Variable tooManyRequests : Z -> string -> string.

Implicit Types (o : openai.OpenAI) (w : openai.World (E := E)) (msg : bot.Message).

(** X22. A text that is no request, with the automatic answers switched off, or
    the text "idle", or a text under three bytes: the empty response, and
    nothing else happens (no history entry, no random draw, no call to the
    client). *)
Theorem quiet_without_request o msg w :
  openai.request ToLower TrimSpace (bot.Text msg) = Returns (false, ""%string) ->
  openai.EnableAutoResponse (openai.params o) = false
  \/ bot.Text msg = "idle"%string
  \/ (String.length (bot.Text msg) < 3)%nat ->
  openai.OnMessage ToLower TrimSpace IsSuper NewEncoder tooManyRequests o msg w
  = Returns ((openai.noResponse, o), w).
Proof.
  intros Hreq Hquiet. unfold openai.OnMessage, openai.bindM, openai.lift.
  rewrite Hreq. cbn [negb]. unfold openai.autoResponse.
  destruct Hquiet as [-> | [-> | Hshort]]; cbn [negb orb]; [reflexivity | |].
  - rewrite bool_decide_eq_true_2 by reflexivity.
    now rewrite orb_true_r.
  - destruct (Z.ltb_spec (Z.of_nat (String.length (bot.Text msg))) 3); [| lia].
    now rewrite orb_true_r.
Qed.

(** X23. A request from someone who is not a super user, less than a minute
    (on [nowFn]'s clock) after the last answered request: the answer is a
    ban of one hour for the sender, in reply to the message; the client is
    not called, and the responder's state stays as it was. *)
Theorem hasty_request_is_banned o msg w (reqText : string) (now : Z) (e : E) :
  openai.request ToLower TrimSpace (bot.Text msg) = Returns (true, reqText) ->
  IsSuper (bot.User_Username (bot.From msg)) = false ->
  openai.env_nowFn (openai.env w) = (now, e) ->
  openai.Time_Sub now (openai.lastDT o) < openai.Minute ->
  exists banMessage w',
    openai.OnMessage ToLower TrimSpace IsSuper NewEncoder tooManyRequests o msg w
    = Returns ((bot.mkResponse banMessage true false false (bot.ID msg) ""
                               (3600 * Second) (bot.From msg) 0, o), w') /\
    openai.calls w' = openai.calls w ++ [openai.CallNowFn].
Proof.
  intros Hreq Hsuper Hnow Hsoon.
  unfold openai.OnMessage, openai.bindM at 1, openai.lift. rewrite Hreq.
  cbn [negb]. unfold openai.checkRequest. rewrite Hsuper.
  unfold openai.bindM, openai.nowFn, openai.Since, openai.ret. rewrite Hnow.
  cbn [openai.env openai.calls].
  destruct (Z.ltb_spec (openai.Time_Sub now (openai.lastDT o)) (1 * openai.Minute));
    [| lia].
  cbv beta iota. cbn [openai.env openai.calls].
  destruct (openai.env_Now e) as [t1 e1].
  cbv beta iota. cbn [openai.env openai.calls].
  destruct (openai.env_Now e1) as [t2 e2].
  cbv beta iota. cbn [negb openai.env openai.calls].
  do 2 eexists. split; reflexivity.
Qed.



(** X25. A request from a super user is never answered with a ban, whatever
    the time of the last request, does not consult [nowFn] and does not move
    [lastDT]. *)
Theorem super_user_is_never_limited
    o msg w (reqText : string) (resp : bot.Response) o' w' :
  openai.request ToLower TrimSpace (bot.Text msg) = Returns (true, reqText) ->
  IsSuper (bot.User_Username (bot.From msg)) = true ->
  openai.OnMessage ToLower TrimSpace IsSuper NewEncoder tooManyRequests o msg w
  = Returns ((resp, o'), w') ->
  bot.BanInterval resp = 0 /\
  openai.lastDT o' = openai.lastDT o /\
  exists new,
    openai.calls w' = openai.calls w ++ new /\ openai.CallNowFn ∉ new.
Proof.
  intros Hreq Hsuper. unfold openai.OnMessage.
  unfold openai.bindM at 1, openai.lift. rewrite Hreq. clear Hreq. cbn [negb].
  unfold openai.checkRequest, openai.chatGPTRequest, openai.checkResponseAI.
  rewrite Hsuper.
  unfold openai.chatGPTRequestInternal, openai.bindM, openai.ret, openai.lift,
    openai.nowFn, openai.Since, openai.CreateChatCompletion.
  intros H.
  repeat (case_match; simplify_eq; cbn in * );
    (split; [reflexivity |]); (split; [reflexivity |]);
    eexists; (split; [reflexivity |]); intros Hin;
    rewrite ?elem_of_app, ?elem_of_cons, ?elem_of_nil in Hin;
    intuition discriminate.
Qed.

(** One insertion keeps a history within its limit. *)
Lemma legacy_Add_within_limit (m : bot.Message)
    (h : LegacyHistory.LimitedMessageHistory) :
  Z.of_nat (length (LegacyHistory.messages h)) <= LegacyHistory.limit h ->
  Z.of_nat (length (LegacyHistory.messages (LegacyHistory.Add m h)))
  <= LegacyHistory.limit (LegacyHistory.Add m h) /\
  LegacyHistory.limit (LegacyHistory.Add m h) = LegacyHistory.limit h.
Proof.
  intros Hle. cbn [LegacyHistory.Add LegacyHistory.messages LegacyHistory.limit].
  split; [| reflexivity].
  destruct (Z.gtb_spec (Z.of_nat (length (LegacyHistory.messages h ++ [m])))
                       (LegacyHistory.limit h)) as [Hgt | Hfit].
  - rewrite length_drop, length_app. cbn [length]. lia.
  - exact Hfit.
Qed.

Lemma OnMessage_history o msg w resp o' w' :
  openai.OnMessage ToLower TrimSpace IsSuper NewEncoder tooManyRequests o msg w
  = Returns ((resp, o'), w') ->
  openai.params o' = openai.params o /\
  (openai.history o' = openai.history o
   \/ openai.history o' = LegacyHistory.Add msg (openai.history o)
   \/ exists answer,
       openai.history o'
       = LegacyHistory.Add (openai.textMessage answer)
                           (LegacyHistory.Add msg (openai.history o))).
Proof.
  unfold openai.OnMessage. unfold openai.bindM at 1, openai.lift.
  destruct (openai.request ToLower TrimSpace (bot.Text msg))
    as [[[|] reqText] | p]; [| | discriminate]; cbn [negb].
  - unfold openai.checkRequest, openai.chatGPTRequest,
      openai.chatGPTRequestInternal, openai.checkResponseAI, openai.bindM,
      openai.ret, openai.lift, openai.nowFn, openai.Since,
      openai.CreateChatCompletion.
    intros H.
    repeat (case_match; simplify_eq; cbn in * ); split; eauto.
  - intros H.
    apply autoResponse_state in H
        as (Hp & _ & [[-> _] | [[-> _] | (a & -> & _)]]);
      eauto 6.
Qed.

(** X26. The history of the responder stays within its limit: it starts empty
    with [HistorySize] as its limit, and a call of [OnMessage] that finds it
    within the limit leaves it within the same limit, with the parameters
    unchanged. *)
Theorem responder_history_stays_bounded :
  (forall (params : openai.Params) o,
      openai.NewOpenAI params = Returns o ->
      LegacyHistory.messages (openai.history o) = [] /\
      LegacyHistory.limit (openai.history o) = openai.HistorySize params /\
      0 <= openai.HistorySize params)
  /\ (forall o msg w (resp : bot.Response) o' w',
         Z.of_nat (length (LegacyHistory.messages (openai.history o)))
         <= LegacyHistory.limit (openai.history o) ->
         openai.OnMessage ToLower TrimSpace IsSuper NewEncoder tooManyRequests
                          o msg w
         = Returns ((resp, o'), w') ->
         Z.of_nat (length (LegacyHistory.messages (openai.history o')))
         <= LegacyHistory.limit (openai.history o') /\
         LegacyHistory.limit (openai.history o')
         = LegacyHistory.limit (openai.history o) /\
         openai.params o' = openai.params o).
Proof.
  split.
  - intros params o. unfold openai.NewOpenAI,
      LegacyHistory.NewLimitedMessageHistory, make_empty.
    destruct (Z.ltb_spec (openai.HistorySize params) 0); [discriminate |].
    cbn. intros [= <-]. cbn. auto.
  - intros o msg w resp o' w' Hle Hrun.
    destruct (OnMessage_history _ _ _ _ _ _ Hrun)
      as (Hp & [-> | [-> | (answer & ->)]]).
    + auto.
    + destruct (legacy_Add_within_limit msg _ Hle). auto.
    + destruct (legacy_Add_within_limit msg _ Hle) as [Hle1 Hl1].
      destruct (legacy_Add_within_limit (openai.textMessage answer) _ Hle1)
        as [Hle2 Hl2].
      split; [exact Hle2 |]. split; [congruence | exact Hp].
Qed.

(** X27. The request for an automatic answer: one call to the client, with the
    system line first and then the text of every message of the history, in
    the order of the history, each as a user message. The answer is the
    content of the first choice; an error of the client, or no choice at
    all, is an error. *)
Theorem context_request_carries_history o (sysPrompt : string) w :
  let asked :=
    openai.request_for o
      (openai.mkChatCompletionMessage "system" sysPrompt
       :: map (fun m => openai.mkChatCompletionMessage "user" (bot.Text m))
              (LegacyHistory.messages (openai.history o))) in
  exists resp err e,
    openai.env_CreateChatCompletion asked (openai.env w) = ((resp, err), e) /\
    openai.chatGPTRequestWithHistory o sysPrompt w
    = Returns (match err, openai.Choices resp with
               | Some e', _ => (""%string, Some (openai.ClientError e'))
               | None, [] => (""%string, Some openai.NoChoices)
               | None, choice :: _ => (openai.Content choice, None)
               end,
               openai.mkWorld e
                 (openai.calls w ++ [openai.CallCreateChatCompletion asked])).
Proof.
  cbv zeta. unfold openai.chatGPTRequestWithHistory.
  rewrite history_messages_foldl. apply chatGPTRequestInternal_run.
Qed.

Lemma defaultReducer_cuts o (text : string) :
  0 <= openai.MaxSymbolsRequest (openai.params o) ->
  exists r,
    openai.defaultReducer o text = Returns r /\
    String.prefix r text = true /\
    Z.of_nat (String.length r)
    = Z.min (Z.of_nat (String.length text))
            (openai.MaxSymbolsRequest (openai.params o)).
Proof.
  intros Hmax. unfold openai.defaultReducer.
  destruct (Z.leb_spec (Z.of_nat (String.length text))
                       (openai.MaxSymbolsRequest (openai.params o))) as [Hfit | Hcut].
  - exists text. split; [reflexivity |]. split; [| lia].
    clear. induction text as [| c text IH]; [reflexivity |].
    cbn. now destruct (Ascii.ascii_dec c c).
  - unfold openai.string_upto.
    destruct (Z.ltb_spec (openai.MaxSymbolsRequest (openai.params o)) 0); [lia |].
    destruct (Z.ltb_spec (Z.of_nat (String.length text))
                         (openai.MaxSymbolsRequest (openai.params o))); [lia |].
    cbn [orb]. eexists. split; [reflexivity |].
    split; [apply substring_0_prefix |].
    rewrite substring_0_length by lia. lia.
Qed.

(** X28. How a request is reduced. With a working tokenizer the text is kept
    when its tokens are within [MaxTokensRequest] and is otherwise the
    decoding of the first [MaxTokensRequest] tokens. When the tokenizer
    fails, the text is cut to its first [MaxSymbolsRequest] bytes. A
    negative limit that has to cut makes the slice expression panic. *)
Theorem reduceRequest_cuts_to_the_limit o (text : string) :
  (forall encoder tokens,
      NewEncoder = Some encoder ->
      openai.Encode encoder text = Some tokens ->
      (0 <= openai.MaxTokensRequest (openai.params o) ->
       openai.reduceRequest NewEncoder o text
       = Returns (if Z.of_nat (length tokens)
                     <=? openai.MaxTokensRequest (openai.params o)
                  then text
                  else openai.Decode encoder
                         (take (Z.to_nat (openai.MaxTokensRequest
                                            (openai.params o))) tokens))) /\
      (openai.MaxTokensRequest (openai.params o) < 0 ->
       openai.reduceRequest NewEncoder o text = Panics IndexOutOfRange))
  /\ (NewEncoder = None
      \/ (exists encoder,
             NewEncoder = Some encoder /\ openai.Encode encoder text = None) ->
      (0 <= openai.MaxSymbolsRequest (openai.params o) ->
       exists r,
         openai.reduceRequest NewEncoder o text = Returns r /\
         String.prefix r text = true /\
         Z.of_nat (String.length r)
         = Z.min (Z.of_nat (String.length text))
                 (openai.MaxSymbolsRequest (openai.params o))) /\
      (openai.MaxSymbolsRequest (openai.params o) < 0 ->
       openai.reduceRequest NewEncoder o text = Panics IndexOutOfRange)).
Proof.
  split.
  - intros encoder tokens Henc Htok. unfold openai.reduceRequest.
    rewrite Henc, Htok. split; intros Hmax.
    + destruct (Z.leb_spec (Z.of_nat (length tokens))
                           (openai.MaxTokensRequest (openai.params o)));
        [reflexivity |].
      unfold openai.list_upto.
      destruct (Z.ltb_spec (openai.MaxTokensRequest (openai.params o)) 0); [lia |].
      destruct (Z.ltb_spec (Z.of_nat (length tokens))
                           (openai.MaxTokensRequest (openai.params o))); [lia |].
      reflexivity.
    + destruct (Z.leb_spec (Z.of_nat (length tokens))
                           (openai.MaxTokensRequest (openai.params o))); [lia |].
      unfold openai.list_upto.
      destruct (Z.ltb_spec (openai.MaxTokensRequest (openai.params o)) 0);
        [reflexivity | lia].
  - intros Hfail.
    assert (openai.reduceRequest NewEncoder o text = openai.defaultReducer o text)
      as ->.
    { unfold openai.reduceRequest.
      destruct Hfail as [-> | (encoder & -> & ->)]; reflexivity. }
    split; [apply defaultReducer_cuts |].
    intros Hneg. unfold openai.defaultReducer, openai.string_upto.
    destruct (Z.leb_spec (Z.of_nat (String.length text))
                         (openai.MaxSymbolsRequest (openai.params o))); [lia |].
    destruct (Z.ltb_spec (openai.MaxSymbolsRequest (openai.params o)) 0);
      [reflexivity | lia].
Qed.

Lemma reduceRequest_returns o (text : string) :
  0 <= openai.MaxTokensRequest (openai.params o) ->
  0 <= openai.MaxSymbolsRequest (openai.params o) ->
  exists r, openai.reduceRequest NewEncoder o text = Returns r.
Proof.
  intros Htok Hsym. unfold openai.reduceRequest.
  destruct (defaultReducer_cuts o text Hsym) as (r & Hr & _).
  destruct NewEncoder as [encoder |]; [| eauto].
  destruct (openai.Encode encoder text) as [tokens |]; [| eauto].
  destruct (Z.leb_spec (Z.of_nat (length tokens))
                       (openai.MaxTokensRequest (openai.params o))); [eauto |].
  unfold openai.list_upto.
  destruct (Z.ltb_spec (openai.MaxTokensRequest (openai.params o)) 0); [lia |].
  destruct (Z.ltb_spec (Z.of_nat (length tokens))
                       (openai.MaxTokensRequest (openai.params o))); [lia |].
  cbn. eauto.
Qed.

(** Right after an insertion, with a limit of one at least, a random
    message is there. *)
Lemma random_message_after_Add (d : Z) (m : bot.Message)
    (h : LegacyHistory.LimitedMessageHistory) :
  1 <= LegacyHistory.limit h ->
  exists m',
    LegacyHistory.GetRandomMessage d (LegacyHistory.Add m h) = Returns (Some m').
Proof.
  intros Hlimit.
  pose proof (last_snoc_capped (LegacyHistory.limit h)
                (LegacyHistory.messages h) m Hlimit) as Hlast.
  unfold LegacyHistory.GetRandomMessage.
  cbn [LegacyHistory.Add LegacyHistory.messages].
  destruct (if Z.of_nat (length (LegacyHistory.messages h ++ [m]))
               >? LegacyHistory.limit h
            then drop 1 (LegacyHistory.messages h ++ [m])
            else LegacyHistory.messages h ++ [m]) as [| x kept] eqn:Hkept;
    [discriminate |].
  change (Z.of_nat (length (x :: kept)) =? 0) with false. cbv iota.
  destruct (pick_in_range d (x :: kept)) as (m' & Hpick & _); [discriminate |].
  eauto.
Qed.

(** X29. With sound parameters (limits of the request not negative, a history
    limit of one at least) and a text that [request] can slice, [OnMessage]
    returns whatever the collaborators answer: it does not panic. *)
Theorem OnMessage_returns o msg w :
  (exists r, openai.request ToLower TrimSpace (bot.Text msg) = Returns r) ->
  0 <= openai.MaxTokensRequest (openai.params o) ->
  0 <= openai.MaxSymbolsRequest (openai.params o) ->
  1 <= LegacyHistory.limit (openai.history o) ->
  exists r w',
    openai.OnMessage ToLower TrimSpace IsSuper NewEncoder tooManyRequests o msg w
    = Returns (r, w').
Proof.
  intros [[ok reqText] Hreq] Htok Hsym Hlimit.
  destruct (openai.OnMessage ToLower TrimSpace IsSuper NewEncoder
                             tooManyRequests o msg w)
    as [[r w'] | p] eqn:Hrun; [eauto |]. exfalso. revert Hrun.
  unfold openai.OnMessage. unfold openai.bindM at 1, openai.lift.
  rewrite Hreq. clear Hreq. destruct ok; cbn [negb].
  - unfold openai.checkRequest, openai.chatGPTRequest, openai.checkResponseAI.
    unfold openai.chatGPTRequestInternal, openai.bindM, openai.ret, openai.lift,
      openai.nowFn, openai.Since, openai.CreateChatCompletion.
    intros H.
    repeat (case_match; simplify_eq; cbn in * );
      match goal with
      | Hred : openai.reduceRequest _ _ ?text = Panics _ |- _ =>
          destruct (reduceRequest_returns o text Htok Hsym); congruence
      end.
  - unfold openai.autoResponse, openai.shouldAnswerWithHistory,
      openai.chatGPTRequestWithHistory, openai.chatGPTRequestInternal,
      openai.bindM, openai.ret, openai.lift, openai.rand, openai.draw,
      openai.CreateChatCompletion.
    intros H.
    repeat (case_match; simplify_eq; cbn in * );
      match goal with
      | Hrnd : LegacyHistory.GetRandomMessage ?d (LegacyHistory.Add msg _) = _
        |- _ =>
          let m' := fresh "m'" in
          let Hm' := fresh "Hm'" in
          destruct (random_message_after_Add d msg (openai.history o) Hlimit)
            as [m' Hm'];
          rewrite Hm' in Hrnd; simplify_eq; discriminate
      end.
Qed.

(** X30. With a history limit of zero the responder keeps nothing, and an
    automatic answer that is to mention someone dereferences the nil that
    [GetRandomMessage] returns: [OnMessage] panics. *)
Theorem mention_panics_without_history
    o msg w (r1 r2 : Z) (e1 e2 : E) :
  openai.request ToLower TrimSpace (bot.Text msg) = Returns (false, ""%string) ->
  openai.EnableAutoResponse (openai.params o) = true ->
  bot.Text msg <> "idle"%string ->
  (3 <= String.length (bot.Text msg))%nat ->
  Contains (bot.Text msg) "?" = true ->
  LegacyHistory.limit (openai.history o) = 0 ->
  LegacyHistory.messages (openai.history o) = [] ->
  openai.env_rand 100 (openai.env w) = (r1, e1) ->
  r1 < openai.HistoryReplyProbability (openai.params o) ->
  openai.env_rand 100 e1 = (r2, e2) ->
  r2 < 75 ->
  openai.OnMessage ToLower TrimSpace IsSuper NewEncoder tooManyRequests o msg w
  = Panics NilDereference.
Proof.
  intros Hreq Hauto Hidle Hlen Hq Hlimit Hempty Hr1 Hlt1 Hr2 Hlt2.
  unfold openai.OnMessage. unfold openai.bindM at 1, openai.lift.
  rewrite Hreq. cbn [negb]. unfold openai.autoResponse.
  rewrite Hauto, (bool_decide_eq_false_2 _ Hidle). cbn [negb orb].
  destruct (Z.ltb_spec (Z.of_nat (String.length (bot.Text msg))) 3); [lia |].
  unfold openai.shouldAnswerWithHistory. rewrite Hq. cbn [negb].
  rewrite andb_false_r.
  unfold openai.bindM, openai.rand, openai.ret, openai.draw, openai.lift.
  cbn [openai.env openai.calls openai.set_history openai.params openai.history].
  rewrite Hr1. cbv beta iota. cbn [openai.env openai.calls].
  destruct (Z.ltb_spec r1 (openai.HistoryReplyProbability (openai.params o)));
    [| lia].
  cbv beta iota. cbn [openai.env openai.calls].
  rewrite Hr2. cbv beta iota. cbn [openai.env openai.calls andb].
  destruct (Z.ltb_spec r2 75); [| lia].
  cbv beta iota. cbn [openai.env openai.calls].
  destruct (openai.env_draw e2) as [d e3].
  unfold LegacyHistory.GetRandomMessage.
  cbn [LegacyHistory.Add LegacyHistory.messages]. rewrite Hempty, Hlimit.
  reflexivity.
Qed.

End ResponderClaims.

Lemma quiet_without_request_witness :
  let o := openai.mkOpenAI (botmock.params 5) (LegacyHistory.mkHistory 5 0 []) 0 in
  let w := botmock.world
             (botmock.mkScript [botmock.answer "hello"] [1; 2] [] [] []) in
  openai.OnMessage botmock.ToLower botmock.TrimSpace botmock.IsSuper
                   (Some botmock.bytes) botmock.tooManyRequests
                   o (botmock.from "alice" "idle") w
  = Returns ((openai.noResponse, o), w)
  /\ openai.OnMessage botmock.ToLower botmock.TrimSpace botmock.IsSuper
                      (Some botmock.bytes) botmock.tooManyRequests
                      o (botmock.from "alice" "ok") w
     = Returns ((openai.noResponse, o), w).
Proof.
  intros o w. split.
  - apply quiet_without_request; [reflexivity | right; left; reflexivity].
  - apply quiet_without_request; [reflexivity | right; right; cbn; lia].
Defined.

Lemma hasty_request_is_banned_witness :
  let o := openai.mkOpenAI (botmock.params 5) (LegacyHistory.mkHistory 5 0 [])
                           (1000 * Second) in
  let msg := botmock.from "alice" "chat! hi" in
  let w := botmock.world
             (botmock.mkScript [botmock.answer "hello"] [] [1030 * Second]
                               [1031 * Second; 1031 * Second] []) in
  exists banMessage w',
    openai.OnMessage botmock.ToLower botmock.TrimSpace botmock.IsSuper
                     (Some botmock.bytes) botmock.tooManyRequests o msg w
    = Returns ((bot.mkResponse banMessage true false false 9 ""
                               (3600 * Second)
                               (bot.mkUser 77 "alice" "Some One") 0, o), w') /\
    openai.calls w' = [openai.CallNowFn].
Proof.
  intros o msg w.
  exact (hasty_request_is_banned botmock.ToLower botmock.TrimSpace
           botmock.IsSuper (Some botmock.bytes) botmock.tooManyRequests
           o msg w "hi" (1030 * Second)
           (botmock.mkScript [botmock.answer "hello"] [] []
                             [1031 * Second; 1031 * Second] [])
           eq_refl eq_refl eq_refl ltac:(vm_compute; reflexivity)).
Defined.


Lemma super_user_is_never_limited_witness :
  let o := openai.mkOpenAI (botmock.params 5) (LegacyHistory.mkHistory 5 0 [])
                           (1000 * Second) in
  let msg := botmock.from "umputun" "gpt! hi" in
  let w := botmock.world
             (botmock.mkScript [botmock.answer "hello"] [] [1001 * Second]
                               [1002 * Second] []) in
  exists resp o' w',
    openai.OnMessage botmock.ToLower botmock.TrimSpace botmock.IsSuper
                     (Some botmock.bytes) botmock.tooManyRequests o msg w
    = Returns ((resp, o'), w') /\
    bot.Response_Text resp = "hello"%string /\
    bot.BanInterval resp = 0 /\
    openai.lastDT o' = 1000 * Second.
Proof.
  intros o msg w.
  assert (exists resp o' w',
             openai.OnMessage botmock.ToLower botmock.TrimSpace botmock.IsSuper
                              (Some botmock.bytes) botmock.tooManyRequests o msg w
             = Returns ((resp, o'), w') /\
             bot.Response_Text resp = "hello"%string)
    as (resp & o' & w' & Hrun & Htext)
      by (do 3 eexists; split; vm_compute; reflexivity).
  exists resp, o', w'. split; [exact Hrun |]. split; [exact Htext |].
  destruct (super_user_is_never_limited botmock.ToLower botmock.TrimSpace
              botmock.IsSuper (Some botmock.bytes) botmock.tooManyRequests
              o msg w "hi" resp o' w' eq_refl eq_refl Hrun)
    as (Hban & Hlast & _).
  split; [exact Hban | exact Hlast].
Defined.

Lemma OnMessage_returns_witness :
  let o := openai.mkOpenAI (botmock.params 1)
             (LegacyHistory.mkHistory 1 1 [botmock.from "bob" "hello there"]) 0 in
  let w := botmock.world
             (botmock.mkScript [botmock.answer "42"] [3; 7] [] [] [11]) in
  exists r w',
    openai.OnMessage botmock.ToLower botmock.TrimSpace botmock.IsSuper
                     (Some botmock.bytes) botmock.tooManyRequests
                     o (botmock.from "alice" "why is that?") w
    = Returns (r, w').
Proof.
  intros o w.
  apply OnMessage_returns.
  - eexists. reflexivity.
  - cbn. lia.
  - cbn. lia.
  - cbn. lia.
Defined.

Lemma mention_panics_without_history_witness :
  let o := openai.mkOpenAI (botmock.params 0) (LegacyHistory.mkHistory 0 0 []) 0 in
  let w := botmock.world
             (botmock.mkScript [botmock.answer "42"] [3; 7] [] [] [11]) in
  openai.OnMessage botmock.ToLower botmock.TrimSpace botmock.IsSuper
                   (Some botmock.bytes) botmock.tooManyRequests
                   o (botmock.from "alice" "why is that?") w
  = Panics NilDereference.
Proof.
  intros o w.
  apply (mention_panics_without_history botmock.ToLower botmock.TrimSpace
           botmock.IsSuper (Some botmock.bytes) botmock.tooManyRequests
           o (botmock.from "alice" "why is that?") w 3 7
           (botmock.mkScript [botmock.answer "42"] [7] [] [] [11])
           (botmock.mkScript [botmock.answer "42"] [] [] [] [11]));
    try reflexivity; try discriminate; cbn; lia.
Defined.
